(** * wifi-heatmapper: the measurement orchestrator of [src/lib/iperfRunner.ts]

    A shallow embedding of [runSurveyTests], [runSingleTest],
    [extractIperfData] and their helpers, and the properties of the
    orchestrator proved on it; then the client of its progress messages
    ([NewToast]), the handlers of the settings editor, the two text
    functions of the points table and the tab panel.

    Conventions of the embedding.
    - A JavaScript [number] is an exact rational or [NaN]; the infinities and
      the rounding of IEEE doubles are not represented.  Values that
      [Math.round] or [parseInt] produce are integers or [NaN]
      ([option Z], [None] being [NaN]).
    - An absent or [null] property is [None].
    - The module-level [displayStates], the mutable locals of
      [runSurveyTests] that outlive a [throw], and the chronological list of
      externally visible effects (adapter calls, subprocess launches,
      progress messages, log records, delays) form the state of a
      state-and-exception monad.  The state survives a [throw], as the
      JavaScript heap does.
    - Everything the run awaits (the platform adapter, the subprocess, the
      clock read by the progress timer, the cancellation flag) answers from
      a [World] record, indexed by attempt and by call site.
    - Left out of the run: the [console.log] of the elapsed time
      (line 260) and the arguments that the logger serialises.  The
      [iperf3] command line is modelled on its own ([iperfCommand]); the
      run records a launch by its server, direction and protocol. *)

From Stdlib Require Import ZArith QArith Qround Qabs List String Ascii Bool.
From Stdlib Require Import Lia Lqa Sorted DecimalString DecimalPos DecimalZ.
Import ListNotations.

Local Open Scope string_scope.
Local Open Scope Z_scope.

(** ** JavaScript values *)

Inductive number : Type :=
| NaN
| Num (q : Q).

(** [a === b] on numbers: [NaN] differs from everything, itself included. *)
Definition strictEq (a b : number) : bool :=
  match a, b with
  | Num x, Num y => Qeq_bool x y
  | _, _ => false
  end.

(** [a + b] *)
Definition add (a b : number) : number :=
  match a, b with
  | Num x, Num y => Num (x + y)%Q
  | _, _ => NaN
  end.

(** [x / n] for a positive integer [n] (an array length). *)
Definition divLength (x : number) (n : nat) : number :=
  match x with
  | Num q => Num (q / inject_Z (Z.of_nat n))%Q
  | NaN => NaN
  end.

(** [Math.round] on a finite number: the nearest integer, halves going up. *)
Definition Math_round (q : Q) : Z := Qfloor (q + (1 # 2))%Q.

(** [Math.round] on any number; the result is an integer or [NaN]. *)
Definition Math_roundN (x : number) : option Z :=
  match x with
  | Num q => Some (Math_round q)
  | NaN => None
  end.

(** An integer-or-[NaN] read back as a number. *)
Definition ofInt (i : option Z) : number :=
  match i with
  | Some z => Num (inject_Z z)
  | None => NaN
  end.

(** [Number.prototype.toString] on an integer or [NaN]. *)
Definition toString (i : option Z) : string :=
  match i with
  | Some z => NilZero.string_of_int (Z.to_int z)
  | None => "NaN"
  end.

(** [parseInt] on the strings [toString] produces: an optional minus sign and
    decimal digits.  Any other string is [NaN]; JavaScript also accepts
    leading blanks, a plus sign and trailing text, which no caller passes. *)
Definition parseInt (s : string) : option Z :=
  option_map Z.of_int (NilZero.int_of_string s).

Definition newline : string := String (ascii_of_nat 10) EmptyString.

(** [s.includes(sub)] *)
Fixpoint includes (s sub : string) : bool :=
  if String.prefix sub s then true
  else match s with
       | EmptyString => false
       | String _ rest => includes rest sub
       end.

(** [lines.join(sep)] *)
Definition join (sep : string) (lines : list string) : string :=
  String.concat sep lines.

(** A thrown value: an [Error] or a [TypeError], with its [message]. *)
Inductive exn : Type :=
| JsError (message : string)
| JsTypeError (message : string).

Definition message (e : exn) : string :=
  match e with
  | JsError m => m
  | JsTypeError m => m
  end.

(** How an evaluation ends: with a value, or with a thrown error. *)
Inductive Completion (A : Type) : Type :=
| Returned (a : A)
| Thrown (e : exn).
Arguments Returned {A} a.
Arguments Thrown {A} e.

(** ** Data model ([./types]) *)

Inductive TestType : Type := TCP | UDP.
Inductive TestDirection : Type := Up | Down.

Module WifiResults.
Record t : Type := mk {
  ssid : string;
  bssid : string;
  band : number;
  channel : number;
  channelWidth : number;
  security : string;
  txRate : number;
  phyMode : string;
  signalStrength : number;
  rssi : number;
  currentSSID : bool
}.
End WifiResults.

Module IperfTestProperty.
Record t : Type := mk {
  bitsPerSecond : option number;
  retransmits : option number;
  jitterMs : option number;
  lostPackets : option number;
  packetsReceived : option number;
  signalStrength : number
}.
End IperfTestProperty.

Module IperfResults.
Record t : Type := mk {
  tcpDownload : IperfTestProperty.t;
  tcpUpload : IperfTestProperty.t;
  udpDownload : IperfTestProperty.t;
  udpUpload : IperfTestProperty.t
}.

Definition set_tcpDownload (v : IperfTestProperty.t) (r : t) : t :=
  mk v (tcpUpload r) (udpDownload r) (udpUpload r).
Definition set_tcpUpload (v : IperfTestProperty.t) (r : t) : t :=
  mk (tcpDownload r) v (udpDownload r) (udpUpload r).
Definition set_udpDownload (v : IperfTestProperty.t) (r : t) : t :=
  mk (tcpDownload r) (tcpUpload r) v (udpUpload r).
Definition set_udpUpload (v : IperfTestProperty.t) (r : t) : t :=
  mk (tcpDownload r) (tcpUpload r) (udpDownload r) v.
End IperfResults.

Module Settings.
Record t : Type := mk {
  iperfServerAdrs : string;
  testDuration : Q;
  iperfTcpEnabled : bool;
  iperfUdpEnabled : bool
}.
End Settings.

(** The parsed output of [iperf3 -J], as the parameter type of
    [extractIperfData] declares it. *)
Module SumReceived.
Record t : Type := mk { bits_per_second : option number }.
End SumReceived.

Module SumSent.
Record t : Type := mk { retransmits : option number }.
End SumSent.

Module Sum.
Record t : Type := mk {
  bits_per_second : option number;
  jitter_ms : option number;
  lost_packets : option number;
  packets : option number;
  lost_percent : option number;
  retransmits : option number
}.
End Sum.

Module UdpStream.
Record t : Type := mk {
  jitter_ms : option number;
  lost_packets : option number;
  packets : option number
}.
End UdpStream.

Module End_.
Record t : Type := mk {
  sum_received : option SumReceived.t;
  sum_sent : option SumSent.t;
  sum : option Sum.t;
  streams : option (list (option UdpStream.t))
}.
End End_.

Module RawResult.
Record t : Type := mk {
  end_ : option End_.t;
  error : option string;
  version : option string
}.
End RawResult.

(** The message handed to [sendSSEMessage] ([SSEMessageType]). *)
Module SSEMessage.
Record t : Type := mk {
  type : string;
  header : string;
  status : string;
  tcpEnabled : option bool;
  udpEnabled : option bool;
  progress : option Z
}.
End SSEMessage.

(** The module-level [displayStates]. *)
Module DisplayStates.
Record t : Type := mk {
  type : string;
  header : string;
  strength : string;
  tcp : string;
  udp : string;
  tcpEnabled : bool;
  udpEnabled : bool;
  progress : Z
}.

Definition set_type (v : string) (d : t) : t :=
  mk v (header d) (strength d) (tcp d) (udp d) (tcpEnabled d) (udpEnabled d) (progress d).
Definition set_header (v : string) (d : t) : t :=
  mk (type d) v (strength d) (tcp d) (udp d) (tcpEnabled d) (udpEnabled d) (progress d).
Definition set_strength (v : string) (d : t) : t :=
  mk (type d) (header d) v (tcp d) (udp d) (tcpEnabled d) (udpEnabled d) (progress d).
Definition set_tcp (v : string) (d : t) : t :=
  mk (type d) (header d) (strength d) v (udp d) (tcpEnabled d) (udpEnabled d) (progress d).
Definition set_udp (v : string) (d : t) : t :=
  mk (type d) (header d) (strength d) (tcp d) v (tcpEnabled d) (udpEnabled d) (progress d).
Definition set_progress (v : Z) (d : t) : t :=
  mk (type d) (header d) (strength d) (tcp d) (udp d) (tcpEnabled d) (udpEnabled d) v.
End DisplayStates.

(** The value [runSurveyTests] resolves to. *)
Module SurveyResult.
Record t : Type := mk {
  iperfData : option IperfResults.t;
  wifiData : option WifiResults.t;
  status : string
}.
End SurveyResult.

(** ** Effects, state and the monad *)

Inductive AdapterCall : Type :=
| CallPreflightSettings
| CallCheckIperfServer
| CallScanWifi
| CallGetWifi.

Inductive LogLevel : Type := LevelTrace | LevelDebug | LevelWarn | LevelError.

(** What the run does to the outside, in the order it does it.  A log record
    keeps the fixed text of its call; serialised arguments are left out.  The
    subprocess is named by the arguments its command line is assembled from
    (the assembly itself, [host:port] splitting included, is [iperfCommand]). *)
Inductive Event : Type :=
| Call (op : AdapterCall)
| Exec (server : string) (testDir : TestDirection) (testType : TestType)
| SSE (m : SSEMessage.t)
| Delay (ms : Z)
| Log (level : LogLevel) (text : string).

(** The locals of [runSurveyTests] that are assigned inside a [try] and read
    after it, and [completedTests], which the progress closure reads when it
    is called. *)
Module Locals.
Record t : Type := mk {
  attempts : nat;
  newIperfData : IperfResults.t;
  newWifiData : option WifiResults.t;
  completedTests : Z
}.

Definition set_attempts (v : nat) (l : t) : t :=
  mk v (newIperfData l) (newWifiData l) (completedTests l).
Definition set_newIperfData (v : IperfResults.t) (l : t) : t :=
  mk (attempts l) v (newWifiData l) (completedTests l).
Definition set_newWifiData (v : option WifiResults.t) (l : t) : t :=
  mk (attempts l) (newIperfData l) v (completedTests l).
Definition set_completedTests (v : Z) (l : t) : t :=
  mk (attempts l) (newIperfData l) (newWifiData l) v.
End Locals.

Record St : Type := mkSt {
  displayStates : DisplayStates.t;
  locals : Locals.t;
  effects : list Event
}.

Definition M (A : Type) : Type := St -> Completion A * St.

Definition ret {A} (a : A) : M A := fun st => (Returned a, st).

Definition bind {A B} (m : M A) (k : A -> M B) : M B :=
  fun st =>
    match m st with
    | (Returned a, st') => k a st'
    | (Thrown e, st') => (Thrown e, st')
    end.

Definition throw {A} (e : exn) : M A := fun st => (Thrown e, st).

(** [try { body } catch (error) { handler }] *)
Definition tryCatch {A} (body : M A) (handler : exn -> M A) : M A :=
  fun st =>
    match body st with
    | (Returned a, st') => (Returned a, st')
    | (Thrown e, st') => handler e st'
    end.

(** [try { body } finally { fin }]: [fin] runs on both exits of [body], and an
    error thrown by [fin] replaces the completion of [body]. *)
Definition tryFinally {A} (body : M A) (fin : M unit) : M A :=
  fun st =>
    match body st with
    | (r, st') =>
        match fin st' with
        | (Returned _, st'') => (r, st'')
        | (Thrown e, st'') => (Thrown e, st'')
        end
    end.

(** A completion obtained from outside, resumed in the monad. *)
Definition resume {A} (c : Completion A) : M A := fun st => (c, st).

Declare Scope js_scope.
Delimit Scope js_scope with js.
Notation "x <- c1 ;; c2" := (bind c1 (fun x => c2))
  (at level 61, c1 at next level, right associativity) : js_scope.
Notation "c1 ;; c2" := (bind c1 (fun _ => c2))
  (at level 61, right associativity) : js_scope.
Notation "' pat <- c1 ;; c2" :=
  (bind c1 (fun x => match x with pat => c2 end))
  (at level 61, pat pattern, c1 at next level, right associativity) : js_scope.
Local Open Scope js_scope.

Definition emit (ev : Event) : M unit :=
  fun st => (Returned tt, mkSt (displayStates st) (locals st) (List.app (effects st) [ev])).

Definition getDS : M DisplayStates.t := fun st => (Returned (displayStates st), st).

Definition modifyDS (f : DisplayStates.t -> DisplayStates.t) : M unit :=
  fun st => (Returned tt, mkSt (f (displayStates st)) (locals st) (effects st)).

Definition getLocals : M Locals.t := fun st => (Returned (locals st), st).

Definition modifyLocals (f : Locals.t -> Locals.t) : M unit :=
  fun st => (Returned tt, mkSt (displayStates st) (f (locals st)) (effects st)).

Definition log (level : LogLevel) (text : string) : M unit := emit (Log level text).

Definition sendSSEMessage (m : SSEMessage.t) : M unit := emit (SSE m).

Definition delay (ms : Z) : M unit := emit (Delay ms).

(** ** The outside: what the run awaits *)

(** The three [getWifi] calls of one attempt. *)
Inductive Sample : Type := SampleBefore | SampleMiddle | SampleAfter.

(** The five [checkForCancel] calls of one attempt (lines 265, 310, 316, 348
    and 354). *)
Inductive Checkpoint : Type :=
| AfterSampleBefore
| AfterTcpPhase
| AfterSampleMiddle
| AfterUdpPhase
| AfterSampleAfter.

(** The platform adapter ([wifiActions]), the cancellation flag of
    [./server-globals], the [iperf3] subprocess and the clock of the progress
    timer.  Adapter results are reduced to the properties the run reads:
    [reason] for the two checks, [SSIDs] for the two scans.  [timerTicks]
    lists, for one subprocess, the elapsed milliseconds seen by each firing
    of the 200 ms interval before the subprocess ends. *)
Record World : Type := mkWorld {
  preflightSettings : Settings.t -> Completion string;
  checkIperfServer : Settings.t -> Completion string;
  scanWifi : Settings.t -> Completion (list WifiResults.t);
  getWifi : Settings.t -> nat -> Sample -> Completion (list WifiResults.t);
  getCancelFlag : nat -> Checkpoint -> bool;
  execAsync : string -> Q -> TestDirection -> TestType -> Completion string;
  timerTicks : string -> Q -> TestDirection -> TestType -> list Z
}.

(** The helpers imported from [./utils], whose source is not among the files
    at hand, and the built-in [JSON.parse]; the development is parametric in
    them. *)
Class Externals : Type := mkExternals {
  percentageToRssi : number -> number;
  toMbps : option number -> string;
  getDefaultIperfResults : IperfResults.t;
  JSON_parse : string -> Completion RawResult.t
}.

(** ** The program *)

Section Program.
Context {externals : Externals}.
Variable w : World.

Definition stringify (s : string) : string :=
  let quote := String (ascii_of_nat 34) EmptyString in
  quote ++ s ++ quote.

(** [validateWifiDataConsistency]: [true] when the four identity fields
    agree; otherwise it logs and falls off its end ([undefined], read as
    [false] by the caller's [!]). *)
Definition validateWifiDataConsistency
    (wifiDataBefore wifiDataAfter : WifiResults.t) : M bool :=
  if String.eqb (WifiResults.bssid wifiDataBefore) (WifiResults.bssid wifiDataAfter)
     && String.eqb (WifiResults.ssid wifiDataBefore) (WifiResults.ssid wifiDataAfter)
     && strictEq (WifiResults.band wifiDataBefore) (WifiResults.band wifiDataAfter)
     && strictEq (WifiResults.channel wifiDataBefore) (WifiResults.channel wifiDataAfter)
  then ret true
  else
    let logString :=
      stringify (WifiResults.bssid wifiDataBefore) ++ " "
      ++ stringify (WifiResults.bssid wifiDataAfter) in
    log LevelDebug logString ;;
    ret false.

Definition arrayAverage (arr : list number) : option Z :=
  if Nat.eqb (List.length arr) 0 then Some 0
  else
    let sum := fold_left add arr (Num 0) in
    Math_roundN (divLength sum (List.length arr)).

Definition initialStates : DisplayStates.t :=
  DisplayStates.mk "update" "Measurement beginning" "-" "-/- Mbps" "-/- Mbps" true true 0.

Definition getUpdatedMessage (displayStates : DisplayStates.t) : SSEMessage.t :=
  let strength := DisplayStates.strength displayStates in
  let strength := if negb (String.eqb strength "-") then strength ++ "%" else strength in
  let statusLines := ["Signal strength: " ++ strength] in
  let statusLines :=
    if DisplayStates.tcpEnabled displayStates
    then List.app statusLines ["TCP: " ++ DisplayStates.tcp displayStates]
    else statusLines in
  let statusLines :=
    if DisplayStates.udpEnabled displayStates
    then List.app statusLines ["UDP: " ++ DisplayStates.udp displayStates]
    else statusLines in
  SSEMessage.mk
    (DisplayStates.type displayStates)
    (DisplayStates.header displayStates)
    (join newline statusLines)
    (Some (DisplayStates.tcpEnabled displayStates))
    (Some (DisplayStates.udpEnabled displayStates))
    (Some (DisplayStates.progress displayStates)).

(** [sendSSEMessage(getUpdatedMessage())] *)
Definition sendUpdate : M unit :=
  ds <- getDS ;;
  sendSSEMessage (getUpdatedMessage ds).

Definition checkForCancel (cp : Checkpoint) : M unit :=
  l <- getLocals ;;
  if getCancelFlag w (Locals.attempts l) cp
  then throw (JsError "cancelled")
  else ret tt.

(** The object literal that [runSingleTest] (in its [catch]) and
    [extractIperfData] (without an [end] section) both return: every
    measurement [null], [signalStrength] 0. *)
Definition notRun : IperfTestProperty.t :=
  IperfTestProperty.mk None None None None None (Num 0).

Definition extractIperfData (result : RawResult.t) (isUdp : bool)
  : M IperfTestProperty.t :=
  match RawResult.end_ result with
  | None =>
      log LevelWarn
        ("No end data in iperf results: "
         ++ match RawResult.error result with
            | Some (String c s) => String c s
            | _ => "unknown error"
            end) ;;
      ret notRun
  | Some end_ =>
      let isNewVersion :=
        match End_.sum_received end_ with Some _ => true | None => false end in
      let sum_bits_per_second :=
        match End_.sum end_ with Some s => Sum.bits_per_second s | None => None end in
      let bitsPerSecond :=
        if isNewVersion then
          if isUdp then sum_bits_per_second
          else match End_.sum_received end_ with
               | Some r => SumReceived.bits_per_second r
               | None => None
               end
        else sum_bits_per_second in
      bitsPerSecond <-
        match bitsPerSecond with
        | None =>
            log LevelWarn "No bits per second found in iperf results, reporting as --" ;;
            ret None
        | Some b =>
            if strictEq b (Num 0) then
              log LevelWarn "No bits per second found in iperf results, reporting as --" ;;
              ret None
            else ret (Some b)
        end ;;
      let retransmits :=
        if isNewVersion then
          match End_.sum_sent end_ with Some s => SumSent.retransmits s | None => None end
        else
          match End_.sum end_ with Some s => Sum.retransmits s | None => None end in
      ret (IperfTestProperty.mk
             bitsPerSecond
             retransmits
             (if isUdp
              then match End_.sum end_ with Some s => Sum.jitter_ms s | None => None end
              else None)
             (if isUdp
              then match End_.sum end_ with Some s => Sum.lost_packets s | None => None end
              else None)
             (if isUdp
              then match End_.sum end_ with Some s => Sum.packets s | None => None end
              else None)
             (Num 0))
  end.

(** One firing of the interval timer of [runSingleTest]. *)
Definition intervalTick (testDurationMs : Q) (onProgress : Z -> M unit)
    (elapsed : Z) : M unit :=
  let percent :=
    Z.min (Math_round (inject_Z elapsed / testDurationMs * 100)%Q) 99 in
  onProgress percent.

Fixpoint fireTicks (tick : Z -> M unit) (elapsedTimes : list Z) : M unit :=
  match elapsedTimes with
  | [] => ret tt
  | elapsed :: later => tick elapsed ;; fireTicks tick later
  end.

(** [await execAsync(command)]: the subprocess is started, the interval timer
    (set only when [onProgress] is given) fires while the run is suspended,
    and the call resolves with the standard output or rejects. *)
Definition awaitExec (server : string) (duration : Q) (testDir : TestDirection)
    (testType : TestType) (testDurationMs : Q) (onProgress : option (Z -> M unit))
  : M string :=
  emit (Exec server testDir testType) ;;
  match onProgress with
  | Some cb =>
      fireTicks (intervalTick testDurationMs cb)
        (timerTicks w server duration testDir testType)
  | None => ret tt
  end ;;
  resume (execAsync w server duration testDir testType).

Definition runSingleTest (server : string) (duration : Q)
    (testDir : TestDirection) (testType : TestType)
    (onProgress : option (Z -> M unit)) : M IperfTestProperty.t :=
  let isUdp := match testType with UDP => true | TCP => false end in
  let testDurationMs := (duration * 1000)%Q in
  tryFinally
    (tryCatch
       (stdout <- awaitExec server duration testDir testType testDurationMs onProgress ;;
        result <- resume (JSON_parse stdout) ;;
        log LevelTrace "Iperf JSON-parsed result:" ;;
        extracted <- extractIperfData result isUdp ;;
        log LevelTrace "Iperf extracted results:" ;;
        ret extracted)
       (fun error =>
          log LevelError "iperf3 test failed" ;;
          ret notRun))
    (match onProgress with
     | Some cb => cb 100
     | None => ret tt
     end).

(** [arr[0].property]: a [TypeError] when the array is empty. *)
Definition first {A} (arr : list A) (property : string) : M A :=
  match arr with
  | x :: _ => ret x
  | [] =>
      throw (JsTypeError
               ("Cannot read properties of undefined (reading '" ++ property ++ "')"))
  end.

(** [await wifiActions.getWifi(settings)] *)
Definition awaitGetWifi (settings : Settings.t) (sample : Sample)
  : M (list WifiResults.t) :=
  l <- getLocals ;;
  emit (Call CallGetWifi) ;;
  resume (getWifi w settings (Locals.attempts l) sample).

(** [totalTests > 0 ? 100 / totalTests : 0] *)
Definition progressPerTest (totalTests : Z) : Q :=
  if 0 <? totalTests then (100 / inject_Z totalTests)%Q else 0%Q.

(** The closure [createProgressCallback()] returns; it reads
    [completedTests] when it is called. *)
Definition progressCallback (progressPerTest : Q) (percent : Z) : M unit :=
  l <- getLocals ;;
  let baseProgress := (inject_Z (Locals.completedTests l) * progressPerTest)%Q in
  let testProgress := (inject_Z percent / 100 * progressPerTest)%Q in
  modifyDS (DisplayStates.set_progress (Math_round (baseProgress + testProgress)%Q)) ;;
  sendUpdate.

Definition completedTestsIncr : M unit :=
  modifyLocals (fun l => Locals.set_completedTests (Locals.completedTests l + 1) l).

Definition assignResult
    (set : IperfTestProperty.t -> IperfResults.t -> IperfResults.t)
    (v : IperfTestProperty.t) : M unit :=
  modifyLocals (fun l => Locals.set_newIperfData (set v (Locals.newIperfData l)) l).

(** Lines 248-266: the header, the first sample, the first checkpoint. *)
Definition samplingBefore (settings : Settings.t) (ssidName : string)
  : M (list WifiResults.t * list number) :=
  let newHeader := "Measuring Wi-Fi" in
  let newHeader :=
    if negb (includes ssidName "redacted")
    then newHeader ++ " (" ++ ssidName ++ ")"
    else newHeader in
  modifyDS (DisplayStates.set_header newHeader) ;;
  wifiDataBefore <- awaitGetWifi settings SampleBefore ;;
  log LevelDebug "getWifi() returned: " ;;
  s <- first wifiDataBefore "signalStrength" ;;
  let wifiStrengths := [WifiResults.signalStrength s] in
  modifyDS (DisplayStates.set_strength (toString (arrayAverage wifiStrengths))) ;;
  checkForCancel AfterSampleBefore ;;
  sendUpdate ;;
  ret (wifiDataBefore, wifiStrengths).

(** Lines 282-311: the two TCP tests, or the notice that they are skipped. *)
Definition tcpPhase (server : string) (duration : Q) (tcpEnabled : bool)
    (progressPerTest : Q) (noIperfTestReason : string) : M unit :=
  (if tcpEnabled then
     modifyDS (DisplayStates.set_tcp "Testing...") ;;
     r <- runSingleTest server duration Down TCP
            (Some (progressCallback progressPerTest)) ;;
     assignResult IperfResults.set_tcpDownload r ;;
     completedTestsIncr ;;
     l <- getLocals ;;
     let down := IperfResults.tcpDownload (Locals.newIperfData l) in
     modifyDS (DisplayStates.set_tcp
                 (toMbps (IperfTestProperty.bitsPerSecond down) ++ " / ... Mbps")) ;;
     sendUpdate ;;
     r <- runSingleTest server duration Up TCP
            (Some (progressCallback progressPerTest)) ;;
     assignResult IperfResults.set_tcpUpload r ;;
     completedTestsIncr ;;
     l <- getLocals ;;
     let down := IperfResults.tcpDownload (Locals.newIperfData l) in
     let up := IperfResults.tcpUpload (Locals.newIperfData l) in
     modifyDS (DisplayStates.set_tcp
                 (toMbps (IperfTestProperty.bitsPerSecond down) ++ " / "
                  ++ toMbps (IperfTestProperty.bitsPerSecond up) ++ " Mbps"))
   else
     ds <- getDS ;;
     if DisplayStates.tcpEnabled ds then
       delay 500 ;;
       modifyDS (DisplayStates.set_tcp noIperfTestReason)
     else ret tt) ;;
  checkForCancel AfterTcpPhase ;;
  sendUpdate.

(** Lines 313-317: the second sample and its checkpoint. *)
Definition samplingMiddle (settings : Settings.t) (wifiStrengths : list number)
  : M (list number) :=
  wifiDataMiddle <- awaitGetWifi settings SampleMiddle ;;
  s <- first wifiDataMiddle "signalStrength" ;;
  let wifiStrengths := List.app wifiStrengths [WifiResults.signalStrength s] in
  modifyDS (DisplayStates.set_strength (toString (arrayAverage wifiStrengths))) ;;
  checkForCancel AfterSampleMiddle ;;
  sendUpdate ;;
  ret wifiStrengths.

(** Lines 319-349: the two UDP tests, or the notice that they are skipped;
    then the progress is set to 100. *)
Definition udpPhase (server : string) (duration : Q) (udpEnabled : bool)
    (progressPerTest : Q) (noIperfTestReason : string) : M unit :=
  (if udpEnabled then
     modifyDS (DisplayStates.set_udp "Testing...") ;;
     r <- runSingleTest server duration Down UDP
            (Some (progressCallback progressPerTest)) ;;
     assignResult IperfResults.set_udpDownload r ;;
     completedTestsIncr ;;
     l <- getLocals ;;
     let down := IperfResults.udpDownload (Locals.newIperfData l) in
     modifyDS (DisplayStates.set_udp
                 (toMbps (IperfTestProperty.bitsPerSecond down) ++ " / ... Mbps")) ;;
     sendUpdate ;;
     r <- runSingleTest server duration Up UDP
            (Some (progressCallback progressPerTest)) ;;
     assignResult IperfResults.set_udpUpload r ;;
     completedTestsIncr ;;
     l <- getLocals ;;
     let down := IperfResults.udpDownload (Locals.newIperfData l) in
     let up := IperfResults.udpUpload (Locals.newIperfData l) in
     modifyDS (DisplayStates.set_udp
                 (toMbps (IperfTestProperty.bitsPerSecond down) ++ " / "
                  ++ toMbps (IperfTestProperty.bitsPerSecond up) ++ " Mbps"))
   else
     ds <- getDS ;;
     if DisplayStates.udpEnabled ds then
       delay 500 ;;
       modifyDS (DisplayStates.set_udp noIperfTestReason)
     else ret tt) ;;
  modifyDS (DisplayStates.set_progress 100) ;;
  checkForCancel AfterUdpPhase ;;
  sendUpdate.

(** Lines 351-359: the third sample, its checkpoint, and the final update
    of type [done]. *)
Definition samplingAfter (settings : Settings.t) (wifiStrengths : list number)
  : M (list WifiResults.t) :=
  wifiDataAfter <- awaitGetWifi settings SampleAfter ;;
  s <- first wifiDataAfter "signalStrength" ;;
  let wifiStrengths := List.app wifiStrengths [WifiResults.signalStrength s] in
  modifyDS (DisplayStates.set_strength (toString (arrayAverage wifiStrengths))) ;;
  checkForCancel AfterSampleAfter ;;
  modifyDS (DisplayStates.set_type "done") ;;
  modifyDS (DisplayStates.set_header "Measurement complete") ;;
  sendUpdate ;;
  ret wifiDataAfter.

(** Lines 361-377: the consistency check and the Wi-Fi entry to return. *)
Definition validateAndBuild (wifiDataBefore wifiDataAfter : list WifiResults.t)
  : M unit :=
  before <- first wifiDataBefore "bssid" ;;
  after <- first wifiDataAfter "bssid" ;;
  consistent <- validateWifiDataConsistency before after ;;
  (if negb consistent then
     throw (JsError
       "Wifi configuration changed between scans! Cancelling instead of giving wrong results.")
   else ret tt) ;;
  ds <- getDS ;;
  let strength := parseInt (DisplayStates.strength ds) in
  modifyLocals
    (Locals.set_newWifiData
       (Some (WifiResults.mk
                (WifiResults.ssid before) (WifiResults.bssid before)
                (WifiResults.band before) (WifiResults.channel before)
                (WifiResults.channelWidth before) (WifiResults.security before)
                (WifiResults.txRate before) (WifiResults.phyMode before)
                (ofInt strength)
                (percentageToRssi (ofInt strength))
                (WifiResults.currentSSID before)))).

(** The body of the inner [try] (lines 248-377). *)
Definition attempt (settings : Settings.t) (ssidName : string)
    (performIperfTest : bool) (noIperfTestReason : string) : M unit :=
  let server := Settings.iperfServerAdrs settings in
  let duration := Settings.testDuration settings in
  '(wifiDataBefore, wifiStrengths) <- samplingBefore settings ssidName ;;
  let tcpEnabled := performIperfTest && Settings.iperfTcpEnabled settings in
  let udpEnabled := performIperfTest && Settings.iperfUdpEnabled settings in
  let totalTests := (if tcpEnabled then 2 else 0) + (if udpEnabled then 2 else 0) in
  let progressPerTest := progressPerTest totalTests in
  modifyLocals (Locals.set_completedTests 0) ;;
  tcpPhase server duration tcpEnabled progressPerTest noIperfTestReason ;;
  wifiStrengths <- samplingMiddle settings wifiStrengths ;;
  udpPhase server duration udpEnabled progressPerTest noIperfTestReason ;;
  wifiDataAfter <- samplingAfter settings wifiStrengths ;;
  validateAndBuild wifiDataBefore wifiDataAfter.

Definition maxRetries : nat := 1.

(** The [while (attempts < maxRetries)] loop (lines 245-388).  [Some r] is a
    [return r] from inside the loop; [None] is the loop running out.  Every
    iteration increments [attempts], so [maxRetries] iterations exhaust the
    condition; [remaining] is that bound. *)
Fixpoint retryLoop (remaining : nat) (settings : Settings.t) (ssidName : string)
    (performIperfTest : bool) (noIperfTestReason : string)
  : M (option SurveyResult.t) :=
  match remaining with
  | O => ret None
  | S remaining' =>
      l <- getLocals ;;
      if Nat.ltb (Locals.attempts l) maxRetries then
        modifyLocals (fun l => Locals.set_attempts (S (Locals.attempts l)) l) ;;
        returned <-
          tryCatch
            (attempt settings ssidName performIperfTest noIperfTestReason ;;
             ret None)
            (fun error =>
               log LevelError "Attempt failed:" ;;
               if String.eqb (message error) "cancelled"
               then ret (Some (SurveyResult.mk None None "test was cancelled"))
               else ret None) ;;
        match returned with
        | Some r => ret (Some r)
        | None =>
            retryLoop remaining' settings ssidName performIperfTest noIperfTestReason
        end
      else ret None
  end.

Definition runSurveyTests (settings : Settings.t) : M SurveyResult.t :=
  emit (Call CallPreflightSettings) ;;
  reason <- resume (preflightSettings w settings) ;;
  if negb (String.eqb reason "") then
    log LevelDebug "preflightSettings returned: " ;;
    ret (SurveyResult.mk None None reason)
  else
    p <-
      (if String.eqb (Settings.iperfServerAdrs settings) "localhost"
       then ret (false, "Not performed")
       else
         emit (Call CallCheckIperfServer) ;;
         reason <- resume (checkIperfServer w settings) ;;
         log LevelDebug "checkIperfServer returned: " ;;
         if negb (String.eqb reason "") then ret (false, reason) else ret (true, "")) ;;
    let '(performIperfTest, noIperfTestReason) := p in
    tryCatch
      (modifyLocals
         (fun l => Locals.mk 0 getDefaultIperfResults None (Locals.completedTests l)) ;;
       modifyDS
         (fun _ =>
            DisplayStates.mk
              (DisplayStates.type initialStates)
              (DisplayStates.header initialStates)
              (DisplayStates.strength initialStates)
              (DisplayStates.tcp initialStates)
              (DisplayStates.udp initialStates)
              (performIperfTest && Settings.iperfTcpEnabled settings)
              (performIperfTest && Settings.iperfUdpEnabled settings)
              (DisplayStates.progress initialStates)) ;;
       sendUpdate ;;
       modifyDS (DisplayStates.set_header "Measurement in progress...") ;;
       emit (Call CallScanWifi) ;;
       ssids <- resume (scanWifi w settings) ;;
       log LevelDebug "scanWifi returned: " ;;
       let thisSSID := filter WifiResults.currentSSID ssids in
       s <- first thisSSID "ssid" ;;
       let ssidName := WifiResults.ssid s in
       returned <-
         retryLoop maxRetries settings ssidName performIperfTest noIperfTestReason ;;
       match returned with
       | Some r => ret r
       | None =>
           l <- getLocals ;;
           ret (SurveyResult.mk
                  (Some (Locals.newIperfData l)) (Locals.newWifiData l) "")
       end)
      (fun error =>
         log LevelError "Error running measurement tests:" ;;
         sendSSEMessage
           (SSEMessage.mk "done" "Error" "Error taking measurements" None None None) ;;
         throw error).

End Program.

(** The state a run starts from: whatever [displayStates] the module holds,
    and nothing done yet. *)
Definition startState {externals : Externals} (ds : DisplayStates.t) : St :=
  mkSt ds (Locals.mk 0 getDefaultIperfResults None 0) [].

(** The value of [displayStates] when the module is loaded (line 131). *)
Definition moduleDisplayStates : DisplayStates.t :=
  DisplayStates.mk "update" "In progress" "-" "-/- Mbps" "-/- Mbps" true true 0.

(** The progress messages among the effects, oldest first. *)
Fixpoint published (evs : list Event) : list SSEMessage.t :=
  match evs with
  | [] => []
  | SSE m :: rest => m :: published rest
  | _ :: rest => published rest
  end.

(** ** A concrete world for examples *)

Module Demo.

Definition entry (bssid : string) (strength : Z) : WifiResults.t :=
  WifiResults.mk "home" bssid (Num 5) (Num 36) (Num 80) "WPA2" (Num 866) "802.11ac"
    (Num (inject_Z strength)) (Num (-60)) true.

Definition payloadTcp : RawResult.t :=
  RawResult.mk
    (Some (End_.mk (Some (SumReceived.mk (Some (Num 500000000))))
                   (Some (SumSent.mk (Some (Num 12))))
                   (Some (Sum.mk (Some (Num 51000000)) (Some (Num (1 # 4)))
                                 (Some (Num 3)) (Some (Num 1000)) None (Some (Num 7))))
                   None))
    None None.

#[export] Instance externals : Externals :=
  mkExternals
    (fun p => match p with Num q => Num (q / 2 - 100)%Q | NaN => NaN end)
    (fun b => match b with Some _ => "yes" | None => "--" end)
    (IperfResults.mk notRun notRun notRun notRun)
    (fun stdout => if String.eqb stdout "json" then Returned payloadTcp
                   else Thrown (JsError "Unexpected token")).

Definition settings : Settings.t := Settings.mk "10.0.0.2" 10 true true.

(** A world whose adapter accepts the settings, finds the server, reports
    signal strengths 40, 44 and 46, and whose clock fires the timer four
    times per test; the scan result, the access point seen by the last
    sample, the cancellation flag and the subprocess outcome are left
    open. *)
Definition world (scan : Completion (list WifiResults.t)) (bssidAfter : string)
    (cancelAt : Checkpoint -> bool) (exec : Completion string) : World :=
  mkWorld
    (fun _ => Returned "")
    (fun _ => Returned "")
    (fun _ => scan)
    (fun _ _ sample =>
       match sample with
       | SampleBefore => Returned [entry "aa:bb" 40]
       | SampleMiddle => Returned [entry "aa:bb" 44]
       | SampleAfter => Returned [entry bssidAfter 46]
       end)
    (fun _ cp => cancelAt cp)
    (fun _ _ _ _ => exec)
    (fun _ _ _ _ => [200; 5000; 9800; 12000]).

Definition scanned : Completion (list WifiResults.t) := Returned [entry "aa:bb" 40].

Definition never : Checkpoint -> bool := fun _ => false.

(** Every step succeeds and the network stays the same. *)
Definition steady : World := world scanned "aa:bb" never (Returned "json").

(** The access point changes between the first and the last sample. *)
Definition roamed : World := world scanned "aa:cc" never (Returned "json").

(** The [iperf3] subprocess cannot be run. *)
Definition offline : World :=
  world scanned "aa:bb" never (Thrown (JsError "Command failed: iperf3")).

(** A stop request arrives during the first sample. *)
Definition stopped : World :=
  world scanned "aa:bb"
    (fun cp => match cp with AfterSampleBefore => true | _ => false end)
    (Returned "json").

(** The scan lists no network as the current one. *)
Definition unassociated : World :=
  world (Returned [WifiResults.mk "other" "ee:ff" (Num 5) (Num 36) (Num 80) "WPA2"
                     (Num 866) "802.11ac" (Num 30) (Num (-80)) false])
    "aa:bb" never (Returned "json").

(** The adapter refuses the settings. *)
Definition refused : World :=
  mkWorld
    (fun _ => Returned "Please set the sudo password")
    (checkIperfServer steady) (scanWifi steady) (getWifi steady)
    (getCancelFlag steady) (execAsync steady) (timerTicks steady).

Definition start : St := startState moduleDisplayStates.

End Demo.


(** ** Vocabulary of the statements *)

(** The throughput figure the specification selects: with the split section
    ([sum_received]) present, [sum_received] for TCP and [sum] for UDP;
    without it, [sum]. *)
Definition selectedThroughput (end_ : End_.t) (isUdp : bool) : option number :=
  let fromSum :=
    match End_.sum end_ with Some s => Sum.bits_per_second s | None => None end in
  match End_.sum_received end_, isUdp with
  | Some received, false => SumReceived.bits_per_second received
  | Some _, true => fromSum
  | None, _ => fromSum
  end.

(** The retransmit count the specification selects: [sum_sent] with the split
    section present, [sum] without it. *)
Definition selectedRetransmits (end_ : End_.t) : option number :=
  match End_.sum_received end_ with
  | Some _ =>
      match End_.sum_sent end_ with Some s => SumSent.retransmits s | None => None end
  | None =>
      match End_.sum end_ with Some s => Sum.retransmits s | None => None end
  end.

(** The payload [end_] with its selected throughput figure replaced by [v]
    ([None] removes the figure). *)
Definition withThroughput (isUdp : bool) (v : option number) (end_ : End_.t) : End_.t :=
  let sum' :=
    match End_.sum end_ with
    | Some s =>
        Sum.mk v (Sum.jitter_ms s) (Sum.lost_packets s) (Sum.packets s)
          (Sum.lost_percent s) (Sum.retransmits s)
    | None => Sum.mk v None None None None None
    end in
  match End_.sum_received end_, isUdp with
  | Some _, false =>
      End_.mk (Some (SumReceived.mk v)) (End_.sum_sent end_) (End_.sum end_)
        (End_.streams end_)
  | _, _ =>
      End_.mk (End_.sum_received end_) (End_.sum_sent end_) (Some sum')
        (End_.streams end_)
  end.

(** The number of messages of type [done] among published messages. *)
Definition doneCount (ms : list SSEMessage.t) : nat :=
  List.length (filter (fun m => String.eqb (SSEMessage.type m) "done") ms).

(** The progress values of the messages that carry one, oldest first. *)
Fixpoint progressValues (ms : list SSEMessage.t) : list Z :=
  match ms with
  | [] => []
  | m :: rest =>
      match SSEMessage.progress m with
      | Some p => p :: progressValues rest
      | None => progressValues rest
      end
  end.

(** The percentage one firing of the interval timer reports. *)
Definition tickPercent (duration : Q) (elapsed : Z) : Z :=
  Z.min (Math_round (inject_Z elapsed / (duration * 1000) * 100)%Q) 99.

(** The progress the closure of [createProgressCallback] stores. *)
Definition callbackProgress (completedTests : Z) (progressPerTest : Q) (percent : Z) : Z :=
  Math_round (inject_Z completedTests * progressPerTest
              + inject_Z percent / 100 * progressPerTest)%Q.

(** The progress values one bandwidth test publishes: one per timer tick,
    then the one of its closing call at 100 percent. *)
Definition unitProgress (completedTests : Z) (progressPerTest : Q) (duration : Q)
    (elapsedTimes : list Z) : list Z :=
  List.app
    (map (fun elapsed => callbackProgress completedTests progressPerTest
                           (tickPercent duration elapsed)) elapsedTimes)
    [callbackProgress completedTests progressPerTest 100].

(** The condition of [validateWifiDataConsistency]. *)
Definition agree (before after : WifiResults.t) : bool :=
  String.eqb (WifiResults.bssid before) (WifiResults.bssid after)
  && String.eqb (WifiResults.ssid before) (WifiResults.ssid after)
  && strictEq (WifiResults.band before) (WifiResults.band after)
  && strictEq (WifiResults.channel before) (WifiResults.channel after).

(** The error thrown at line 367. *)
Definition changedError : exn :=
  JsError
    "Wifi configuration changed between scans! Cancelling instead of giving wrong results.".

(** The message of the top-level [catch] (lines 394-398). *)
Definition errorMessage : SSEMessage.t :=
  SSEMessage.mk "done" "Error" "Error taking measurements" None None None.

(** The Wi-Fi entry a consistent attempt stores: the first sample with the
    averaged strength and the RSSI computed from it. *)
Definition averaged {externals : Externals} (b : WifiResults.t) (average : option Z)
  : WifiResults.t :=
  WifiResults.mk
    (WifiResults.ssid b) (WifiResults.bssid b)
    (WifiResults.band b) (WifiResults.channel b)
    (WifiResults.channelWidth b) (WifiResults.security b)
    (WifiResults.txRate b) (WifiResults.phyMode b)
    (ofInt average) (percentageToRssi (ofInt average))
    (WifiResults.currentSSID b).

(** The server check is skipped ([localhost]) or answers. *)
Definition probed (w : World) (settings : Settings.t) : Prop :=
  Settings.iperfServerAdrs settings = "localhost"
  \/ exists reason, checkIperfServer w settings = Returned reason.

(** A run in which nothing interrupts the measurement: the settings pass
    preflight, the server check is skipped or answers, the scan lists a
    current network, the three samples of the first attempt arrive with
    [b], [m] and [a] as their first entries, and no checkpoint of that
    attempt sees the cancellation flag. *)
Definition measures (w : World) (settings : Settings.t) (b m a : WifiResults.t) : Prop :=
  preflightSettings w settings = Returned ""
  /\ probed w settings
  /\ (exists ssids s others,
        scanWifi w settings = Returned ssids
        /\ filter WifiResults.currentSSID ssids = s :: others)
  /\ (exists rest, getWifi w settings 1%nat SampleBefore = Returned (b :: rest))
  /\ (exists rest, getWifi w settings 1%nat SampleMiddle = Returned (m :: rest))
  /\ (exists rest, getWifi w settings 1%nat SampleAfter = Returned (a :: rest))
  /\ (forall cp, getCancelFlag w 1%nat cp = false).

(** The scan throws, or lists no network as the current one. *)
Definition scanFails (w : World) (settings : Settings.t) : Prop :=
  (exists e, scanWifi w settings = Thrown e)
  \/ (exists ssids, scanWifi w settings = Returned ssids
                    /\ filter WifiResults.currentSSID ssids = []).

(** The first and last samples differ in one of the four identity fields. *)
Definition differ (b a : WifiResults.t) : Prop :=
  WifiResults.bssid b <> WifiResults.bssid a
  \/ WifiResults.ssid b <> WifiResults.ssid a
  \/ strictEq (WifiResults.band b) (WifiResults.band a) = false
  \/ strictEq (WifiResults.channel b) (WifiResults.channel a) = false.

Definition isExec (ev : Event) : bool :=
  match ev with Exec _ _ _ => true | _ => false end.

Definition isGetWifi (ev : Event) : bool :=
  match ev with Call CallGetWifi => true | _ => false end.

(** The clock of the progress timer behaves: the duration of a test is
    positive, and the elapsed times the interval reads during one test are
    non-negative and do not decrease. *)
Definition ticksSane (w : World) (server : string) (duration : Q) : Prop :=
  (0 < duration)%Q
  /\ forall dir ty,
       StronglySorted Z.le (timerTicks w server duration dir ty)
       /\ Forall (fun elapsed => 0 <= elapsed) (timerTicks w server duration dir ty).

Definition clockSane (w : World) (settings : Settings.t) : Prop :=
  ticksSane w (Settings.iperfServerAdrs settings) (Settings.testDuration settings).

(** The progress published so far does not decrease, and does not exceed the
    progress [displayStates] holds. *)
Definition mono (st : St) : Prop :=
  StronglySorted Z.le
    (List.app (progressValues (published (effects st)))
       [DisplayStates.progress (displayStates st)]).

(** The progress [displayStates] holds does not exceed the start of the next
    test unit. *)
Definition within (progressPerTest : Q) (st : St) : Prop :=
  DisplayStates.progress (displayStates st)
  <= callbackProgress (Locals.completedTests (locals st)) progressPerTest 0.

(** [totalTests] of line 271. *)
Definition totalTests (tcpEnabled udpEnabled : bool) : Z :=
  (if tcpEnabled then 2 else 0) + (if udpEnabled then 2 else 0).
(** ** Vocabulary of the run-wide invariants *)

(** The adapter calls and subprocess launches among the effects, oldest
    first. *)
Definition isLaunch (ev : Event) : bool :=
  match ev with
  | Call _ => true
  | Exec _ _ _ => true
  | _ => false
  end.

Definition launches (evs : list Event) : list Event := filter isLaunch evs.

(** The value [performIperfTest] has once lines 197-212 are through. *)
Definition performs (w : World) (settings : Settings.t) : bool :=
  negb (String.eqb (Settings.iperfServerAdrs settings) "localhost")
  && match checkIperfServer w settings with
     | Returned reason => String.eqb reason ""
     | Thrown _ => false
     end.

Definition enabledType (tcpEnabled udpEnabled : bool) (ty : TestType) : bool :=
  match ty with
  | TCP => tcpEnabled
  | UDP => udpEnabled
  end.

(** What a run with the flags [tcpEnabled] and [udpEnabled] may do: launch
    [iperf3] against [server] for an enabled protocol, publish the message of
    the top-level [catch] or a message that carries these flags and a
    progress, call the adapter and log.  It may not pause. *)
Definition allowed (server : string) (tcpEnabled udpEnabled : bool) (ev : Event) : Prop :=
  match ev with
  | Exec s _ ty => s = server /\ enabledType tcpEnabled udpEnabled ty = true
  | Delay _ => False
  | SSE m =>
      m = errorMessage
      \/ (SSEMessage.tcpEnabled m = Some tcpEnabled
          /\ SSEMessage.udpEnabled m = Some udpEnabled
          /\ SSEMessage.progress m <> None)
  | _ => True
  end.

(** [displayStates] holds the flags, and everything done so far is
    [allowed]. *)
Definition sound (server : string) (tcpEnabled udpEnabled : bool) (st : St) : Prop :=
  DisplayStates.tcpEnabled (displayStates st) = tcpEnabled
  /\ DisplayStates.udpEnabled (displayStates st) = udpEnabled
  /\ Forall (allowed server tcpEnabled udpEnabled) (effects st).

(** The two tests of one protocol, in the order they are run. *)
Definition bandwidthPair (server : string) (ty : TestType) (on : bool) : list Event :=
  if on then [Exec server Down ty; Exec server Up ty] else [].

(** The calls and launches of one attempt (lines 258-351), in order. *)
Definition attemptPlan (server : string) (tcpEnabled udpEnabled : bool) : list Event :=
  List.app [Call CallGetWifi]
    (List.app (bandwidthPair server TCP tcpEnabled)
       (List.app [Call CallGetWifi]
          (List.app (bandwidthPair server UDP udpEnabled)
             [Call CallGetWifi]))).

(** The calls and launches of a whole run (lines 188-351), in order. *)
Definition runPlan (w : World) (settings : Settings.t) : list Event :=
  let server := Settings.iperfServerAdrs settings in
  List.app [Call CallPreflightSettings]
    (List.app (if String.eqb server "localhost" then [] else [Call CallCheckIperfServer])
       (List.app [Call CallScanWifi]
          (attemptPlan server
             (performs w settings && Settings.iperfTcpEnabled settings)
             (performs w settings && Settings.iperfUdpEnabled settings)))).

(** No message of type [done] has been published, and [displayStates] still
    has the type [update]. *)
Definition quiet (st : St) : Prop :=
  DisplayStates.type (displayStates st) = "update"
  /\ doneCount (published (effects st)) = 0%nat.

(** What [runSurveyTests] returns from inside its retry loop (lines
    381-385). *)
Definition cancelledResult : SurveyResult.t :=
  SurveyResult.mk None None "test was cancelled".

(** The error [checkForCancel] throws (line 172). *)
Definition cancelled : exn := JsError "cancelled".

(** What one bandwidth test resolves to: the all-null result when the
    subprocess fails or its output does not parse, and otherwise what
    [extractIperfData] makes of the payload. *)
Definition testOutcome {externals : Externals} (w : World) (server : string)
    (duration : Q) (testDir : TestDirection) (testType : TestType)
  : IperfTestProperty.t :=
  match execAsync w server duration testDir testType with
  | Thrown _ => notRun
  | Returned stdout =>
      match JSON_parse stdout with
      | Thrown _ => notRun
      | Returned result =>
          match fst (extractIperfData result
                       (match testType with UDP => true | TCP => false end)
                       (mkSt moduleDisplayStates
                          (Locals.mk 0 getDefaultIperfResults None 0) [])) with
          | Returned r => r
          | Thrown _ => notRun
          end
      end
  end.

(** The bandwidth record of a run that goes through its attempt: the
    outcome of each test of an enabled protocol in its own slot, and the
    default in the slots of a protocol that is not run. *)
Definition measuredRecord {externals : Externals} (w : World) (settings : Settings.t)
  : IperfResults.t :=
  let server := Settings.iperfServerAdrs settings in
  let duration := Settings.testDuration settings in
  let tcpE := performs w settings && Settings.iperfTcpEnabled settings in
  let udpE := performs w settings && Settings.iperfUdpEnabled settings in
  let d := getDefaultIperfResults in
  IperfResults.mk
    (if tcpE then testOutcome w server duration Down TCP else IperfResults.tcpDownload d)
    (if tcpE then testOutcome w server duration Up TCP else IperfResults.tcpUpload d)
    (if udpE then testOutcome w server duration Down UDP else IperfResults.udpDownload d)
    (if udpE then testOutcome w server duration Up UDP else IperfResults.udpUpload d).

(** The assignments of lines 285, 296, 322 and 333 to [newIperfData]. *)
Definition storeOutcomes {externals : Externals} (w : World) (server : string)
    (duration : Q) (tcpE udpE : bool) (old : IperfResults.t) : IperfResults.t :=
  let afterTcp :=
    if tcpE
    then IperfResults.set_tcpUpload (testOutcome w server duration Up TCP)
           (IperfResults.set_tcpDownload (testOutcome w server duration Down TCP) old)
    else old in
  if udpE
  then IperfResults.set_udpUpload (testOutcome w server duration Up UDP)
         (IperfResults.set_udpDownload (testOutcome w server duration Down UDP) afterTcp)
  else afterTcp.

(** ** The command line of a bandwidth test (lines 413-423) *)

(** [s.split(separator)] for a separator of one character. *)
Fixpoint split (s : string) (separator : ascii) : list string :=
  match s with
  | EmptyString => [EmptyString]
  | String c rest =>
      if Ascii.eqb c separator then EmptyString :: split rest separator
      else match split rest separator with
           | piece :: pieces => String c piece :: pieces
           | [] => [String c EmptyString]
           end
  end.

Definition colon : ascii := ascii_of_nat 58.

(** The command [runSingleTest] hands to [execAsync].  [numberToText] is
    the conversion of a number to text that the template literal applies to
    [duration].  [port] starts as the empty string and is [serverPort] after
    the destructuring of [server.split(":")]; [None] is [undefined]. *)
Definition iperfCommand (numberToText : Q -> string) (server : string) (duration : Q)
    (testDir : TestDirection) (testType : TestType) : string :=
  let '(server, port) :=
    if includes server ":" then
      match split server colon with
      | host :: serverPort :: _ => (host, Some serverPort)
      | [host] => (host, None)
      | [] => ("undefined", None)
      end
    else (server, Some "") in
  let isUdp := match testType with UDP => true | TCP => false end in
  let isDownload := match testDir with Down => true | Up => false end in
  "iperf3 -c " ++ server ++ " "
  ++ match port with
     | Some (String c p) => "-p " ++ String c p
     | _ => ""
     end
  ++ " -t " ++ numberToText duration ++ " "
  ++ (if isDownload then "-R" else "") ++ " "
  ++ (if isUdp then "-u -b 0" else "") ++ " -J".

(** ** The progress toast of [src/components/NewToast.tsx] *)

(** The state of the component: its five state hooks, whether its
    [EventSource] is open, how often it called [toastIsReady], and how many
    timers it set to close itself. *)
Module Toast.
Record t : Type := mk {
  toastHeader : string;
  toastStatus : string;
  taskRunning : bool;
  progress : Z;
  showProgress : bool;
  connected : bool;
  readySignals : nat;
  closeTimers : nat
}.
End Toast.

(** The component once mounted: the initial values of its hooks, the
    connection open. *)
Definition mounted : Toast.t := Toast.mk "" "" true 0 false true 0 0.

(** [data.tcpEnabled || data.udpEnabled], the flags being optional. *)
Definition anyEnabled (data : SSEMessage.t) : bool :=
  match SSEMessage.tcpEnabled data, SSEMessage.udpEnabled data with
  | Some true, _ => true
  | _, Some true => true
  | _, _ => false
  end.

(** [eventSource.onmessage] (lines 28-64).  [None] is an event whose data
    [JSON.parse] rejects: the [catch] logs it and nothing changes. *)
Definition onmessage (event : option SSEMessage.t) (t : Toast.t) : Toast.t :=
  match event with
  | None => t
  | Some data =>
      if String.eqb (SSEMessage.type data) "ready" then
        Toast.mk (Toast.toastHeader t) (Toast.toastStatus t) (Toast.taskRunning t)
          (Toast.progress t) (Toast.showProgress t) (Toast.connected t)
          (S (Toast.readySignals t)) (Toast.closeTimers t)
      else
        let t :=
          if String.eqb (SSEMessage.type data) "update" then
            let t :=
              Toast.mk (SSEMessage.header data) (SSEMessage.status data)
                (Toast.taskRunning t) (Toast.progress t) (Toast.showProgress t)
                (Toast.connected t) (Toast.readySignals t) (Toast.closeTimers t) in
            match SSEMessage.progress data with
            | Some p =>
                if anyEnabled data then
                  Toast.mk (Toast.toastHeader t) (Toast.toastStatus t)
                    (Toast.taskRunning t) p true
                    (Toast.connected t) (Toast.readySignals t) (Toast.closeTimers t)
                else t
            | None => t
            end
          else t in
        if String.eqb (SSEMessage.type data) "done" then
          Toast.mk (SSEMessage.header data) (SSEMessage.status data)
            (Toast.taskRunning t) 100 (Toast.showProgress t)
            false (Toast.readySignals t) (S (Toast.closeTimers t))
        else t
  end.

(** The messages of the progress channel reaching the component in order.
    Once [eventSource.close()] has been called no further event is
    dispatched. *)
Fixpoint deliver (messages : list SSEMessage.t) (t : Toast.t) : Toast.t :=
  match messages with
  | [] => t
  | data :: later =>
      if Toast.connected t then deliver later (onmessage (Some data) t) else t
  end.

(** The progress the component holds after each message it receives. *)
Fixpoint shownProgress (messages : list SSEMessage.t) (t : Toast.t) : list Z :=
  match messages with
  | [] => []
  | data :: later =>
      if Toast.connected t
      then Toast.progress (onmessage (Some data) t)
           :: shownProgress later (onmessage (Some data) t)
      else []
  end.

(** The lines the component renders ([toastStatus.split("\n")], line
    106). *)
Definition statusLines (t : Toast.t) : list string :=
  split (Toast.toastStatus t) (ascii_of_nat 10).

(** ** The settings editor of [src/components/SettingsEditor.tsx] *)

(** The settings object, reduced to the properties the editor's handlers
    read and write. *)
Module HeatmapSettings.
Record t : Type := mk {
  iperfServerAdrs : string;
  testDuration : Q;
  iperfTcpEnabled : bool;
  iperfUdpEnabled : bool;
  iperfServerHistory : list string
}.
End HeatmapSettings.

(** The argument of a call of [updateSettings]: the properties to replace.
    [None] is a property the object literal leaves out.  [updateSettings]
    itself belongs to [GlobalSettings], whose source is not among the files
    at hand; the handlers are modelled by the update they request. *)
Module SettingsUpdate.
Record t : Type := mk {
  iperfServerAdrs : option string;
  iperfTcpEnabled : option bool;
  iperfUdpEnabled : option bool;
  iperfServerHistory : option (list string)
}.
End SettingsUpdate.

Inductive BandwidthKind : Type := KindTcp | KindUdp.

(** [handleBandwidthCheckboxChange] (lines 64-92): the update it requests. *)
Definition handleBandwidthCheckboxChange (settings : HeatmapSettings.t)
    (type : BandwidthKind) (checked : bool) : SettingsUpdate.t :=
  let newTcpEnabled :=
    match type with
    | KindTcp => checked
    | KindUdp => HeatmapSettings.iperfTcpEnabled settings
    end in
  let newUdpEnabled :=
    match type with
    | KindUdp => checked
    | KindTcp => HeatmapSettings.iperfUdpEnabled settings
    end in
  let anyEnabled := newTcpEnabled || newUdpEnabled in
  if anyEnabled && String.eqb (HeatmapSettings.iperfServerAdrs settings) "localhost" then
    SettingsUpdate.mk (Some "") (Some newTcpEnabled) (Some newUdpEnabled) None
  else if negb anyEnabled then
    SettingsUpdate.mk (Some "localhost") (Some newTcpEnabled) (Some newUdpEnabled) None
  else
    SettingsUpdate.mk None (Some newTcpEnabled) (Some newUdpEnabled) None.

(** [handleServerBlur] (lines 107-118): the update it requests, if any.
    [trim] is [String.prototype.trim]. *)
Definition handleServerBlur (trim : string -> string) (settings : HeatmapSettings.t)
  : option SettingsUpdate.t :=
  let server := trim (HeatmapSettings.iperfServerAdrs settings) in
  if negb (String.eqb server "")
     && negb (String.eqb server "localhost")
     && negb (existsb (String.eqb server) (HeatmapSettings.iperfServerHistory settings))
  then
    let newHistory :=
      firstn 10 (server :: HeatmapSettings.iperfServerHistory settings) in
    Some (SettingsUpdate.mk None None None (Some newHistory))
  else None.

(** The value a property has once an update is stored: the one the update
    gives, and the old one where it gives none. *)
Definition stored {A} (new : option A) (old : A) : A :=
  match new with
  | Some v => v
  | None => old
  end.

(** The settings with an update stored: the properties the update names
    are written over the settings, the others are kept. *)
Definition store (update : SettingsUpdate.t) (settings : HeatmapSettings.t)
  : HeatmapSettings.t :=
  HeatmapSettings.mk
    (stored (SettingsUpdate.iperfServerAdrs update)
       (HeatmapSettings.iperfServerAdrs settings))
    (HeatmapSettings.testDuration settings)
    (stored (SettingsUpdate.iperfTcpEnabled update)
       (HeatmapSettings.iperfTcpEnabled settings))
    (stored (SettingsUpdate.iperfUdpEnabled update)
       (HeatmapSettings.iperfUdpEnabled settings))
    (stored (SettingsUpdate.iperfServerHistory update)
       (HeatmapSettings.iperfServerHistory settings)).

(** The settings once the server field has lost the focus. *)
Definition afterBlur (trim : string -> string) (settings : HeatmapSettings.t)
  : HeatmapSettings.t :=
  match handleServerBlur trim settings with
  | Some update => store update settings
  | None => settings
  end.

(** The part of the settings a survey run receives. *)
Definition surveySettings (settings : HeatmapSettings.t) : Settings.t :=
  Settings.mk
    (HeatmapSettings.iperfServerAdrs settings)
    (HeatmapSettings.testDuration settings)
    (HeatmapSettings.iperfTcpEnabled settings)
    (HeatmapSettings.iperfUdpEnabled settings).

(** A server history as the editor keeps it: no entry twice, at most ten
    entries, neither the empty address nor ["localhost"]. *)
Definition tidy (history : list string) : Prop :=
  NoDup history
  /\ (List.length history <= 10)%nat
  /\ ~ In "" history
  /\ ~ In "localhost" history.

(** ** The survey table of [src/components/PointsTable.tsx] *)


Definition quote : ascii := ascii_of_nat 34.

(** The [replace] of line 356: every double quote becomes two. *)
Fixpoint doubleQuotes (str : string) : string :=
  match str with
  | EmptyString => EmptyString
  | String c rest =>
      if Ascii.eqb c quote
      then String quote (String quote (doubleQuotes rest))
      else String c (doubleQuotes rest)
  end.

(** [escapeCSV] (lines 352-359).  [None] is [null] or [undefined]; a number
    comes as the text [String(value)] makes of it. *)
Definition escapeCSV (value : option string) : string :=
  match value with
  | None => ""
  | Some str =>
      if includes str "," || includes str (String quote "") || includes str newline
      then String quote (doubleQuotes str ++ String quote "")
      else str
  end.

(** ** The tab panel of [src/components/TabPanel.tsx] *)

Module Panel.
Record t : Type := mk {
  activeTab : string;
  settingsMenuOpen : bool
}.
End Panel.







(** ** Worlds and vocabulary of the examples *)

(** The first sample of the first attempt fails: [getWifi] rejects with an
    error that is not taken for a cancellation, or lists no network. *)
Definition firstSampleFails (w : World) (settings : Settings.t) : Prop :=
  (exists e, getWifi w settings 1%nat SampleBefore = Thrown e
             /\ message e <> "cancelled")
  \/ getWifi w settings 1%nat SampleBefore = Returned [].

(** Further worlds for examples. *)
Module Cases.

(** The adapter cannot read the connection once the scan is over. *)
Definition deaf : World :=
  mkWorld
    (preflightSettings Demo.steady) (checkIperfServer Demo.steady)
    (scanWifi Demo.steady)
    (fun _ _ _ => Thrown (JsError "Command failed: nmcli"))
    (getCancelFlag Demo.steady) (execAsync Demo.steady) (timerTicks Demo.steady).

(** The server check finds no server. *)
Definition unreachable : World :=
  mkWorld
    (preflightSettings Demo.steady)
    (fun _ => Returned "Cannot connect to iperf3 server")
    (scanWifi Demo.steady) (getWifi Demo.steady)
    (getCancelFlag Demo.steady) (execAsync Demo.steady) (timerTicks Demo.steady).

(** The adapter cannot tell the band of the network. *)
Definition bandless (strength : Z) : WifiResults.t :=
  WifiResults.mk "home" "aa:bb" NaN (Num 36) (Num 80) "WPA2" (Num 866) "802.11ac"
    (Num (inject_Z strength)) (Num (-60)) true.

Definition garbled : World :=
  mkWorld
    (preflightSettings Demo.steady) (checkIperfServer Demo.steady)
    (scanWifi Demo.steady)
    (fun _ _ sample =>
       match sample with
       | SampleBefore => Returned [bandless 40]
       | SampleMiddle => Returned [bandless 44]
       | SampleAfter => Returned [bandless 46]
       end)
    (getCancelFlag Demo.steady) (execAsync Demo.steady) (timerTicks Demo.steady).

(** Settings that ask for no bandwidth test. *)
Definition wifiOnly : Settings.t := Settings.mk "localhost" 10 false false.

End Cases.

(** The strength as [getUpdatedMessage] shows it (lines 147-150). *)
Definition shownStrength (strength : string) : string :=
  if String.eqb strength "-" then strength else strength ++ "%".

(** ** Evaluation of monadic code *)

Arguments ret {A} a st /.
Arguments bind {A B} m k st /.
Arguments throw {A} e st /.
Arguments tryCatch {A} body handler st /.
Arguments tryFinally {A} body fin st /.
Arguments resume {A} c st /.
Arguments emit ev st /.
Arguments getDS st /.
Arguments modifyDS f st /.
Arguments getLocals st /.
Arguments modifyLocals f st /.
Arguments log level text st /.
Arguments sendSSEMessage m st /.
Arguments delay ms st /.
Arguments sendUpdate st /.
Arguments checkForCancel w cp st /.
Arguments first {A} arr property st /.
Arguments awaitGetWifi w settings sample st /.
Arguments completedTestsIncr st /.
Arguments assignResult set v st /.
Arguments progressCallback progressPerTest percent st /.
Arguments validateWifiDataConsistency wifiDataBefore wifiDataAfter st /.
Arguments DisplayStates.set_type v d /.
Arguments DisplayStates.set_header v d /.
Arguments DisplayStates.set_strength v d /.
Arguments DisplayStates.set_tcp v d /.
Arguments DisplayStates.set_udp v d /.
Arguments DisplayStates.set_progress v d /.
Arguments Locals.set_attempts v l /.
Arguments Locals.set_newIperfData v l /.
Arguments Locals.set_newWifiData v l /.
Arguments Locals.set_completedTests v l /.
Arguments runSingleTest : simpl never.
Arguments extractIperfData : simpl never.
Arguments samplingBefore : simpl never.
Arguments tcpPhase : simpl never.
Arguments samplingMiddle : simpl never.
Arguments udpPhase : simpl never.
Arguments samplingAfter : simpl never.
Arguments validateAndBuild : simpl never.
Arguments attempt : simpl never.
Arguments retryLoop : simpl never.
Arguments getUpdatedMessage : simpl never.
Arguments toString : simpl never.
Arguments parseInt : simpl never.
Arguments arrayAverage : simpl never.
Arguments includes : simpl never.
Arguments Math_round : simpl never.
Arguments percentageToRssi : simpl never.
Arguments toMbps : simpl never.

Ltac all_messages :=
  repeat first
    [ apply Forall_nil
    | apply Forall_cons
    | apply Forall_app; split
    | apply Forall_forall;
      let m := fresh "m" in
      let Hm := fresh "Hm" in
      intros m Hm; apply in_map_iff in Hm; destruct Hm as (? & <- & _) ];
  try reflexivity.



(** * Properties *)

(** ** Numbers and strings *)

Lemma strictEq_zero (q : Q) : strictEq (Num q) (Num 0) = true <-> (q == 0)%Q.
Proof. unfold strictEq. apply Qeq_bool_iff. Qed.

Lemma Math_round_le (x y : Q) : (x <= y)%Q -> Math_round x <= Math_round y.
Proof.
  intros H. unfold Math_round. apply Qfloor_resp_le. lra.
Qed.

Lemma Math_round_Z (z : Z) : Math_round (inject_Z z) = z.
Proof.
  unfold Math_round.
  assert (L : (inject_Z z <= inject_Z z + (1 # 2))%Q) by lra.
  assert (U : (inject_Z z + (1 # 2) < inject_Z (z + 1))%Q).
  { rewrite inject_Z_plus. change (inject_Z 1) with 1%Q. lra. }
  apply Qfloor_resp_le in L. rewrite Qfloor_Z in L.
  pose proof (Qfloor_le (inject_Z z + (1 # 2))) as F.
  assert (G : (inject_Z (Qfloor (inject_Z z + (1 # 2))) < inject_Z (z + 1))%Q) by lra.
  rewrite <- Zlt_Qlt in G. lia.
Qed.

Lemma Math_round_compat (x y : Q) : (x == y)%Q -> Math_round x = Math_round y.
Proof.
  intros E. apply Z.le_antisymm; apply Math_round_le; rewrite E; apply Qle_refl.
Qed.

(** The nearest integer, halves going up: [n - 1/2 <= x < n + 1/2]. *)
Lemma Math_round_spec (x : Q) :
  (inject_Z (Math_round x) - (1 # 2) <= x)%Q /\
  (x < inject_Z (Math_round x) + (1 # 2))%Q.
Proof.
  unfold Math_round.
  pose proof (Qfloor_le (x + (1 # 2))) as L.
  pose proof (Qlt_floor (x + (1 # 2))) as U.
  rewrite inject_Z_plus in U. change (inject_Z 1) with 1%Q in U.
  split; lra.
Qed.

Lemma parseInt_toString (i : option Z) : parseInt (toString i) = i.
Proof.
  destruct i as [z|]; [|reflexivity].
  unfold parseInt, toString.
  rewrite NilZero.isi.
  - cbn. now rewrite DecimalZ.of_to.
  - destruct z; cbn; try discriminate.
    intros [= E]. now apply (DecimalPos.Unsigned.to_uint_nonnil p).
  - destruct z; cbn; try discriminate.
    intros [= E]. now apply (DecimalPos.Unsigned.to_uint_nonnil p).
Qed.

(** ** The output normalizer *)

Lemma selectedThroughput_withThroughput (isUdp : bool) (v : option number) (e : End_.t) :
  selectedThroughput (withThroughput isUdp v e) isUdp = v.
Proof.
  unfold selectedThroughput, withThroughput.
  destruct (End_.sum_received e), isUdp, (End_.sum e); reflexivity.
Qed.

(** What [extractIperfData] returns on a payload with an [end] section. *)
Lemma extractIperfData_value (e : End_.t) (err ver : option string) (isUdp : bool) (st : St) :
  fst (extractIperfData (RawResult.mk (Some e) err ver) isUdp st)
  = Returned
      (IperfTestProperty.mk
         (match selectedThroughput e isUdp with
          | Some b => if strictEq b (Num 0) then None else Some b
          | None => None
          end)
         (selectedRetransmits e)
         (if isUdp
          then match End_.sum e with Some s => Sum.jitter_ms s | None => None end
          else None)
         (if isUdp
          then match End_.sum e with Some s => Sum.lost_packets s | None => None end
          else None)
         (if isUdp
          then match End_.sum e with Some s => Sum.packets s | None => None end
          else None)
         (Num 0)).
Proof.
  unfold extractIperfData, selectedThroughput, selectedRetransmits, bind, ret, log, emit.
  cbn [RawResult.end_].
  destruct (End_.sum_received e) as [received|], isUdp;
    repeat match goal with
           | |- context [match ?x with Some _ => _ | None => _ end] => destruct x
           | |- context [if strictEq ?a ?b then _ else _] => destruct (strictEq a b)
           end; reflexivity.
Qed.

(** C3.  On a payload with a completion section, throughput comes from
    [sum_received] for TCP with the split section present, from [sum] for UDP
    with it present and for both protocols without it (a figure of zero
    being reported as absent); retransmits come from [sum_sent] with the
    split section present and from [sum] without it, whatever the
    protocol. *)
Theorem extractIperfData_sources :
  forall (e : End_.t) (err ver : option string) (isUdp : bool) (st : St),
  exists r : IperfTestProperty.t,
    fst (extractIperfData (RawResult.mk (Some e) err ver) isUdp st) = Returned r
    /\ IperfTestProperty.bitsPerSecond r
       = (let source :=
            match End_.sum_received e, isUdp with
            | Some received, false => SumReceived.bits_per_second received
            | Some _, true =>
                match End_.sum e with Some s => Sum.bits_per_second s | None => None end
            | None, _ =>
                match End_.sum e with Some s => Sum.bits_per_second s | None => None end
            end in
          match source with
          | Some b => if strictEq b (Num 0) then None else Some b
          | None => None
          end)
    /\ IperfTestProperty.retransmits r
       = match End_.sum_received e with
         | Some _ =>
             match End_.sum_sent e with Some s => SumSent.retransmits s | None => None end
         | None =>
             match End_.sum e with Some s => Sum.retransmits s | None => None end
         end.
Proof.
  intros e err ver isUdp st.
  eexists. split; [apply extractIperfData_value|].
  split; reflexivity.
Qed.

(** The payloads of the specification's examples. *)
Example newer_tcp_reads_received :
  fst (extractIperfData
         (RawResult.mk
            (Some (End_.mk (Some (SumReceived.mk (Some (Num 500000000))))
                     (Some (SumSent.mk (Some (Num 12)))) None None))
            None None)
         false Demo.start)
  = Returned (IperfTestProperty.mk (Some (Num 500000000)) (Some (Num 12))
                None None None (Num 0)).
Proof. reflexivity. Qed.

Example newer_udp_reads_summary :
  exists r,
    fst (extractIperfData
           (RawResult.mk
              (Some (End_.mk (Some (SumReceived.mk (Some (Num 948000000)))) None
                       (Some (Sum.mk (Some (Num 51000000)) None None None None None))
                       None))
              None None)
           true Demo.start) = Returned r
    /\ IperfTestProperty.bitsPerSecond r = Some (Num 51000000).
Proof. eexists. split; reflexivity. Qed.

Example older_reads_summary (isUdp : bool) :
  exists r,
    fst (extractIperfData
           (RawResult.mk
              (Some (End_.mk None None
                       (Some (Sum.mk (Some (Num 300000000)) None None None None
                                (Some (Num 3))))
                       None))
              None None)
           isUdp Demo.start) = Returned r
    /\ IperfTestProperty.bitsPerSecond r = Some (Num 300000000)
    /\ IperfTestProperty.retransmits r = Some (Num 3).
Proof. destruct isUdp; eexists; repeat split. Qed.

(** C5.  A selected throughput figure of exactly zero and an absent one give
    the same result, whose [bitsPerSecond] is [null]; and no result carries a
    [bitsPerSecond] of zero. *)
Theorem extractIperfData_zero_is_absent :
  forall (e : End_.t) (err ver : option string) (isUdp : bool) (q : Q) (st : St),
    (q == 0)%Q ->
    let zero := RawResult.mk (Some (withThroughput isUdp (Some (Num q)) e)) err ver in
    let absent := RawResult.mk (Some (withThroughput isUdp None e)) err ver in
    extractIperfData zero isUdp st = extractIperfData absent isUdp st
    /\ (exists r, fst (extractIperfData zero isUdp st) = Returned r
                  /\ IperfTestProperty.bitsPerSecond r = None)
    /\ (forall (result : RawResult.t) (r : IperfTestProperty.t) (b : number),
          fst (extractIperfData result isUdp st) = Returned r ->
          IperfTestProperty.bitsPerSecond r = Some b ->
          strictEq b (Num 0) = false).
Proof.
  intros e err ver isUdp q st Hq zero absent.
  apply strictEq_zero in Hq.
  split; [|split].
  - unfold zero, absent, extractIperfData, withThroughput, bind, ret, log, emit.
    cbn [RawResult.end_].
    pose proof Hq as Hq'. unfold strictEq in Hq'.
    destruct (End_.sum_received e) as [received|], isUdp, (End_.sum e) as [s|];
      cbn -[Qeq_bool]; rewrite ?Hq'; reflexivity.
  - eexists. split; [apply extractIperfData_value|].
    cbn [IperfTestProperty.bitsPerSecond].
    rewrite selectedThroughput_withThroughput, Hq. reflexivity.
  - intros [[e'|] err' ver'] r b Hr Hb.
    + rewrite extractIperfData_value in Hr. injection Hr as <-.
      cbn [IperfTestProperty.bitsPerSecond] in Hb.
      destruct (selectedThroughput e' isUdp) as [x|]; [|discriminate].
      destruct (strictEq x (Num 0)) eqn:E; [discriminate|].
      injection Hb as <-. exact E.
    + cbn in Hr. injection Hr as <-. discriminate.
Qed.

Lemma extractIperfData_zero_is_absent_witness :
  let e := End_.mk None None (Some (Sum.mk (Some (Num 7)) None None None None None)) None in
  extractIperfData (RawResult.mk (Some (withThroughput false (Some (Num 0)) e)) None None)
    false (startState (externals := Demo.externals) moduleDisplayStates)
  = extractIperfData (RawResult.mk (Some (withThroughput false None e)) None None)
      false (startState (externals := Demo.externals) moduleDisplayStates).
Proof.
  intros e.
  apply (extractIperfData_zero_is_absent e None None false 0
           (startState (externals := Demo.externals) moduleDisplayStates)).
  reflexivity.
Defined.

(** ** The bandwidth test runner *)

Lemma extractIperfData_returns (result : RawResult.t) (isUdp : bool) (st : St) :
  exists r, fst (extractIperfData result isUdp st) = Returned r
            /\ (RawResult.end_ result = None -> r = notRun).
Proof.
  destruct result as [[e|] err ver].
  - eexists. split; [apply extractIperfData_value|]. discriminate.
  - eexists. split; [reflexivity|]. reflexivity.
Qed.

Section Runner.
Context {externals : Externals}.
Variable w : World.

Lemma fireTicks_returns (tick : Z -> M unit) (elapsedTimes : list Z) :
  (forall elapsed st, fst (tick elapsed st) = Returned tt) ->
  forall st, fst (fireTicks tick elapsedTimes st) = Returned tt.
Proof.
  intros Htick. induction elapsedTimes as [|elapsed later IH]; intros st.
  - reflexivity.
  - cbn [fireTicks]. unfold bind.
    specialize (Htick elapsed st).
    destruct (tick elapsed st) as [[[]|e] st1]; cbn in Htick; [|discriminate].
    apply IH.
Qed.

Lemma awaitExec_fst (server : string) (duration : Q) (testDir : TestDirection)
    (testType : TestType) (ms : Q) (onProgress : option (Z -> M unit)) (st : St) :
  (forall cb, onProgress = Some cb -> forall p s, fst (cb p s) = Returned tt) ->
  fst (awaitExec w server duration testDir testType ms onProgress st)
  = execAsync w server duration testDir testType.
Proof.
  intros Hcb. unfold awaitExec, bind, emit, resume.
  destruct onProgress as [cb|].
  - match goal with
    | |- context [fireTicks ?t ?l ?s] =>
        pose proof (fireTicks_returns t l
                      (fun elapsed st => Hcb cb eq_refl _ st) s) as F;
        destruct (fireTicks t l s) as [[[]|e] st1]; cbn in F; [|discriminate]
    end.
    reflexivity.
  - reflexivity.
Qed.

(** The value [runSingleTest] resolves to, when its callback does not throw:
    the all-null result unless the subprocess succeeds and its output
    parses, and then what [extractIperfData] makes of the payload. *)
Lemma runSingleTest_value (server : string) (duration : Q) (testDir : TestDirection)
    (testType : TestType) (onProgress : option (Z -> M unit)) (st : St) :
  (forall cb, onProgress = Some cb -> forall p s, fst (cb p s) = Returned tt) ->
  exists r,
    fst (runSingleTest w server duration testDir testType onProgress st) = Returned r
    /\ ((exists e, execAsync w server duration testDir testType = Thrown e) -> r = notRun)
    /\ (forall stdout,
          execAsync w server duration testDir testType = Returned stdout ->
          (exists e, JSON_parse stdout = Thrown e) -> r = notRun)
    /\ (forall stdout result,
          execAsync w server duration testDir testType = Returned stdout ->
          JSON_parse stdout = Returned result ->
          RawResult.end_ result = None -> r = notRun).
Proof.
  intros Hcb.
  unfold runSingleTest, tryFinally, tryCatch.
  set (fin := match onProgress with Some cb => cb 100 | None => ret tt end).
  assert (Hfin : forall s, fst (fin s) = Returned tt).
  { intros s. unfold fin. destruct onProgress as [cb|]; [|reflexivity].
    now apply (Hcb cb). }
  unfold bind at 1.
  pose proof (awaitExec_fst server duration testDir testType (duration * 1000)%Q
                onProgress st Hcb) as Hx.
  destruct (awaitExec w server duration testDir testType (duration * 1000)%Q
              onProgress st) as [x st1].
  cbn [fst] in Hx. subst x.
  destruct (execAsync w server duration testDir testType) as [stdout|e].
  - unfold bind at 1, resume.
    destruct (JSON_parse stdout) as [result|e] eqn:Hparse.
    + unfold bind at 1, log, emit. unfold bind at 1.
      match goal with
      | |- context [extractIperfData ?a ?b ?s] =>
          destruct (extractIperfData_returns a b s) as (r & Hr & Hnone);
          destruct (extractIperfData a b s) as [x st2]; cbn [fst] in Hr; subst x
      end.
      cbn [bind log emit ret].
      unfold bind, log, emit, ret.
      match goal with
      | |- context [fin ?s] =>
          pose proof (Hfin s) as F; destruct (fin s) as [[[]|e] st3];
          cbn in F; [|discriminate]
      end.
      exists r. split; [reflexivity|].
      split; [intros [e E]; discriminate|].
      split.
      * intros stdout' E [e Ee]. injection E as <-. congruence.
      * intros stdout' result' E P N. injection E as <-.
        rewrite Hparse in P. injection P as <-. auto.
    + unfold bind, log, emit, ret.
      match goal with
      | |- context [fin ?s] =>
          pose proof (Hfin s) as F; destruct (fin s) as [[[]|e'] st3];
          cbn in F; [|discriminate]
      end.
      exists notRun. repeat split; auto.
  - unfold bind, log, emit, ret.
    match goal with
    | |- context [fin ?s] =>
        pose proof (Hfin s) as F; destruct (fin s) as [[[]|e'] st3];
        cbn in F; [|discriminate]
    end.
    exists notRun. repeat split; auto.
Qed.

End Runner.

(** C4.  [runSingleTest] resolves and never rejects (its progress callback,
    when one is given, not throwing); when the subprocess fails, when its
    output does not parse, and when the parsed payload has no [end] section,
    it resolves to the result whose five measurements are all [null]. *)
Theorem runSingleTest_never_raises :
  forall {externals : Externals} (w : World) (server : string) (duration : Q)
         (testDir : TestDirection) (testType : TestType)
         (onProgress : option (Z -> M unit)) (st : St),
    (forall cb, onProgress = Some cb -> forall p s, fst (cb p s) = Returned tt) ->
    exists r : IperfTestProperty.t,
      fst (runSingleTest w server duration testDir testType onProgress st) = Returned r
      /\ (((exists e, execAsync w server duration testDir testType = Thrown e)
           \/ (exists stdout e,
                 execAsync w server duration testDir testType = Returned stdout
                 /\ JSON_parse stdout = Thrown e)
           \/ (exists stdout result,
                 execAsync w server duration testDir testType = Returned stdout
                 /\ JSON_parse stdout = Returned result
                 /\ RawResult.end_ result = None)) ->
          IperfTestProperty.bitsPerSecond r = None
          /\ IperfTestProperty.retransmits r = None
          /\ IperfTestProperty.jitterMs r = None
          /\ IperfTestProperty.lostPackets r = None
          /\ IperfTestProperty.packetsReceived r = None).
Proof.
  intros externals w server duration testDir testType onProgress st Hcb.
  destruct (runSingleTest_value w server duration testDir testType onProgress st Hcb)
    as (r & Hr & Hexec & Hparse & Hend).
  exists r. split; [exact Hr|].
  intros [H | [(stdout & e & E & P) | (stdout & result & E & P & N)]].
  - rewrite (Hexec H). repeat split.
  - rewrite (Hparse stdout E (ex_intro _ e P)). repeat split.
  - rewrite (Hend stdout result E P N). repeat split.
Qed.

Lemma progressCallback_returns {externals : Externals} (ppt : Q) (p : Z) (st : St) :
  fst (progressCallback ppt p st) = Returned tt.
Proof. reflexivity. Qed.

Lemma runSingleTest_never_raises_witness :
  exists r : IperfTestProperty.t,
    fst (runSingleTest (externals := Demo.externals) Demo.offline "10.0.0.2" 10 Down TCP
           (Some (progressCallback 25)) Demo.start) = Returned r
    /\ IperfTestProperty.bitsPerSecond r = None
    /\ IperfTestProperty.retransmits r = None
    /\ IperfTestProperty.jitterMs r = None
    /\ IperfTestProperty.lostPackets r = None
    /\ IperfTestProperty.packetsReceived r = None.
Proof.
  destruct (runSingleTest_never_raises (externals := Demo.externals) Demo.offline "10.0.0.2" 10 Down TCP
              (Some (progressCallback 25)) Demo.start) as (r & Hr & Hnull).
  - intros cb [= <-] p s. reflexivity.
  - exists r. split; [exact Hr|].
    apply Hnull. left. eexists. reflexivity.
Defined.

(** ** The effect of one bandwidth test *)

Lemma published_app (a b : list Event) :
  published (List.app a b) = List.app (published a) (published b).
Proof.
  induction a as [|ev a IH]; [reflexivity|].
  destruct ev; cbn; rewrite IH; reflexivity.
Qed.

Lemma extractIperfData_frame (result : RawResult.t) (isUdp : bool) (st : St) :
  exists r evs,
    extractIperfData result isUdp st
    = (Returned r, mkSt (displayStates st) (locals st) (List.app (effects st) evs))
    /\ published evs = [].
Proof.
  unfold extractIperfData.
  destruct (RawResult.end_ result) as [e|]; cbn.
  - repeat match goal with
           | |- context [match ?x with Some _ => _ | None => _ end] => destruct x; cbn
           | |- context [if ?b then _ else _] => destruct b; cbn
           end;
      solve [ eexists; exists []; rewrite app_nil_r; destruct st; split; reflexivity
            | eexists; eexists; split; reflexivity ].
  - eexists; eexists; split; reflexivity.
Qed.

Section Frame.
Context {externals : Externals}.
Variable w : World.

Lemma fireTicks_frame (ms ppt : Q) (elapsedTimes : list Z) :
  forall st, exists p evs,
    fireTicks (intervalTick ms (progressCallback ppt)) elapsedTimes st
    = (Returned tt,
       mkSt (DisplayStates.set_progress p (displayStates st)) (locals st)
            (List.app (effects st) evs))
    /\ published evs
       = map (fun e =>
                getUpdatedMessage
                  (DisplayStates.set_progress
                     (Math_round
                        (inject_Z (Locals.completedTests (locals st)) * ppt
                         + inject_Z (Z.min (Math_round (inject_Z e / ms * 100)%Q) 99)
                           / 100 * ppt)%Q)
                     (displayStates st)))
           elapsedTimes.
Proof.
  induction elapsedTimes as [|e later IH]; intros st.
  - exists (DisplayStates.progress (displayStates st)), [].
    cbn. rewrite app_nil_r. destruct st as [[] ? ?]. split; reflexivity.
  - cbn [fireTicks]. unfold intervalTick at 1. cbn.
    match goal with
    | |- context [fireTicks _ _ ?s] => destruct (IH s) as (p & evs & E & P)
    end.
    rewrite E. cbn.
    exists p. eexists. rewrite <- app_assoc. split; [reflexivity|].
    cbn. rewrite P. reflexivity.
Qed.


(** What one bandwidth test does to the state when it is given the progress
    closure: it resolves, leaves the locals alone, changes only the progress
    of [displayStates], and publishes one update per timer tick and a last
    one at 100 percent of the unit. *)
Lemma runSingleTest_frame (server : string) (duration : Q) (testDir : TestDirection)
    (testType : TestType) (ppt : Q) (st : St) :
  exists r evs,
    runSingleTest w server duration testDir testType (Some (progressCallback ppt)) st
    = (Returned r,
       mkSt (DisplayStates.set_progress
               (callbackProgress (Locals.completedTests (locals st)) ppt 100)
               (displayStates st))
            (locals st) (List.app (effects st) evs))
    /\ published evs
       = map (fun p => getUpdatedMessage
                         (DisplayStates.set_progress p (displayStates st)))
           (unitProgress (Locals.completedTests (locals st)) ppt duration
              (timerTicks w server duration testDir testType)).
Proof.
  unfold runSingleTest, awaitExec. cbn.
  match goal with
  | |- context [fireTicks ?t ?l ?s] =>
      destruct (fireTicks_frame (duration * 1000)%Q ppt l s) as (p & evs & E & P)
  end.
  rewrite E. cbn [displayStates locals effects] in *. clear E.
  assert (Hfin : forall extra,
    published extra = [] ->
    List.app (published (List.app (List.app [Exec server testDir testType] evs) extra))
      [getUpdatedMessage
         (DisplayStates.set_progress
            (callbackProgress (Locals.completedTests (locals st)) ppt 100)
            (displayStates st))]
    = map (fun p => getUpdatedMessage
                      (DisplayStates.set_progress p (displayStates st)))
        (unitProgress (Locals.completedTests (locals st)) ppt duration
           (timerTicks w server duration testDir testType))).
  { intros extra Hextra. rewrite !published_app, Hextra, P, app_nil_r. cbn.
    unfold unitProgress. rewrite map_app, map_map. reflexivity. }
  clear P.
  destruct (execAsync w server duration testDir testType) as [stdout|e]; cbn.
  - destruct (JSON_parse stdout) as [result|e]; cbn.
    + match goal with
      | |- context [extractIperfData ?a ?b ?s] =>
          destruct (extractIperfData_frame a b s) as (r & evs' & E' & P')
      end.
      rewrite E'. cbn.
      exists r.
      exists (List.app
                (List.app (List.app [Exec server testDir testType] evs)
                   (List.app [Log LevelTrace "Iperf JSON-parsed result:"]
                      (List.app evs' [Log LevelTrace "Iperf extracted results:"])))
                [SSE (getUpdatedMessage
                        (DisplayStates.set_progress
                           (callbackProgress (Locals.completedTests (locals st)) ppt 100)
                           (displayStates st)))]).
      split.
      * rewrite <- !app_assoc. reflexivity.
      * rewrite published_app. cbn [published]. apply Hfin.
        rewrite !published_app, P'. reflexivity.
    + exists notRun.
      exists (List.app
                (List.app (List.app [Exec server testDir testType] evs)
                   [Log LevelError "iperf3 test failed"])
                [SSE (getUpdatedMessage
                        (DisplayStates.set_progress
                           (callbackProgress (Locals.completedTests (locals st)) ppt 100)
                           (displayStates st)))]).
      split.
      * rewrite <- !app_assoc. reflexivity.
      * rewrite published_app. cbn [published]. apply Hfin. reflexivity.
  - exists notRun.
    exists (List.app
              (List.app (List.app [Exec server testDir testType] evs)
                 [Log LevelError "iperf3 test failed"])
              [SSE (getUpdatedMessage
                      (DisplayStates.set_progress
                         (callbackProgress (Locals.completedTests (locals st)) ppt 100)
                         (displayStates st)))]).
    split.
    + rewrite <- !app_assoc. reflexivity.
    + rewrite published_app. cbn [published]. apply Hfin. reflexivity.
Qed.

End Frame.

(** ** The path of a measurement that no step interrupts *)

Section MainPath.
Context {externals : Externals}.
Variable w : World.
Variable settings : Settings.t.

Lemma tcpPhase_returns (server : string) (duration : Q) (tcpEnabled : bool)
    (ppt : Q) (reason : string) (st : St) :
  getCancelFlag w (Locals.attempts (locals st)) AfterTcpPhase = false ->
  exists tcp progress iperf completed evs,
    tcpPhase w server duration tcpEnabled ppt reason st
    = (Returned tt,
       mkSt (DisplayStates.set_progress progress
               (DisplayStates.set_tcp tcp (displayStates st)))
            (Locals.set_completedTests completed
               (Locals.set_newIperfData iperf (locals st)))
            (List.app (effects st) evs))
    /\ Forall (fun m => SSEMessage.type m = DisplayStates.type (displayStates st))
         (published evs).
Proof.
  intros Hflag. unfold tcpPhase.
  destruct st as [[] [] effs]; cbn in Hflag |- *.
  destruct tcpEnabled.
  - cbn.
    match goal with
    | |- context [runSingleTest ?w ?s ?d ?dir ?ty ?cb ?st0] =>
        destruct (runSingleTest_frame w s d dir ty ppt st0) as (r1 & evs1 & E1 & P1)
    end.
    rewrite E1. cbn.
    match goal with
    | |- context [runSingleTest ?w ?s ?d ?dir ?ty ?cb ?st0] =>
        destruct (runSingleTest_frame w s d dir ty ppt st0) as (r2 & evs2 & E2 & P2)
    end.
    rewrite E2. cbn. rewrite Hflag. cbn.
    do 5 eexists. split.
    + rewrite <- !app_assoc. reflexivity.
    + rewrite !published_app, P1, P2. cbn. all_messages.
  - cbn. match goal with |- context [if ?b then _ else _] => destruct b end;
      cbn; rewrite Hflag; cbn.
    + do 5 eexists. split.
      * rewrite <- !app_assoc. reflexivity.
      * cbn. all_messages.
    + do 5 eexists. split.
      * reflexivity.
      * cbn. all_messages.
Qed.


Lemma udpPhase_returns (server : string) (duration : Q) (udpEnabled : bool)
    (ppt : Q) (reason : string) (st : St) :
  getCancelFlag w (Locals.attempts (locals st)) AfterUdpPhase = false ->
  exists udp iperf completed evs,
    udpPhase w server duration udpEnabled ppt reason st
    = (Returned tt,
       mkSt (DisplayStates.set_progress 100
               (DisplayStates.set_udp udp (displayStates st)))
            (Locals.set_completedTests completed
               (Locals.set_newIperfData iperf (locals st)))
            (List.app (effects st) evs))
    /\ Forall (fun m => SSEMessage.type m = DisplayStates.type (displayStates st))
         (published evs).
Proof.
  intros Hflag. unfold udpPhase.
  destruct st as [[] [] effs]; cbn in Hflag |- *.
  destruct udpEnabled.
  - cbn.
    match goal with
    | |- context [runSingleTest ?w ?s ?d ?dir ?ty ?cb ?st0] =>
        destruct (runSingleTest_frame w s d dir ty ppt st0) as (r1 & evs1 & E1 & P1)
    end.
    rewrite E1. cbn.
    match goal with
    | |- context [runSingleTest ?w ?s ?d ?dir ?ty ?cb ?st0] =>
        destruct (runSingleTest_frame w s d dir ty ppt st0) as (r2 & evs2 & E2 & P2)
    end.
    rewrite E2. cbn. rewrite Hflag. cbn.
    do 4 eexists. split.
    + rewrite <- !app_assoc. reflexivity.
    + rewrite !published_app, P1, P2. cbn. all_messages.
  - cbn. match goal with |- context [if ?b then _ else _] => destruct b end;
      cbn; rewrite Hflag; cbn.
    + do 4 eexists. split.
      * rewrite <- !app_assoc. reflexivity.
      * cbn. all_messages.
    + do 4 eexists. split.
      * reflexivity.
      * cbn. all_messages.
Qed.

Lemma samplingBefore_returns (ssidName : string) (st : St)
    (b : WifiResults.t) (rest : list WifiResults.t) :
  getWifi w settings (Locals.attempts (locals st)) SampleBefore = Returned (b :: rest) ->
  getCancelFlag w (Locals.attempts (locals st)) AfterSampleBefore = false ->
  exists header,
    let ds :=
      DisplayStates.set_strength
        (toString (arrayAverage [WifiResults.signalStrength b]))
        (DisplayStates.set_header header (displayStates st)) in
    samplingBefore w settings ssidName st
    = (Returned (b :: rest, [WifiResults.signalStrength b]),
       mkSt ds (locals st)
         (List.app (effects st)
            [Call CallGetWifi; Log LevelDebug "getWifi() returned: ";
             SSE (getUpdatedMessage ds)])).
Proof.
  intros Hget Hflag. unfold samplingBefore. cbn.
  rewrite Hget. cbn. rewrite Hflag. cbn.
  eexists. rewrite <- !app_assoc. reflexivity.
Qed.

Lemma samplingMiddle_returns (strengths : list number) (st : St)
    (m : WifiResults.t) (rest : list WifiResults.t) :
  getWifi w settings (Locals.attempts (locals st)) SampleMiddle = Returned (m :: rest) ->
  getCancelFlag w (Locals.attempts (locals st)) AfterSampleMiddle = false ->
  let strengths' := List.app strengths [WifiResults.signalStrength m] in
  let ds :=
    DisplayStates.set_strength (toString (arrayAverage strengths'))
      (displayStates st) in
  samplingMiddle w settings strengths st
  = (Returned strengths',
     mkSt ds (locals st)
       (List.app (effects st) [Call CallGetWifi; SSE (getUpdatedMessage ds)])).
Proof.
  intros Hget Hflag. unfold samplingMiddle. cbn.
  rewrite Hget. cbn. rewrite Hflag. cbn.
  rewrite <- !app_assoc. reflexivity.
Qed.

Lemma samplingAfter_returns (strengths : list number) (st : St)
    (a : WifiResults.t) (rest : list WifiResults.t) :
  getWifi w settings (Locals.attempts (locals st)) SampleAfter = Returned (a :: rest) ->
  getCancelFlag w (Locals.attempts (locals st)) AfterSampleAfter = false ->
  let ds :=
    DisplayStates.set_header "Measurement complete"
      (DisplayStates.set_type "done"
         (DisplayStates.set_strength
            (toString (arrayAverage
                         (List.app strengths [WifiResults.signalStrength a])))
            (displayStates st))) in
  samplingAfter w settings strengths st
  = (Returned (a :: rest),
     mkSt ds (locals st)
       (List.app (effects st) [Call CallGetWifi; SSE (getUpdatedMessage ds)])).
Proof.
  intros Hget Hflag. unfold samplingAfter. cbn.
  rewrite Hget. cbn. rewrite Hflag. cbn.
  rewrite <- !app_assoc. reflexivity.
Qed.

Lemma validateAndBuild_run (st : St) (b a : WifiResults.t)
    (restB restA : list WifiResults.t) :
  validateAndBuild (b :: restB) (a :: restA) st
  = if agree b a then
      (Returned tt,
       mkSt (displayStates st)
         (Locals.set_newWifiData
            (Some (WifiResults.mk
                     (WifiResults.ssid b) (WifiResults.bssid b)
                     (WifiResults.band b) (WifiResults.channel b)
                     (WifiResults.channelWidth b) (WifiResults.security b)
                     (WifiResults.txRate b) (WifiResults.phyMode b)
                     (ofInt (parseInt (DisplayStates.strength (displayStates st))))
                     (percentageToRssi
                        (ofInt (parseInt (DisplayStates.strength (displayStates st)))))
                     (WifiResults.currentSSID b)))
            (locals st))
         (effects st))
    else
      (Thrown changedError,
       mkSt (displayStates st) (locals st)
         (List.app (effects st)
            [Log LevelDebug
               (stringify (WifiResults.bssid b) ++ " "
                ++ stringify (WifiResults.bssid a))])).
Proof.
  unfold validateAndBuild, agree. cbn.
  destruct (String.eqb (WifiResults.bssid b) (WifiResults.bssid a)
            && String.eqb (WifiResults.ssid b) (WifiResults.ssid a)
            && strictEq (WifiResults.band b) (WifiResults.band a)
            && strictEq (WifiResults.channel b) (WifiResults.channel a));
    cbn; [destruct st|]; reflexivity.
Qed.


(** An attempt whose three samples arrive and which no checkpoint cancels. *)
Lemma attempt_main (ssidName : string) (perform : bool) (reason : string) (st : St)
    (b m a : WifiResults.t) (restB restM restA : list WifiResults.t) :
  getWifi w settings (Locals.attempts (locals st)) SampleBefore = Returned (b :: restB) ->
  getWifi w settings (Locals.attempts (locals st)) SampleMiddle = Returned (m :: restM) ->
  getWifi w settings (Locals.attempts (locals st)) SampleAfter = Returned (a :: restA) ->
  (forall cp, getCancelFlag w (Locals.attempts (locals st)) cp = false) ->
  let average :=
    arrayAverage [WifiResults.signalStrength b; WifiResults.signalStrength m;
                  WifiResults.signalStrength a] in
  exists ds iperf completed evs,
    attempt w settings ssidName perform reason st
    = (if agree b a then Returned tt else Thrown changedError,
       mkSt ds
         (Locals.mk (Locals.attempts (locals st)) iperf
            (if agree b a then Some (averaged b average)
             else Locals.newWifiData (locals st))
            completed)
         (List.app (effects st)
            (List.app evs
               (SSE (getUpdatedMessage ds)
                :: (if agree b a then []
                    else [Log LevelDebug
                            (stringify (WifiResults.bssid b) ++ " "
                             ++ stringify (WifiResults.bssid a))])))))
    /\ DisplayStates.type ds = "done"
    /\ DisplayStates.header ds = "Measurement complete"
    /\ DisplayStates.progress ds = 100
    /\ DisplayStates.strength ds = toString average
    /\ Forall (fun msg => SSEMessage.type msg = DisplayStates.type (displayStates st))
         (published evs).
Proof.
  intros Hb Hm Ha Hflag average.
  unfold attempt. cbn.
  destruct (samplingBefore_returns ssidName st b restB Hb (Hflag _)) as [hdr E].
  cbn in E. rewrite E. clear E. cbn.
  match goal with
  | |- context [tcpPhase ?w ?s ?d ?en ?ppt ?rs ?st0] =>
      destruct (tcpPhase_returns s d en ppt rs st0 (Hflag _))
        as (tcp & progress & iperf1 & completed1 & evs1 & E & P1)
  end.
  rewrite E. clear E. cbn.
  match goal with
  | |- context [samplingMiddle ?w ?s ?l ?st0] =>
      pose proof (samplingMiddle_returns l st0 m restM Hm (Hflag _)) as E
  end.
  cbn in E. rewrite E. clear E. cbn.
  match goal with
  | |- context [udpPhase ?w ?s ?d ?en ?ppt ?rs ?st0] =>
      destruct (udpPhase_returns s d en ppt rs st0 (Hflag _))
        as (udp & iperf2 & completed2 & evs2 & E & P2)
  end.
  rewrite E. clear E. cbn.
  match goal with
  | |- context [samplingAfter ?w ?s ?l ?st0] =>
      pose proof (samplingAfter_returns l st0 a restA Ha (Hflag _)) as E
  end.
  cbn in E. rewrite E. clear E. cbn.
  rewrite validateAndBuild_run. cbn.
  rewrite parseInt_toString.
  cbn in P1, P2.
  eexists. exists iperf2, completed2.
  eexists (List.app [Call CallGetWifi; Log LevelDebug "getWifi() returned: "; SSE _]
             (List.app evs1
                (List.app [Call CallGetWifi; SSE _]
                   (List.app evs2 [Call CallGetWifi])))).
  split; [|split; [|split; [|split; [|split]]]].
  - destruct (agree b a); rewrite <- !app_assoc; cbn; reflexivity.
  - reflexivity.
  - reflexivity.
  - reflexivity.
  - reflexivity.
  - rewrite !published_app. cbn.
    all_messages; try (eapply Forall_impl; [|eassumption]; cbn; intros; assumption).
Qed.

End MainPath.

(** ** Whole runs *)

(** After the scan: run the retry loop by [Hend], name what was published
    before it, and read off the result. *)
Ltac finish_main Hend :=
  match goal with
  | |- context [retryLoop ?w0 ?n ?s0 ?name ?p ?r (mkSt ?d0 ?l0 ?pre)] =>
      let final := fresh "final" in
      let iperf := fresh "iperf" in
      let completed := fresh "completed" in
      let evs := fresh "evs" in
      let E := fresh "E" in
      let Hrest := fresh "Hrest" in
      destruct (Hend p r (mkSt d0 l0 pre) eq_refl eq_refl eq_refl)
        as (final & iperf & completed & evs & E & Hrest);
      rewrite E; clear E;
      cbn [displayStates locals effects];
      exists iperf, final; eexists; exists (List.app pre evs);
      split;
      [ cbn; rewrite <- ?app_assoc; reflexivity
      | decompose [and] Hrest; repeat split; auto;
        rewrite published_app; apply Forall_app; split; auto;
        cbn; all_messages ]
  end.

Section Runs.
Context {externals : Externals}.
Variable w : World.
Variable settings : Settings.t.

(** The retry loop when the samples of its only attempt arrive and no
    checkpoint cancels it: it runs out without returning, having published
    the message of type [done] last. *)
Lemma retryLoop_main (ssidName : string) (perform : bool) (reason : string)
    (st : St) (b m a : WifiResults.t) (restB restM restA : list WifiResults.t) :
  Locals.attempts (locals st) = 0%nat ->
  Locals.newWifiData (locals st) = None ->
  DisplayStates.type (displayStates st) = "update" ->
  getWifi w settings 1%nat SampleBefore = Returned (b :: restB) ->
  getWifi w settings 1%nat SampleMiddle = Returned (m :: restM) ->
  getWifi w settings 1%nat SampleAfter = Returned (a :: restA) ->
  (forall cp, getCancelFlag w 1%nat cp = false) ->
  let average :=
    arrayAverage [WifiResults.signalStrength b; WifiResults.signalStrength m;
                  WifiResults.signalStrength a] in
  exists final iperf completed evs,
    retryLoop w maxRetries settings ssidName perform reason st
    = (Returned None,
       mkSt final
         (Locals.mk 1 iperf
            (if agree b a then Some (averaged b average) else None) completed)
         (List.app (effects st)
            (List.app evs
               (SSE (getUpdatedMessage final)
                :: (if agree b a then []
                    else [Log LevelDebug
                            (stringify (WifiResults.bssid b) ++ " "
                             ++ stringify (WifiResults.bssid a));
                          Log LevelError "Attempt failed:"])))))
    /\ DisplayStates.type final = "done"
    /\ DisplayStates.header final = "Measurement complete"
    /\ DisplayStates.progress final = 100
    /\ DisplayStates.strength final = toString average
    /\ Forall (fun msg => SSEMessage.type msg = "update") (published evs).
Proof.
  intros Hatt Hwifi Htype Hb Hm Ha Hflag average.
  destruct st as [d0 [attempts0 iperf0 wifi0 completed0] pre].
  cbn in Hatt, Hwifi, Htype. subst attempts0 wifi0.
  unfold maxRetries, retryLoop. cbn.
  match goal with
  | |- context [attempt ?w0 ?s0 ?n ?p ?r ?st1] =>
      destruct (attempt_main w0 s0 n p r st1 b m a restB restM restA
                  Hb Hm Ha Hflag)
        as (final & iperf & completed & evs & E & T & H & P & S & F)
  end.
  cbn [displayStates locals effects Locals.attempts Locals.newWifiData
       Locals.set_attempts] in *.
  rewrite E. clear E. rewrite Htype in F.
  exists final, iperf, completed, evs.
  destruct (agree b a); cbn.
  - repeat split; auto.
  - rewrite <- !app_assoc. cbn. repeat split; auto.
Qed.

(** A run that [measures]: it resolves with status [""], with the bandwidth
    results, and with the averaged Wi-Fi entry exactly when the first and
    last samples agree; the message of type [done] is the last one
    published, and every message before it has type [update]. *)
Lemma run_main (ds : DisplayStates.t) (b m a : WifiResults.t) :
  measures w settings b m a ->
  let average :=
    arrayAverage [WifiResults.signalStrength b; WifiResults.signalStrength m;
                  WifiResults.signalStrength a] in
  exists iperf final l evs,
    runSurveyTests w settings (startState ds)
    = (Returned
         (SurveyResult.mk (Some iperf)
            (if agree b a then Some (averaged b average) else None) ""),
       mkSt final l
         (List.app evs
            (SSE (getUpdatedMessage final)
             :: (if agree b a then []
                 else [Log LevelDebug
                         (stringify (WifiResults.bssid b) ++ " "
                          ++ stringify (WifiResults.bssid a));
                       Log LevelError "Attempt failed:"]))))
    /\ DisplayStates.type final = "done"
    /\ DisplayStates.header final = "Measurement complete"
    /\ DisplayStates.progress final = 100
    /\ DisplayStates.strength final = toString average
    /\ Forall (fun msg => SSEMessage.type msg = "update") (published evs).
Proof.
  intros (Hpre & Hprobe & (ssids & s & others & Hscan & Hcur)
          & (restB & Hb) & (restM & Hm) & (restA & Ha) & Hflag) average.
  unfold runSurveyTests, startState.
  cbn -[filter]. rewrite Hpre. cbn -[filter].
  assert (Hend : forall perform reason st1,
    Locals.attempts (locals st1) = 0%nat ->
    Locals.newWifiData (locals st1) = None ->
    DisplayStates.type (displayStates st1) = "update" ->
    exists final iperf completed evs,
      retryLoop w maxRetries settings (WifiResults.ssid s) perform reason st1
      = (Returned None,
         mkSt final
           (Locals.mk 1 iperf
              (if agree b a then Some (averaged b average) else None) completed)
           (List.app (effects st1)
              (List.app evs
                 (SSE (getUpdatedMessage final)
                  :: (if agree b a then []
                      else [Log LevelDebug
                              (stringify (WifiResults.bssid b) ++ " "
                               ++ stringify (WifiResults.bssid a));
                            Log LevelError "Attempt failed:"])))))
      /\ DisplayStates.type final = "done"
      /\ DisplayStates.header final = "Measurement complete"
      /\ DisplayStates.progress final = 100
      /\ DisplayStates.strength final = toString average
      /\ Forall (fun msg => SSEMessage.type msg = "update") (published evs)).
  { intros perform reason st1 H1 H2 H3.
    exact (retryLoop_main (WifiResults.ssid s) perform reason st1 b m a
             restB restM restA H1 H2 H3 Hb Hm Ha Hflag). }
  destruct Hprobe as [Hl | [reason Hr]].
  - rewrite Hl. cbn -[filter]. rewrite Hscan. cbn -[filter]. rewrite Hcur. cbn.
    finish_main Hend.
  - destruct (String.eqb (Settings.iperfServerAdrs settings) "localhost").
    + cbn -[filter]. rewrite Hscan. cbn -[filter]. rewrite Hcur. cbn.
      finish_main Hend.
    + cbn -[filter]. rewrite Hr. cbn -[filter].
      destruct (String.eqb reason ""); cbn -[filter]; rewrite Hscan; cbn -[filter];
        rewrite Hcur; cbn; finish_main Hend.
Qed.


Lemma doneCount_app (xs ys : list SSEMessage.t) :
  doneCount (List.app xs ys) = (doneCount xs + doneCount ys)%nat.
Proof. unfold doneCount. rewrite filter_app, length_app. reflexivity. Qed.

Lemma doneCount_updates (ms : list SSEMessage.t) :
  Forall (fun msg => SSEMessage.type msg = "update") ms -> doneCount ms = 0%nat.
Proof.
  induction 1 as [|msg ms Hmsg _ IH]; [reflexivity|].
  unfold doneCount in *. cbn. rewrite Hmsg. cbn. exact IH.
Qed.

Lemma differ_agree (b a : WifiResults.t) : differ b a <-> agree b a = false.
Proof.
  unfold differ, agree. rewrite !andb_false_iff.
  rewrite <- !String.eqb_neq. tauto.
Qed.

(** A run whose scan fails: the error reaches the caller, after the message
    of the top-level handler. *)
Lemma scan_fails (ds : DisplayStates.t) :
  preflightSettings w settings = Returned "" ->
  probed w settings ->
  scanFails w settings ->
  exists e first,
    fst (runSurveyTests w settings (startState ds)) = Thrown e
    /\ published (effects (snd (runSurveyTests w settings (startState ds))))
       = [first; errorMessage]
    /\ SSEMessage.type first = "update"
    /\ (forall ssids, scanWifi w settings = Returned ssids ->
        e = JsTypeError "Cannot read properties of undefined (reading 'ssid')").
Proof.
  intros Hpre Hprobe Hscan.
  unfold runSurveyTests, startState.
  cbn -[filter]. rewrite Hpre. cbn -[filter].
  destruct Hprobe as [Hl | [reason Hr]];
    [ rewrite Hl
    | destruct (String.eqb (Settings.iperfServerAdrs settings) "localhost");
      [ | cbn -[filter]; rewrite Hr; cbn -[filter]; destruct (String.eqb reason "") ] ];
    cbn -[filter];
    (destruct Hscan as [[e He] | (ssids & Hs & Hc)];
     [ rewrite He; cbn; exists e; eexists;
       repeat split; intros ? [=]
     | rewrite Hs; cbn -[filter]; rewrite Hc; cbn; eexists; eexists;
       repeat split ]).
Qed.

End Runs.

(** ** The orchestrator *)

Lemma arrayAverage_three (x y z : Q) :
  arrayAverage [Num x; Num y; Num z] = Some (Math_round ((x + y + z) / 3)).
Proof.
  unfold arrayAverage. cbn. f_equal. apply Math_round_compat.
  unfold Qdiv. change (inject_Z (Z.pos 3)) with 3%Q. ring.
Qed.

Example arrayAverage_40_44_46 : arrayAverage [Num 40; Num 44; Num 46] = Some 43.
Proof. reflexivity. Qed.

(** C10.  When the scan lists no network as the current one (the settings
    having passed preflight and the server check having answered or been
    skipped), [runSurveyTests] rejects: reading the name of the first current
    entry is a [TypeError], the only messages published are the initial
    update and the message of type [done] with status
    ["Error taking measurements"], and the error is thrown on to the
    caller. *)
Theorem no_current_network_rejects :
  forall {externals : Externals} (w : World) (settings : Settings.t)
         (ds : DisplayStates.t) (ssids : list WifiResults.t),
    preflightSettings w settings = Returned "" ->
    probed w settings ->
    scanWifi w settings = Returned ssids ->
    filter WifiResults.currentSSID ssids = [] ->
    fst (runSurveyTests w settings (startState ds))
    = Thrown (JsTypeError "Cannot read properties of undefined (reading 'ssid')")
    /\ exists first,
         published (effects (snd (runSurveyTests w settings (startState ds))))
         = [first;
            SSEMessage.mk "done" "Error" "Error taking measurements" None None None]
         /\ SSEMessage.type first = "update".
Proof.
  intros externals w settings ds ssids Hpre Hprobe Hscan Hcur.
  destruct (scan_fails w settings ds Hpre Hprobe) as (e & first & He & Hp & Hf & Hm).
  - right. exists ssids. split; assumption.
  - rewrite He, (Hm ssids Hscan). split; [reflexivity|].
    exists first. split; assumption.
Qed.

Lemma no_current_network_rejects_witness :
  fst (runSurveyTests (externals := Demo.externals) Demo.unassociated Demo.settings
         Demo.start)
  = Thrown (JsTypeError "Cannot read properties of undefined (reading 'ssid')").
Proof.
  apply (no_current_network_rejects (externals := Demo.externals) Demo.unassociated
           Demo.settings moduleDisplayStates
           [WifiResults.mk "other" "ee:ff" (Num 5) (Num 36) (Num 80) "WPA2"
              (Num 866) "802.11ac" (Num 30) (Num (-80)) false]).
  - reflexivity.
  - right. exists "". reflexivity.
  - reflexivity.
  - reflexivity.
Defined.

(** C6.  When the cancellation flag is set at the checkpoint that follows the
    first sample, [runSurveyTests] resolves to status ["test was cancelled"]
    with [iperfData] and [wifiData] [null]; no [iperf3] subprocess is
    started, and [getWifi] is called once, so nothing is retried.  This
    holds whichever protocols are enabled, both in particular. *)
Theorem cancel_after_first_sample :
  forall {externals : Externals} (w : World) (settings : Settings.t)
         (ds : DisplayStates.t) (ssids others rest : list WifiResults.t)
         (s b : WifiResults.t),
    preflightSettings w settings = Returned "" ->
    probed w settings ->
    scanWifi w settings = Returned ssids ->
    filter WifiResults.currentSSID ssids = s :: others ->
    getWifi w settings 1%nat SampleBefore = Returned (b :: rest) ->
    getCancelFlag w 1%nat AfterSampleBefore = true ->
    let run := runSurveyTests w settings (startState ds) in
    fst run = Returned (SurveyResult.mk None None "test was cancelled")
    /\ filter isExec (effects (snd run)) = []
    /\ List.length (filter isGetWifi (effects (snd run))) = 1%nat.
Proof.
  intros externals w settings ds ssids others rest s b Hpre Hprobe Hscan Hcur Hget Hflag.
  unfold runSurveyTests, startState.
  cbn -[filter]. rewrite Hpre. cbn -[filter].
  destruct Hprobe as [Hl | [reason Hr]];
    [ rewrite Hl
    | destruct (String.eqb (Settings.iperfServerAdrs settings) "localhost");
      [ | cbn -[filter]; rewrite Hr; cbn -[filter]; destruct (String.eqb reason "") ] ];
    cbn -[filter]; rewrite Hscan; cbn -[filter]; rewrite Hcur;
    unfold maxRetries, retryLoop, attempt, samplingBefore;
    cbn; rewrite Hget; cbn; rewrite Hflag; cbn;
    repeat split.
Qed.

Lemma cancel_after_first_sample_witness :
  fst (runSurveyTests (externals := Demo.externals) Demo.stopped Demo.settings Demo.start)
  = Returned (SurveyResult.mk None None "test was cancelled").
Proof.
  apply (cancel_after_first_sample (externals := Demo.externals) Demo.stopped
           Demo.settings moduleDisplayStates
           [Demo.entry "aa:bb" 40] [] [] (Demo.entry "aa:bb" 40) (Demo.entry "aa:bb" 40)).
  - reflexivity.
  - right. exists "". reflexivity.
  - reflexivity.
  - reflexivity.
  - reflexivity.
  - reflexivity.
Defined.

(** C9.  In a run whose three samples arrive and which no checkpoint
    cancels, the message of type [done] with header ["Measurement complete"]
    and progress 100 is published, and it is the last message published,
    whether or not the first and last samples agree.  When they differ, the
    log record that [validateWifiDataConsistency] writes comes after that
    message, and the run then returns without a Wi-Fi entry. *)
Theorem done_published_before_validation :
  forall {externals : Externals} (w : World) (settings : Settings.t)
         (ds : DisplayStates.t) (b m a : WifiResults.t),
    measures w settings b m a ->
    let run := runSurveyTests w settings (startState ds) in
    exists (final : DisplayStates.t) (before after : list Event),
      effects (snd run)
      = List.app before (SSE (getUpdatedMessage final) :: after)
      /\ SSEMessage.type (getUpdatedMessage final) = "done"
      /\ SSEMessage.header (getUpdatedMessage final) = "Measurement complete"
      /\ SSEMessage.progress (getUpdatedMessage final) = Some 100
      /\ Forall (fun msg => SSEMessage.type msg = "update") (published before)
      /\ published after = []
      /\ (differ b a ->
          after = [Log LevelDebug
                     (stringify (WifiResults.bssid b) ++ " "
                      ++ stringify (WifiResults.bssid a));
                   Log LevelError "Attempt failed:"]
          /\ exists r, fst run = Returned r /\ SurveyResult.wifiData r = None).
Proof.
  intros externals w settings ds b m a Hmeasures run.
  destruct (run_main w settings ds b m a Hmeasures)
    as (iperf & final & l & evs & E & T & H & P & S & F).
  unfold run. rewrite E. cbn [fst snd effects].
  exists final, evs. eexists. split; [reflexivity|].
  destruct final as [ty hd st tcp udp te ue pr]. cbn in T, H, P. subst ty hd pr.
  split; [reflexivity|]. split; [reflexivity|]. split; [reflexivity|].
  split; [exact F|].
  split; [destruct (agree b a); reflexivity|].
  intros D. apply differ_agree in D. rewrite D.
  split; [reflexivity|]. eexists. split; reflexivity.
Qed.

Lemma done_published_before_validation_witness :
  exists (final : DisplayStates.t) (before after : list Event),
    effects (snd (runSurveyTests (externals := Demo.externals) Demo.roamed
                    Demo.settings Demo.start))
    = List.app before (SSE (getUpdatedMessage final) :: after)
    /\ SSEMessage.type (getUpdatedMessage final) = "done"
    /\ after = [Log LevelDebug (stringify "aa:bb" ++ " " ++ stringify "aa:cc");
                Log LevelError "Attempt failed:"].
Proof.
  destruct (done_published_before_validation (externals := Demo.externals)
              Demo.roamed Demo.settings moduleDisplayStates
              (Demo.entry "aa:bb" 40) (Demo.entry "aa:bb" 44) (Demo.entry "aa:cc" 46))
    as (final & before & after & E & T & _ & _ & _ & _ & D).
  - repeat split; try reflexivity.
    + right. exists "". reflexivity.
    + exists [Demo.entry "aa:bb" 40], (Demo.entry "aa:bb" 40), []. split; reflexivity.
    + exists []. reflexivity.
    + exists []. reflexivity.
    + exists []. reflexivity.
  - exists final, before, after. split; [exact E|]. split; [exact T|].
    apply D. left. discriminate.
Defined.

(** C8.  In a run that completes (the three samples arrive, no checkpoint
    cancels, the first and last samples agree), the Wi-Fi entry returned is
    the first sample with [signalStrength] the rounded mean of the three
    sampled strengths and [rssi] the conversion of that mean by
    [percentageToRssi]; for finite samples the rounded mean is the integer
    nearest to their arithmetic mean. *)
Theorem averaged_signal_strength :
  forall {externals : Externals} (w : World) (settings : Settings.t)
         (ds : DisplayStates.t) (b m a : WifiResults.t),
    measures w settings b m a ->
    agree b a = true ->
    let mean :=
      arrayAverage [WifiResults.signalStrength b; WifiResults.signalStrength m;
                    WifiResults.signalStrength a] in
    (exists r wifi,
       fst (runSurveyTests w settings (startState ds)) = Returned r
       /\ SurveyResult.status r = ""
       /\ SurveyResult.wifiData r = Some wifi
       /\ WifiResults.signalStrength wifi = ofInt mean
       /\ WifiResults.rssi wifi = percentageToRssi (ofInt mean)
       /\ WifiResults.bssid wifi = WifiResults.bssid b)
    /\ (forall x y z : Q,
          WifiResults.signalStrength b = Num x ->
          WifiResults.signalStrength m = Num y ->
          WifiResults.signalStrength a = Num z ->
          exists n : Z,
            mean = Some n
            /\ (inject_Z n - (1 # 2) <= (x + y + z) / 3)%Q
            /\ ((x + y + z) / 3 < inject_Z n + (1 # 2))%Q).
Proof.
  intros externals w settings ds b m a Hmeasures Hagree mean.
  split.
  - destruct (run_main w settings ds b m a Hmeasures)
      as (iperf & final & l & evs & E & _).
    rewrite E, Hagree. cbn [fst].
    eexists. eexists. repeat split.
  - intros x y z Hx Hy Hz. unfold mean. rewrite Hx, Hy, Hz, arrayAverage_three.
    eexists. split; [reflexivity|]. apply Math_round_spec.
Qed.

Lemma averaged_signal_strength_witness :
  exists r wifi,
    fst (runSurveyTests (externals := Demo.externals) Demo.steady Demo.settings
           Demo.start) = Returned r
    /\ SurveyResult.wifiData r = Some wifi
    /\ WifiResults.signalStrength wifi = Num 43
    /\ WifiResults.rssi wifi = @percentageToRssi Demo.externals (Num 43).
Proof.
  destruct (averaged_signal_strength (externals := Demo.externals)
              Demo.steady Demo.settings moduleDisplayStates
              (Demo.entry "aa:bb" 40) (Demo.entry "aa:bb" 44) (Demo.entry "aa:bb" 46))
    as [(r & wifi & E & _ & W & S & R & _) _].
  - repeat split; try reflexivity.
    + right. exists "". reflexivity.
    + exists [Demo.entry "aa:bb" 40], (Demo.entry "aa:bb" 40), []. split; reflexivity.
    + exists []. reflexivity.
    + exists []. reflexivity.
    + exists []. reflexivity.
  - reflexivity.
  - exists r, wifi. repeat split; assumption.
Defined.

(** A run that [measures] while the first and last samples differ: the error
    thrown at line 367 is caught by the [catch] of the attempt, the loop runs
    out, and line 391 returns. *)
Lemma consistency_failure_swallowed {externals : Externals} (w : World)
    (settings : Settings.t) (ds : DisplayStates.t) (b m a : WifiResults.t) :
  measures w settings b m a ->
  differ b a ->
  exists iperf,
    fst (runSurveyTests w settings (startState ds))
    = Returned (SurveyResult.mk (Some iperf) None "").
Proof.
  intros Hmeasures D. apply differ_agree in D.
  destruct (run_main w settings ds b m a Hmeasures)
    as (iperf & final & l & evs & E & _).
  rewrite E, D. exists iperf. reflexivity.
Qed.

(** C1 (the code departs from the claim).  With the access point changing
    between the first and the last sample, [runSurveyTests] resolves to the
    status [""] of a successful run, with a non-null [iperfData] that holds
    the bandwidth figures measured and a [null] [wifiData]: the error thrown
    at line 367 never reaches the caller. *)
Theorem consistency_failure_returns_success_status :
  exists iperf : IperfResults.t,
    fst (runSurveyTests (externals := Demo.externals) Demo.roamed Demo.settings
           Demo.start)
    = Returned (SurveyResult.mk (Some iperf) None "")
    /\ IperfTestProperty.bitsPerSecond (IperfResults.tcpDownload iperf)
       = Some (Num 500000000)
    /\ differ (Demo.entry "aa:bb" 40) (Demo.entry "aa:cc" 46)
    /\ measures Demo.roamed Demo.settings
         (Demo.entry "aa:bb" 40) (Demo.entry "aa:bb" 44) (Demo.entry "aa:cc" 46).
Proof.
  eexists. split; [vm_compute; reflexivity|].
  split; [reflexivity|].
  split; [left; discriminate|].
  repeat split; try reflexivity.
  - right. exists "". reflexivity.
  - exists [Demo.entry "aa:bb" 40], (Demo.entry "aa:bb" 40), []. split; reflexivity.
  - exists []. reflexivity.
  - exists []. reflexivity.
  - exists []. reflexivity.
Qed.

(** C2 as stated fails: a run that fails preflight publishes no message of
    type [done], and neither does a run cancelled after its first sample. *)
Lemma done_message_count_counterexample :
  doneCount
    (published
       (effects (snd (runSurveyTests (externals := Demo.externals) Demo.refused
                        Demo.settings Demo.start)))) = 0%nat
  /\ fst (runSurveyTests (externals := Demo.externals) Demo.refused Demo.settings
            Demo.start)
     = Returned (SurveyResult.mk None None "Please set the sudo password")
  /\ doneCount
       (published
          (effects (snd (runSurveyTests (externals := Demo.externals) Demo.stopped
                           Demo.settings Demo.start)))) = 0%nat
  /\ fst (runSurveyTests (externals := Demo.externals) Demo.stopped Demo.settings
            Demo.start)
     = Returned (SurveyResult.mk None None "test was cancelled").
Proof. repeat split; vm_compute; reflexivity. Qed.

(** C2, amended.  A run in which nothing interrupts the measurement ends in
    success or in a consistency abort, and publishes exactly one message of
    type [done] before it returns; a run whose scan fails publishes exactly
    one before it rejects; a run that fails preflight returns the reason
    without publishing any message. *)
Theorem done_message_count :
  forall {externals : Externals} (w : World) (settings : Settings.t)
         (ds : DisplayStates.t),
    let run := runSurveyTests w settings (startState ds) in
    let dones := doneCount (published (effects (snd run))) in
    ((exists b m a, measures w settings b m a) ->
     dones = 1%nat /\ exists r, fst run = Returned r /\ SurveyResult.status r = "")
    /\ (preflightSettings w settings = Returned "" ->
        probed w settings ->
        scanFails w settings ->
        dones = 1%nat /\ exists e, fst run = Thrown e)
    /\ (forall reason,
          preflightSettings w settings = Returned reason ->
          reason <> "" ->
          published (effects (snd run)) = []
          /\ fst run = Returned (SurveyResult.mk None None reason)).
Proof.
  intros externals w settings ds run dones.
  split; [|split].
  - intros (b & m & a & Hmeasures).
    destruct (run_main w settings ds b m a Hmeasures)
      as (iperf & final & l & evs & E & T & _ & _ & _ & F).
    unfold dones, run. rewrite E. cbn [fst snd effects].
    split.
    + rewrite published_app, doneCount_app, (doneCount_updates _ F).
      destruct final as [ty hd st tcp udp te ue pr]. cbn in T. subst ty.
      destruct (agree b a); reflexivity.
    + eexists. split; reflexivity.
  - intros Hpre Hprobe Hscan.
    destruct (scan_fails w settings ds Hpre Hprobe Hscan)
      as (e & first & He & Hp & Hf & _).
    unfold dones, run. rewrite Hp. split.
    + unfold doneCount. cbn. rewrite Hf. reflexivity.
    + exists e. exact He.
  - intros reason Hpre Hreason.
    unfold run, runSurveyTests, startState. cbn. rewrite Hpre. cbn.
    destruct (String.eqb reason "") eqn:E.
    + apply String.eqb_eq in E. contradiction.
    + cbn. split; reflexivity.
Qed.

Lemma done_message_count_witness :
  doneCount
    (published
       (effects (snd (runSurveyTests (externals := Demo.externals) Demo.steady
                        Demo.settings Demo.start)))) = 1%nat.
Proof.
  pose proof (done_message_count (externals := Demo.externals) Demo.steady
                Demo.settings moduleDisplayStates) as H.
  cbv zeta in H. destruct H as [H _]. apply H.
  exists (Demo.entry "aa:bb" 40), (Demo.entry "aa:bb" 44), (Demo.entry "aa:bb" 46).
  repeat split; try reflexivity.
  - right. exists "". reflexivity.
  - exists [Demo.entry "aa:bb" 40], (Demo.entry "aa:bb" 40), []. split; reflexivity.
  - exists []. reflexivity.
  - exists []. reflexivity.
  - exists []. reflexivity.
Defined.

(** ** Progress never decreases *)

Lemma callbackProgress_le (c : Z) (ppt : Q) (p q : Z) :
  (0 <= ppt)%Q -> p <= q -> callbackProgress c ppt p <= callbackProgress c ppt q.
Proof.
  intros Hppt Hpq. unfold callbackProgress. apply Math_round_le.
  apply Qplus_le_r. apply Qmult_le_compat_r; [|exact Hppt].
  apply Qmult_le_compat_r; [|discriminate].
  rewrite <- Zle_Qle. exact Hpq.
Qed.

Lemma callbackProgress_next (c : Z) (ppt : Q) :
  callbackProgress c ppt 100 = callbackProgress (c + 1) ppt 0.
Proof.
  unfold callbackProgress. apply Math_round_compat.
  rewrite inject_Z_plus. change (inject_Z 100) with 100%Q.
  change (inject_Z 1) with 1%Q. change (inject_Z 0) with 0%Q.
  setoid_replace (100 / 100)%Q with 1%Q by reflexivity.
  setoid_replace (0 / 100)%Q with 0%Q by reflexivity.
  ring.
Qed.

Lemma callbackProgress_start (ppt : Q) : callbackProgress 0 ppt 0 = 0.
Proof.
  unfold callbackProgress.
  transitivity (Math_round (inject_Z 0)); [|apply Math_round_Z].
  apply Math_round_compat. change (inject_Z 0) with 0%Q.
  setoid_replace (0 / 100)%Q with 0%Q by reflexivity.
  ring.
Qed.

Lemma progressPerTest_nonneg (total : Z) : (0 <= progressPerTest total)%Q.
Proof.
  unfold progressPerTest. destruct (0 <? total) eqn:E; [|apply Qle_refl].
  apply Z.ltb_lt in E.
  apply Qle_shift_div_l.
  - change 0%Q with (inject_Z 0). now rewrite <- Zlt_Qlt.
  - rewrite Qmult_0_l. discriminate.
Qed.

Lemma callbackProgress_total (tcpEnabled udpEnabled : bool) :
  callbackProgress (totalTests tcpEnabled udpEnabled)
    (progressPerTest (totalTests tcpEnabled udpEnabled)) 0 <= 100.
Proof. destruct tcpEnabled, udpEnabled; vm_compute; discriminate. Qed.

Lemma tickPercent_le (duration : Q) (e1 e2 : Z) :
  (0 < duration)%Q -> e1 <= e2 -> tickPercent duration e1 <= tickPercent duration e2.
Proof.
  intros Hd He. unfold tickPercent.
  apply Z.min_le_compat_r. apply Math_round_le.
  apply Qmult_le_compat_r; [|discriminate].
  unfold Qdiv. apply Qmult_le_compat_r; [rewrite <- Zle_Qle; exact He|].
  apply Qlt_le_weak, Qinv_lt_0_compat.
  apply (Qmult_lt_0_compat); [exact Hd | reflexivity].
Qed.

Lemma tickPercent_nonneg (duration : Q) (e : Z) :
  (0 < duration)%Q -> 0 <= e -> 0 <= tickPercent duration e.
Proof.
  intros Hd He.
  assert (Z0 : tickPercent duration 0 = 0).
  { unfold tickPercent. change (inject_Z 0) with 0%Q.
    assert (E : (0 / (duration * 1000) * 100 == inject_Z 0)%Q).
    { unfold Qdiv. rewrite !Qmult_0_l. reflexivity. }
    rewrite (Math_round_compat _ _ E), Math_round_Z. reflexivity. }
  rewrite <- Z0. now apply tickPercent_le.
Qed.

Lemma tickPercent_below (duration : Q) (e : Z) : tickPercent duration e <= 100.
Proof. unfold tickPercent. lia. Qed.

Lemma unitProgress_sorted (c : Z) (ppt duration : Q) (ticks : list Z) :
  (0 <= ppt)%Q -> (0 < duration)%Q ->
  StronglySorted Z.le ticks ->
  StronglySorted Z.le (unitProgress c ppt duration ticks).
Proof.
  intros Hppt Hd Hs. unfold unitProgress.
  induction Hs as [|e later Hs IH Hall]; cbn.
  - repeat constructor.
  - constructor; [exact IH|].
    apply Forall_app. split.
    + apply Forall_map. eapply Forall_impl; [|exact Hall].
      cbn. intros e' Hle. apply callbackProgress_le; [exact Hppt|].
      now apply tickPercent_le.
    + repeat constructor. apply callbackProgress_le; [exact Hppt|].
      apply tickPercent_below.
Qed.

Lemma unitProgress_above (c : Z) (ppt duration : Q) (ticks : list Z) :
  (0 <= ppt)%Q -> (0 < duration)%Q ->
  Forall (fun e => 0 <= e) ticks ->
  Forall (fun p => callbackProgress c ppt 0 <= p) (unitProgress c ppt duration ticks).
Proof.
  intros Hppt Hd Hn. unfold unitProgress. apply Forall_app. split.
  - apply Forall_map. eapply Forall_impl; [|exact Hn].
    cbn. intros e He. apply callbackProgress_le; [exact Hppt|].
    now apply tickPercent_nonneg.
  - repeat constructor. apply callbackProgress_le; [exact Hppt | lia].
Qed.

Lemma unitProgress_below (c : Z) (ppt duration : Q) (ticks : list Z) :
  (0 <= ppt)%Q ->
  Forall (fun p => p <= callbackProgress c ppt 100) (unitProgress c ppt duration ticks).
Proof.
  intros Hppt. unfold unitProgress. apply Forall_app. split.
  - apply Forall_map. apply Forall_forall. intros e _.
    apply callbackProgress_le; [exact Hppt | apply tickPercent_below].
  - repeat constructor. lia.
Qed.

Lemma progressValues_app (xs ys : list SSEMessage.t) :
  progressValues (List.app xs ys) = List.app (progressValues xs) (progressValues ys).
Proof.
  induction xs as [|x xs IH]; [reflexivity|].
  cbn. destruct (SSEMessage.progress x); cbn; rewrite IH; reflexivity.
Qed.

Lemma progress_getUpdatedMessage (d : DisplayStates.t) :
  SSEMessage.progress (getUpdatedMessage d) = Some (DisplayStates.progress d).
Proof. reflexivity. Qed.

Lemma progressValues_updates (d : DisplayStates.t) (ps : list Z) :
  progressValues
    (map (fun p => getUpdatedMessage (DisplayStates.set_progress p d)) ps) = ps.
Proof.
  induction ps as [|p ps IH]; [reflexivity|].
  cbn [map progressValues]. rewrite progress_getUpdatedMessage. cbv beta iota.
  rewrite IH. reflexivity.
Qed.

Lemma StronglySorted_app (xs ys : list Z) :
  StronglySorted Z.le xs -> StronglySorted Z.le ys ->
  (forall x y, In x xs -> In y ys -> x <= y) ->
  StronglySorted Z.le (List.app xs ys).
Proof.
  intros Hx Hy Hxy. induction Hx as [|x xs Hx IH Hall]; [exact Hy|].
  cbn. constructor.
  - apply IH. intros a b Ha Hb. apply Hxy; [now right | exact Hb].
  - apply Forall_app. split; [exact Hall|].
    apply Forall_forall. intros y Hin. apply Hxy; [now left | exact Hin].
Qed.

Lemma StronglySorted_app_inv (xs ys : list Z) :
  StronglySorted Z.le (List.app xs ys) ->
  StronglySorted Z.le xs /\ StronglySorted Z.le ys
  /\ (forall x y, In x xs -> In y ys -> x <= y).
Proof.
  induction xs as [|x xs IH]; cbn; intros H.
  - repeat split; [constructor | exact H | intros ? ? []].
  - apply StronglySorted_inv in H. destruct H as [H Hall].
    destruct (IH H) as (Hx & Hy & Hxy).
    apply Forall_app in Hall. destruct Hall as [Hall1 Hall2].
    repeat split; [constructor; assumption | exact Hy |].
    intros a b [<- | Ha] Hb.
    + rewrite Forall_forall in Hall2. now apply Hall2.
    + now apply Hxy.
Qed.

Lemma progressValues_map (f : Z -> SSEMessage.t) (ps : list Z) :
  (forall p, SSEMessage.progress (f p) = Some p) ->
  progressValues (map f ps) = ps.
Proof.
  intros Hf. induction ps as [|p ps IH]; [reflexivity|].
  cbn [map progressValues]. rewrite Hf, IH. reflexivity.
Qed.

(** Publishing [news] after the values [old], of which none exceeds [p],
    keeps the whole sorted and below [q], as soon as [p], [news] and [q] are
    sorted in that order. *)
Lemma sorted_extend (old news : list Z) (p q : Z) :
  StronglySorted Z.le (List.app old [p]) ->
  StronglySorted Z.le (p :: List.app news [q]) ->
  StronglySorted Z.le (List.app (List.app old news) [q]).
Proof.
  intros Hold Hnew.
  apply StronglySorted_app_inv in Hold. destruct Hold as (Ho & _ & Hop).
  apply StronglySorted_inv in Hnew. destruct Hnew as [Hn Hpn].
  rewrite Forall_forall in Hpn.
  rewrite <- app_assoc. apply StronglySorted_app; [exact Ho | exact Hn |].
  intros x y Hx Hy. transitivity p.
  - apply Hop; [exact Hx | now left].
  - now apply Hpn.
Qed.

Lemma mono_step (st st' : St) (news : list Z) :
  mono st ->
  progressValues (published (effects st'))
  = List.app (progressValues (published (effects st))) news ->
  StronglySorted Z.le
    (DisplayStates.progress (displayStates st)
     :: List.app news [DisplayStates.progress (displayStates st')]) ->
  mono st'.
Proof.
  unfold mono. intros H E S. rewrite E. now apply sorted_extend with (p := DisplayStates.progress (displayStates st)).
Qed.

(** The values two consecutive test units publish, with the update sent
    between them, and possibly one more update [tail] after them. *)
Lemma two_units_sorted (p c : Z) (ppt duration : Q) (ticks1 ticks2 tail : list Z) :
  (0 <= ppt)%Q -> (0 < duration)%Q ->
  StronglySorted Z.le ticks1 -> Forall (fun e => 0 <= e) ticks1 ->
  StronglySorted Z.le ticks2 -> Forall (fun e => 0 <= e) ticks2 ->
  p <= callbackProgress c ppt 0 ->
  tail = [] \/ tail = [callbackProgress (c + 1) ppt 100] ->
  StronglySorted Z.le
    (p :: List.app
            (List.app (unitProgress c ppt duration ticks1)
               (callbackProgress c ppt 100
                :: List.app (unitProgress (c + 1) ppt duration ticks2) tail))
            [callbackProgress (c + 1) ppt 100]).
Proof.
  intros Hppt Hd Hs1 Hn1 Hs2 Hn2 Hp Htail.
  pose proof (unitProgress_sorted c ppt duration ticks1 Hppt Hd Hs1) as S1.
  pose proof (unitProgress_above c ppt duration ticks1 Hppt Hd Hn1) as A1.
  pose proof (unitProgress_below c ppt duration ticks1 Hppt) as B1.
  pose proof (unitProgress_sorted (c + 1) ppt duration ticks2 Hppt Hd Hs2) as S2.
  pose proof (unitProgress_above (c + 1) ppt duration ticks2 Hppt Hd Hn2) as A2.
  pose proof (unitProgress_below (c + 1) ppt duration ticks2 Hppt) as B2.
  rewrite <- callbackProgress_next in A2.
  rewrite Forall_forall in A1, B1, A2, B2.
  assert (Hmid : callbackProgress c ppt 0 <= callbackProgress c ppt 100)
    by (apply callbackProgress_le; [exact Hppt | lia]).
  assert (Hend : callbackProgress c ppt 100 <= callbackProgress (c + 1) ppt 100).
  { rewrite callbackProgress_next. apply callbackProgress_le; [exact Hppt | lia]. }
  assert (Stail : StronglySorted Z.le
                    (List.app tail [callbackProgress (c + 1) ppt 100])).
  { destruct Htail as [-> | ->]; repeat constructor. lia. }
  assert (Itail : forall y, In y (List.app tail [callbackProgress (c + 1) ppt 100]) ->
                            y = callbackProgress (c + 1) ppt 100).
  { intros y Hy. destruct Htail as [-> | ->]; cbn in Hy; intuition. }
  rewrite <- !app_assoc. cbn [List.app]. rewrite <- !app_assoc.
  constructor.
  - apply StronglySorted_app; [exact S1 | |].
    + constructor.
      * apply StronglySorted_app; [exact S2 | exact Stail |].
        intros x y Hx Hy. rewrite (Itail y Hy). now apply B2.
      * apply Forall_app. split.
        -- apply Forall_forall. intros y Hy. now apply A2.
        -- apply Forall_forall. intros y Hy. rewrite (Itail y Hy). exact Hend.
    + intros x y Hx [<- | Hy]; [now apply B1|].
      transitivity (callbackProgress c ppt 100); [now apply B1|].
      apply in_app_or in Hy. destruct Hy as [Hy | Hy].
      * now apply A2.
      * rewrite (Itail y Hy). exact Hend.
  - apply Forall_app. split.
    + apply Forall_forall. intros y Hy. specialize (A1 y Hy). lia.
    + constructor; [lia|].
      apply Forall_app. split.
      * apply Forall_forall. intros y Hy. specialize (A2 y Hy). lia.
      * apply Forall_forall. intros y Hy. rewrite (Itail y Hy). lia.
Qed.

Lemma sorted_raise_last (xs : list Z) (a b : Z) :
  StronglySorted Z.le (List.app xs [a]) -> a <= b ->
  StronglySorted Z.le (List.app xs [b]).
Proof.
  intros H Hab. apply StronglySorted_app_inv in H. destruct H as (Hx & _ & Hxa).
  apply StronglySorted_app; [exact Hx | repeat constructor |].
  intros x y Hin [<- | []]. specialize (Hxa x a Hin (or_introl eq_refl)). lia.
Qed.

Lemma sorted_repeat_last (xs : list Z) (b : Z) :
  StronglySorted Z.le (List.app xs [b]) ->
  StronglySorted Z.le (List.app (List.app xs [b]) [b]).
Proof.
  intros H. apply StronglySorted_app; [exact H | repeat constructor |].
  intros x y Hin [<- | []].
  apply StronglySorted_app_inv in H. destruct H as (_ & _ & Hxb).
  apply in_app_or in Hin. destruct Hin as [Hin | [<- | []]]; [|lia].
  apply Hxb; [exact Hin | now left].
Qed.

(** Brings the published progress of an evaluated state to the form
    [old ++ news]. *)
Ltac progress_list :=
  cbn [effects displayStates locals];
  rewrite ?published_app, ?progressValues_app;
  cbn [published progressValues];
  rewrite ?progress_getUpdatedMessage;
  cbv beta iota;
  rewrite ?progressValues_map by (intros; reflexivity);
  rewrite <- ?app_assoc;
  cbn [List.app DisplayStates.progress].

Section StageMono.
Context {externals : Externals}.
Variable w : World.
Variable settings : Settings.t.

Lemma tcpPhase_mono (server : string) (duration : Q) (tcpEnabled : bool)
    (ppt : Q) (reason : string) (st : St) :
  ticksSane w server duration -> (0 <= ppt)%Q ->
  mono st -> within ppt st ->
  let st' := snd (tcpPhase w server duration tcpEnabled ppt reason st) in
  mono st' /\ within ppt st'
  /\ Locals.completedTests (locals st')
     = Locals.completedTests (locals st) + (if tcpEnabled then 2 else 0).
Proof.
  intros [Hd Hticks] Hppt Hmono Hwithin.
  unfold tcpPhase. unfold within in *.
  destruct tcpEnabled.
  - cbn.
    match goal with
    | |- context [runSingleTest ?w ?s ?d ?dir ?ty ?cb ?st0] =>
        destruct (runSingleTest_frame w s d dir ty ppt st0) as (r1 & evs1 & E1 & P1)
    end.
    rewrite E1. cbn.
    match goal with
    | |- context [runSingleTest ?w ?s ?d ?dir ?ty ?cb ?st0] =>
        destruct (runSingleTest_frame w s d dir ty ppt st0) as (r2 & evs2 & E2 & P2)
    end.
    rewrite E2. cbn. clear E1 E2. cbn in P1, P2.
    destruct (Hticks Down TCP) as [Hs1 Hn1]. destruct (Hticks Up TCP) as [Hs2 Hn2].
    destruct (getCancelFlag w (Locals.attempts (locals st)) AfterTcpPhase); cbn.
    + split; [|split; [rewrite callbackProgress_next; lia | lia]].
      eapply (mono_step st); [exact Hmono | |].
      * progress_list. rewrite P1, P2. progress_list. reflexivity.
      * cbn [displayStates DisplayStates.progress].
        rewrite <- (app_nil_r (unitProgress (_ + 1) _ _ _)).
        apply two_units_sorted; auto.
    + split; [|split; [rewrite callbackProgress_next; lia | lia]].
      eapply (mono_step st); [exact Hmono | |].
      * progress_list. rewrite P1, P2. progress_list. reflexivity.
      * cbn [displayStates DisplayStates.progress].
        apply two_units_sorted; auto.
  - cbn.
    destruct (DisplayStates.tcpEnabled (displayStates st)); cbn;
      destruct (getCancelFlag w (Locals.attempts (locals st)) AfterTcpPhase); cbn;
      (split; [|split; [lia | lia]]);
      (eapply (mono_step st); [exact Hmono | progress_list; try reflexivity | ]).
    all: try (rewrite <- (app_nil_r (progressValues _)) at 1; reflexivity).
    all: cbn; repeat constructor; lia.
Qed.


Lemma udpPhase_mono (server : string) (duration : Q) (udpEnabled : bool)
    (ppt : Q) (reason : string) (st : St) :
  ticksSane w server duration -> (0 <= ppt)%Q ->
  mono st -> within ppt st ->
  callbackProgress
    (Locals.completedTests (locals st) + (if udpEnabled then 2 else 0)) ppt 0 <= 100 ->
  mono (snd (udpPhase w server duration udpEnabled ppt reason st)).
Proof.
  intros [Hd Hticks] Hppt Hmono Hwithin Hend.
  unfold udpPhase. unfold within in *.
  destruct udpEnabled.
  - cbn.
    match goal with
    | |- context [runSingleTest ?w ?s ?d ?dir ?ty ?cb ?st0] =>
        destruct (runSingleTest_frame w s d dir ty ppt st0) as (r1 & evs1 & E1 & P1)
    end.
    rewrite E1. cbn.
    match goal with
    | |- context [runSingleTest ?w ?s ?d ?dir ?ty ?cb ?st0] =>
        destruct (runSingleTest_frame w s d dir ty ppt st0) as (r2 & evs2 & E2 & P2)
    end.
    rewrite E2. cbn. clear E1 E2. cbn in P1, P2.
    destruct (Hticks Down UDP) as [Hs1 Hn1]. destruct (Hticks Up UDP) as [Hs2 Hn2].
    assert (Hlast : callbackProgress (Locals.completedTests (locals st) + 1) ppt 100
                    <= 100).
    { rewrite callbackProgress_next.
      replace (Locals.completedTests (locals st) + 1 + 1)
        with (Locals.completedTests (locals st) + 2) by lia.
      exact Hend. }
    pose proof (two_units_sorted
                  (DisplayStates.progress (displayStates st))
                  (Locals.completedTests (locals st)) ppt duration
                  (timerTicks w server duration Down UDP)
                  (timerTicks w server duration Up UDP) []
                  Hppt Hd Hs1 Hn1 Hs2 Hn2 Hwithin (or_introl eq_refl)) as S.
    rewrite app_nil_r in S.
    apply (sorted_raise_last (_ :: _) _ 100) in S; [|exact Hlast].
    destruct (getCancelFlag w (Locals.attempts (locals st)) AfterUdpPhase); cbn.
    + eapply (mono_step st); [exact Hmono | |].
      * progress_list. rewrite P1, P2. progress_list. reflexivity.
      * cbn [displayStates DisplayStates.progress]. exact S.
    + eapply (mono_step st); [exact Hmono | |].
      * progress_list. rewrite P1, P2. progress_list. reflexivity.
      * cbn [displayStates DisplayStates.progress].
        apply (sorted_repeat_last (_ :: _)) in S.
        rewrite <- ?app_assoc in S. cbn [List.app] in S.
        rewrite <- ?app_assoc in S. cbn [List.app] in S.
        rewrite <- ?app_assoc. cbn [List.app]. rewrite <- ?app_assoc.
        cbn [List.app]. exact S.
  - rewrite Z.add_0_r in Hend. cbn.
    destruct (DisplayStates.udpEnabled (displayStates st)); cbn;
      destruct (getCancelFlag w (Locals.attempts (locals st)) AfterUdpPhase); cbn;
      (eapply (mono_step st); [exact Hmono | progress_list; try reflexivity | ]).
    all: try (rewrite <- (app_nil_r (progressValues _)) at 1; reflexivity).
    all: cbn; repeat constructor; lia.
Qed.

Lemma samplingBefore_mono (ssidName : string) (st : St) :
  mono st ->
  let st' := snd (samplingBefore w settings ssidName st) in
  mono st'
  /\ DisplayStates.progress (displayStates st') = DisplayStates.progress (displayStates st).
Proof.
  intros Hmono. unfold samplingBefore. cbn.
  destruct (getWifi w settings (Locals.attempts (locals st)) SampleBefore)
    as [[|b rest]|e]; cbn;
    [ | destruct (getCancelFlag w (Locals.attempts (locals st)) AfterSampleBefore); cbn | ];
    (split; [|reflexivity]);
    (eapply (mono_step st); [exact Hmono | progress_list; try reflexivity | ]).
  all: try (rewrite <- (app_nil_r (progressValues _)) at 1; reflexivity).
  all: cbn; repeat constructor; lia.
Qed.

Lemma samplingMiddle_mono (strengths : list number) (st : St) :
  mono st ->
  let st' := snd (samplingMiddle w settings strengths st) in
  mono st'
  /\ DisplayStates.progress (displayStates st') = DisplayStates.progress (displayStates st)
  /\ Locals.completedTests (locals st') = Locals.completedTests (locals st).
Proof.
  intros Hmono. unfold samplingMiddle. cbn.
  destruct (getWifi w settings (Locals.attempts (locals st)) SampleMiddle)
    as [[|b rest]|e]; cbn;
    [ | destruct (getCancelFlag w (Locals.attempts (locals st)) AfterSampleMiddle); cbn | ];
    (split; [|split; reflexivity]);
    (eapply (mono_step st); [exact Hmono | progress_list; try reflexivity | ]).
  all: try (rewrite <- (app_nil_r (progressValues _)) at 1; reflexivity).
  all: cbn; repeat constructor; lia.
Qed.

Lemma samplingAfter_mono (strengths : list number) (st : St) :
  mono st -> mono (snd (samplingAfter w settings strengths st)).
Proof.
  intros Hmono. unfold samplingAfter. cbn.
  destruct (getWifi w settings (Locals.attempts (locals st)) SampleAfter)
    as [[|b rest]|e]; cbn;
    [ | destruct (getCancelFlag w (Locals.attempts (locals st)) AfterSampleAfter); cbn | ];
    (eapply (mono_step st); [exact Hmono | progress_list; try reflexivity | ]).
  all: try (rewrite <- (app_nil_r (progressValues _)) at 1; reflexivity).
  all: cbn; repeat constructor; lia.
Qed.

Lemma validateAndBuild_mono (before after : list WifiResults.t) (st : St) :
  mono st -> mono (snd (validateAndBuild before after st)).
Proof.
  intros Hmono. unfold validateAndBuild.
  destruct before as [|b restB]; cbn;
    [ | destruct after as [|a restA]; cbn;
        [ | match goal with |- context [if ?c then _ else _] => destruct c end; cbn ] ];
    (eapply (mono_step st); [exact Hmono | progress_list; try reflexivity | ]).
  all: try (rewrite <- (app_nil_r (progressValues _)) at 1; reflexivity).
  all: cbn; repeat constructor; lia.
Qed.


Lemma attempt_mono (ssidName : string) (perform : bool) (reason : string) (st : St) :
  clockSane w settings ->
  mono st ->
  DisplayStates.progress (displayStates st) <= 0 ->
  mono (snd (attempt w settings ssidName perform reason st)).
Proof.
  intros Hclock Hmono Hzero. unfold attempt. cbn.
  set (tcpEnabled := perform && Settings.iperfTcpEnabled settings).
  set (udpEnabled := perform && Settings.iperfUdpEnabled settings).
  change ((if tcpEnabled then 2 else 0) + (if udpEnabled then 2 else 0))
    with (totalTests tcpEnabled udpEnabled).
  clearbody tcpEnabled udpEnabled.
  remember (progressPerTest (totalTests tcpEnabled udpEnabled)) as ppt eqn:Eppt.
  assert (Hppt : (0 <= ppt)%Q) by (subst ppt; apply progressPerTest_nonneg).
  pose proof (samplingBefore_mono ssidName st Hmono) as X. cbv zeta in X.
  destruct (samplingBefore w settings ssidName st) as [[[before strengths]|e] st1];
    cbn [fst snd] in X |- *; destruct X as [M1 P1]; [|exact M1].
  cbn.
  match goal with
  | |- context [tcpPhase ?w0 ?s ?d ?en ?p ?r ?st0] =>
      pose proof (tcpPhase_mono s d en p r st0 Hclock Hppt M1) as X;
      destruct (tcpPhase w0 s d en p r st0) as [[[]|e] st2]
  end;
    cbn [fst snd] in X |- *;
    (destruct X as (M2 & W2 & C2);
     [ unfold within; cbn; rewrite callbackProgress_start, P1; exact Hzero | ]);
    [|exact M2].
  cbn in C2. cbn.
  pose proof (samplingMiddle_mono strengths st2 M2) as X. cbv zeta in X.
  destruct (samplingMiddle w settings strengths st2) as [[strengths'|e] st3];
    cbn [fst snd] in X |- *; destruct X as (M3 & P3 & C3); [|exact M3].
  cbn.
  match goal with
  | |- context [udpPhase ?w0 ?s ?d ?en ?p ?r ?st0] =>
      assert (X : mono (snd (udpPhase w0 s d en p r st0)));
      [ apply (udpPhase_mono s d en p r st0 Hclock Hppt M3);
        [ unfold within in *; rewrite P3, C3; exact W2
        | rewrite C3, C2; subst ppt; apply callbackProgress_total ]
      | destruct (udpPhase w0 s d en p r st0) as [[[]|e] st4] ]
  end;
    cbn [fst snd] in X |- *; [|exact X].
  cbn.
  pose proof (samplingAfter_mono strengths' st4 X) as Y.
  destruct (samplingAfter w settings strengths' st4) as [[after|e] st5];
    cbn [fst snd] in Y |- *; [|exact Y].
  cbn. apply validateAndBuild_mono. exact Y.
Qed.

End StageMono.

(** A state whose published progress is spelled out. *)
Ltac mono_now :=
  unfold mono; progress_list; cbn; repeat constructor; lia.

(** A state that differs from a [mono] one by records that carry no
    progress. *)
Ltac mono_after H :=
  eapply (mono_step _ _ []);
  [ exact H
  | progress_list; rewrite ?app_nil_r; reflexivity
  | cbn; repeat constructor; lia ].

Lemma run_mono {externals : Externals} (w : World) (settings : Settings.t)
    (ds : DisplayStates.t) :
  clockSane w settings ->
  mono (snd (runSurveyTests w settings (startState ds))).
Proof.
  intros Hclock.
  assert (Hloop : forall name perform reason st1,
            mono st1 -> DisplayStates.progress (displayStates st1) <= 0 ->
            Locals.attempts (locals st1) = 0%nat ->
            mono (snd (retryLoop w maxRetries settings name perform reason st1))
            /\ exists v, fst (retryLoop w maxRetries settings name perform reason st1)
                         = Returned v).
  { intros name perform reason st1 M Z A.
    unfold maxRetries, retryLoop. cbn. rewrite A. cbn.
    match goal with
    | |- context [attempt ?w0 ?s ?n ?p ?r ?st0] =>
        pose proof (attempt_mono w0 s n p r st0 Hclock M Z) as X;
        destruct (attempt w0 s n p r st0) as [[[]|e] st2]
    end; cbn [fst snd] in X |- *; cbn.
    - split; [exact X | eexists; reflexivity].
    - destruct (String.eqb (message e) "cancelled"); cbn;
        (split; [mono_after X | eexists; reflexivity]). }
  unfold runSurveyTests, startState. cbn -[filter].
  destruct (preflightSettings w settings) as [reason|e]; cbn -[filter]; [|mono_now].
  destruct (String.eqb reason ""); cbn -[filter]; [|mono_now].
  destruct (String.eqb (Settings.iperfServerAdrs settings) "localhost");
    cbn -[filter];
    [ | destruct (checkIperfServer w settings) as [reason'|e]; cbn -[filter];
        [ destruct (String.eqb reason' ""); cbn -[filter] | mono_now ] ];
    (destruct (scanWifi w settings) as [ssids|e]; cbn -[filter]; [|mono_now]);
    (destruct (filter WifiResults.currentSSID ssids) as [|s others]; cbn;
     [mono_now|]);
    match goal with
    | |- context [retryLoop ?w0 ?n ?s0 ?name ?p ?r ?st1] =>
        let X := fresh "X" in
        let V := fresh "V" in
        destruct (Hloop name p r st1) as [X V];
        [ mono_now | cbn; lia | reflexivity | ];
        destruct (retryLoop w0 n s0 name p r st1) as [c st2];
        cbn [fst snd] in X, V;
        destruct V as [v ->]; destruct v; exact X
    end.
Qed.

Lemma callbackProgress_share (tcpEnabled udpEnabled : bool) (c : Z) :
  0 < totalTests tcpEnabled udpEnabled ->
  callbackProgress c (progressPerTest (totalTests tcpEnabled udpEnabled)) 100
  = (c + 1) * (100 / totalTests tcpEnabled udpEnabled)
  /\ callbackProgress c (progressPerTest (totalTests tcpEnabled udpEnabled)) 0
     = c * (100 / totalTests tcpEnabled udpEnabled).
Proof.
  intros Htotal.
  assert (H : forall share : Z,
            (progressPerTest (totalTests tcpEnabled udpEnabled) == inject_Z share)%Q ->
            callbackProgress c (progressPerTest (totalTests tcpEnabled udpEnabled)) 100
            = (c + 1) * share
            /\ callbackProgress c (progressPerTest (totalTests tcpEnabled udpEnabled)) 0
               = c * share).
  { intros share E. unfold callbackProgress. split.
    - transitivity (Math_round (inject_Z ((c + 1) * share))); [|apply Math_round_Z].
      apply Math_round_compat. rewrite E, inject_Z_mult, inject_Z_plus.
      change (inject_Z 100) with 100%Q. change (inject_Z 1) with 1%Q.
      setoid_replace (100 / 100)%Q with 1%Q by reflexivity. ring.
    - transitivity (Math_round (inject_Z (c * share))); [|apply Math_round_Z].
      apply Math_round_compat. rewrite E, inject_Z_mult.
      change (inject_Z 0) with 0%Q.
      setoid_replace (0 / 100)%Q with 0%Q by reflexivity. ring. }
  destruct tcpEnabled, udpEnabled; cbn in Htotal; try lia;
    apply H; reflexivity.
Qed.

(** With no protocol enabled, a run that [measures] publishes progress 0
    with its first four messages and 100 with its last two. *)
Lemma zero_units_progress {externals : Externals} (w : World) (settings : Settings.t)
    (ds : DisplayStates.t) (b m a : WifiResults.t) :
  Settings.iperfTcpEnabled settings = false ->
  Settings.iperfUdpEnabled settings = false ->
  measures w settings b m a ->
  progressValues (published (effects (snd (runSurveyTests w settings (startState ds)))))
  = [0; 0; 0; 0; 100; 100].
Proof.
  intros Htcp Hudp.
  destruct settings as [server duration tcp udp]. cbn in Htcp, Hudp. subst tcp udp.
  intros (Hpre & Hprobe & (ssids & s & others & Hscan & Hcur)
          & (restB & Hb) & (restM & Hm) & (restA & Ha) & Hflag).
  unfold runSurveyTests, startState.
  cbn -[filter]. rewrite Hpre. cbn -[filter].
  destruct Hprobe as [Hl | [reason Hr]]; cbn in Hl || cbn in Hr;
    [ subst server
    | destruct (String.eqb server "localhost");
      [ | cbn -[filter]; rewrite Hr; cbn -[filter]; destruct (String.eqb reason "") ] ];
    cbn -[filter]; rewrite Hscan; cbn -[filter]; rewrite Hcur;
    unfold maxRetries, retryLoop, attempt, samplingBefore, tcpPhase, samplingMiddle,
      udpPhase, samplingAfter;
    cbn; repeat (progress (rewrite ?Hb, ?Hm, ?Ha, ?Hflag; cbn));
    rewrite validateAndBuild_run;
    destruct (agree b a); cbn;
    progress_list; reflexivity.
Qed.

Example steady_progress :
  progressValues
    (published
       (effects (snd (runSurveyTests (externals := Demo.externals) Demo.steady
                        Demo.settings Demo.start))))
  = [0; 0; 1; 13; 25; 25; 25; 25; 26; 38; 50; 50; 50; 50; 50; 51; 63; 75;
     75; 75; 75; 76; 88; 100; 100; 100; 100; 100].
Proof. vm_compute. reflexivity. Qed.

(** C7 as stated fails: the message of type [done] that the top-level
    handler publishes when the scan lists no current network carries no
    progress at all. *)
Lemma progress_accounting_counterexample :
  exists msg : SSEMessage.t,
    In msg
      (published
         (effects (snd (runSurveyTests (externals := Demo.externals)
                          Demo.unassociated Demo.settings Demo.start))))
    /\ SSEMessage.type msg = "done"
    /\ SSEMessage.progress msg <> Some 100.
Proof.
  exists (SSEMessage.mk "done" "Error" "Error taking measurements" None None None).
  split; [|split].
  - vm_compute. right. left. reflexivity.
  - reflexivity.
  - discriminate.
Qed.

(** C7, amended.  Within a single run (the test duration being positive and
    the elapsed times read by the progress timer non-negative and
    non-decreasing) the progress published never decreases.  In a run in
    which nothing interrupts the measurement, every message of type [done]
    carries progress 100; the message of type [done] that follows a failed
    scan is the one of the top-level handler, which carries no progress.
    Each test unit ends with the progress at the number of units completed
    times 100 / (2 x TCP enabled + 2 x UDP enabled), having started from one
    such share less; and with no unit enabled a run that nothing interrupts
    publishes progress 0 until the samples are taken and 100 from then on. *)
Theorem progress_accounting :
  forall {externals : Externals} (w : World) (settings : Settings.t)
         (ds : DisplayStates.t),
    let messages :=
      published (effects (snd (runSurveyTests w settings (startState ds)))) in
    (clockSane w settings -> StronglySorted Z.le (progressValues messages))
    /\ ((exists b m a, measures w settings b m a) ->
        forall msg, In msg messages -> SSEMessage.type msg = "done" ->
                    SSEMessage.progress msg = Some 100)
    /\ (preflightSettings w settings = Returned "" ->
        probed w settings ->
        scanFails w settings ->
        exists first,
          messages
          = [first;
             SSEMessage.mk "done" "Error" "Error taking measurements" None None None]
          /\ SSEMessage.type first = "update")
    /\ (forall (tcpEnabled udpEnabled : bool) (server : string) (duration : Q)
               (testDir : TestDirection) (testType : TestType) (st : St),
          0 < totalTests tcpEnabled udpEnabled ->
          let share := 100 / totalTests tcpEnabled udpEnabled in
          let after :=
            snd (runSingleTest w server duration testDir testType
                   (Some (progressCallback
                            (progressPerTest (totalTests tcpEnabled udpEnabled))))
                   st) in
          DisplayStates.progress (displayStates after)
          = (Locals.completedTests (locals st) + 1) * share
          /\ callbackProgress (Locals.completedTests (locals st))
               (progressPerTest (totalTests tcpEnabled udpEnabled)) 0
             = Locals.completedTests (locals st) * share)
    /\ (Settings.iperfTcpEnabled settings = false ->
        Settings.iperfUdpEnabled settings = false ->
        (exists b m a, measures w settings b m a) ->
        progressValues messages = [0; 0; 0; 0; 100; 100]).
Proof.
  intros externals w settings ds messages.
  split; [|split; [|split; [|split]]].
  - intros Hclock. pose proof (run_mono w settings ds Hclock) as M.
    unfold mono in M. apply StronglySorted_app_inv in M. apply M.
  - intros (b & m & a & Hmeasures) msg Hin Hdone.
    destruct (run_main w settings ds b m a Hmeasures)
      as (iperf & final & l & evs & E & T & _ & P & _ & F).
    unfold messages in Hin. rewrite E in Hin. cbn [snd effects] in Hin.
    rewrite published_app in Hin. apply in_app_or in Hin.
    destruct Hin as [Hin | Hin].
    + rewrite Forall_forall in F. rewrite (F msg Hin) in Hdone. discriminate.
    + cbn [published] in Hin.
      assert (Hnone : published
                        (if agree b a then []
                         else [Log LevelDebug
                                 (stringify (WifiResults.bssid b) ++ " "
                                  ++ stringify (WifiResults.bssid a));
                               Log LevelError "Attempt failed:"]) = [])
        by (destruct (agree b a); reflexivity).
      rewrite Hnone in Hin. destruct Hin as [<- | []].
      rewrite progress_getUpdatedMessage, P. reflexivity.
  - intros Hpre Hprobe Hscan.
    destruct (scan_fails w settings ds Hpre Hprobe Hscan)
      as (e & first & _ & Hp & Hf & _).
    exists first. split; [exact Hp | exact Hf].
  - intros tcpEnabled udpEnabled server duration testDir testType st Htotal share after.
    destruct (callbackProgress_share tcpEnabled udpEnabled
                (Locals.completedTests (locals st)) Htotal) as [H100 H0].
    split; [|exact H0].
    unfold after.
    destruct (runSingleTest_frame w server duration testDir testType
                (progressPerTest (totalTests tcpEnabled udpEnabled)) st)
      as (r & evs & E & _).
    rewrite E. cbn. exact H100.
  - intros Htcp Hudp (b & m & a & Hmeasures).
    exact (zero_units_progress w settings ds b m a Htcp Hudp Hmeasures).
Qed.

Lemma progress_accounting_witness :
  StronglySorted Z.le
    (progressValues
       (published
          (effects (snd (runSurveyTests (externals := Demo.externals) Demo.steady
                           Demo.settings Demo.start))))).
Proof.
  pose proof (progress_accounting (externals := Demo.externals) Demo.steady
                Demo.settings moduleDisplayStates) as H.
  cbv zeta in H. destruct H as [H _]. apply H.
  split; [reflexivity|].
  intros dir ty. split; cbn; repeat constructor; lia.
Defined.

(** ** The retry loop ends by its own condition *)

Section Loop.
Context {externals : Externals}.
Variable w : World.
Variable settings : Settings.t.

Lemma samplingBefore_attempts (ssidName : string) (st : St) :
  Locals.attempts (locals (snd (samplingBefore w settings ssidName st)))
  = Locals.attempts (locals st).
Proof.
  unfold samplingBefore. cbn.
  destruct (getWifi w settings (Locals.attempts (locals st)) SampleBefore)
    as [[|b rest]|e]; cbn; try reflexivity.
  destruct (getCancelFlag w (Locals.attempts (locals st)) AfterSampleBefore);
    reflexivity.
Qed.

Lemma samplingMiddle_attempts (strengths : list number) (st : St) :
  Locals.attempts (locals (snd (samplingMiddle w settings strengths st)))
  = Locals.attempts (locals st).
Proof.
  unfold samplingMiddle. cbn.
  destruct (getWifi w settings (Locals.attempts (locals st)) SampleMiddle)
    as [[|b rest]|e]; cbn; try reflexivity.
  destruct (getCancelFlag w (Locals.attempts (locals st)) AfterSampleMiddle);
    reflexivity.
Qed.

Lemma samplingAfter_attempts (strengths : list number) (st : St) :
  Locals.attempts (locals (snd (samplingAfter w settings strengths st)))
  = Locals.attempts (locals st).
Proof.
  unfold samplingAfter. cbn.
  destruct (getWifi w settings (Locals.attempts (locals st)) SampleAfter)
    as [[|b rest]|e]; cbn; try reflexivity.
  destruct (getCancelFlag w (Locals.attempts (locals st)) AfterSampleAfter);
    reflexivity.
Qed.

Lemma validateAndBuild_attempts (before after : list WifiResults.t) (st : St) :
  Locals.attempts (locals (snd (validateAndBuild before after st)))
  = Locals.attempts (locals st).
Proof.
  unfold validateAndBuild.
  destruct before as [|b restB]; cbn; [reflexivity|].
  destruct after as [|a restA]; cbn; [reflexivity|].
  match goal with |- context [if ?c then _ else _] => destruct c end; reflexivity.
Qed.

Lemma tcpPhase_attempts (server : string) (duration : Q) (tcpEnabled : bool)
    (ppt : Q) (reason : string) (st : St) :
  Locals.attempts (locals (snd (tcpPhase w server duration tcpEnabled ppt reason st)))
  = Locals.attempts (locals st).
Proof.
  unfold tcpPhase. destruct tcpEnabled; cbn.
  - match goal with
    | |- context [runSingleTest ?w ?s ?d ?dir ?ty ?cb ?st0] =>
        destruct (runSingleTest_frame w s d dir ty ppt st0) as (r1 & evs1 & E1 & _)
    end.
    rewrite E1. cbn.
    match goal with
    | |- context [runSingleTest ?w ?s ?d ?dir ?ty ?cb ?st0] =>
        destruct (runSingleTest_frame w s d dir ty ppt st0) as (r2 & evs2 & E2 & _)
    end.
    rewrite E2. cbn.
    destruct (getCancelFlag w (Locals.attempts (locals st)) AfterTcpPhase);
      reflexivity.
  - destruct (DisplayStates.tcpEnabled (displayStates st)); cbn;
      destruct (getCancelFlag w (Locals.attempts (locals st)) AfterTcpPhase);
      reflexivity.
Qed.

Lemma udpPhase_attempts (server : string) (duration : Q) (udpEnabled : bool)
    (ppt : Q) (reason : string) (st : St) :
  Locals.attempts (locals (snd (udpPhase w server duration udpEnabled ppt reason st)))
  = Locals.attempts (locals st).
Proof.
  unfold udpPhase. destruct udpEnabled; cbn.
  - match goal with
    | |- context [runSingleTest ?w ?s ?d ?dir ?ty ?cb ?st0] =>
        destruct (runSingleTest_frame w s d dir ty ppt st0) as (r1 & evs1 & E1 & _)
    end.
    rewrite E1. cbn.
    match goal with
    | |- context [runSingleTest ?w ?s ?d ?dir ?ty ?cb ?st0] =>
        destruct (runSingleTest_frame w s d dir ty ppt st0) as (r2 & evs2 & E2 & _)
    end.
    rewrite E2. cbn.
    destruct (getCancelFlag w (Locals.attempts (locals st)) AfterUdpPhase);
      reflexivity.
  - destruct (DisplayStates.udpEnabled (displayStates st)); cbn;
      destruct (getCancelFlag w (Locals.attempts (locals st)) AfterUdpPhase);
      reflexivity.
Qed.

(** No step of an attempt assigns [attempts]. *)
Lemma attempt_attempts (ssidName : string) (perform : bool) (reason : string) (st : St) :
  Locals.attempts (locals (snd (attempt w settings ssidName perform reason st)))
  = Locals.attempts (locals st).
Proof.
  unfold attempt. cbn.
  pose proof (samplingBefore_attempts ssidName st) as X.
  destruct (samplingBefore w settings ssidName st) as [[[before strengths]|e] st1];
    cbn [fst snd] in X |- *; [|exact X].
  cbn.
  match goal with
  | |- context [tcpPhase ?w0 ?s ?d ?en ?p ?r ?st0] =>
      pose proof (tcpPhase_attempts s d en p r st0) as X2;
      destruct (tcpPhase w0 s d en p r st0) as [[[]|e] st2]
  end; cbn [fst snd] in X2 |- *; cbn in X2; [|congruence].
  cbn.
  pose proof (samplingMiddle_attempts strengths st2) as X3.
  destruct (samplingMiddle w settings strengths st2) as [[strengths'|e] st3];
    cbn [fst snd] in X3 |- *; [|congruence].
  cbn.
  match goal with
  | |- context [udpPhase ?w0 ?s ?d ?en ?p ?r ?st0] =>
      pose proof (udpPhase_attempts s d en p r st0) as X4;
      destruct (udpPhase w0 s d en p r st0) as [[[]|e] st4]
  end; cbn [fst snd] in X4 |- *; [|congruence].
  cbn.
  pose proof (samplingAfter_attempts strengths' st4) as X5.
  destruct (samplingAfter w settings strengths' st4) as [[after|e] st5];
    cbn [fst snd] in X5 |- *; [|congruence].
  cbn. rewrite validateAndBuild_attempts. congruence.
Qed.

(** The bound [maxRetries] on the iterations of [retryLoop] is never what
    stops it: started with [attempts = 0], the loop either returns from
    inside its body or ends with [attempts = maxRetries], where the
    condition [attempts < maxRetries] of the [while] is false.  It never
    throws. *)
Lemma retryLoop_runs_out (ssidName : string) (perform : bool) (reason : string)
    (st : St) :
  Locals.attempts (locals st) = 0%nat ->
  exists returned,
    fst (retryLoop w maxRetries settings ssidName perform reason st) = Returned returned
    /\ (returned = None ->
        Nat.ltb
          (Locals.attempts
             (locals (snd (retryLoop w maxRetries settings ssidName perform reason st))))
          maxRetries = false).
Proof.
  intros Hzero. unfold maxRetries, retryLoop. cbn. rewrite Hzero. cbn.
  match goal with
  | |- context [attempt ?w0 ?s ?n ?p ?r ?st0] =>
      pose proof (attempt_attempts n p r st0) as X;
      destruct (attempt w0 s n p r st0) as [[[]|e] st1]
  end; cbn [fst snd] in X |- *; cbn in X; cbn.
  - eexists. split; [reflexivity|]. intros _. rewrite X, Hzero. reflexivity.
  - destruct (String.eqb (message e) "cancelled"); cbn.
    + eexists. split; [reflexivity|]. discriminate.
    + eexists. split; [reflexivity|]. intros _. rewrite X, Hzero. reflexivity.
Qed.

End Loop.
(** ** What every run does, and in which order *)

Lemma launches_app (a b : list Event) :
  launches (List.app a b) = List.app (launches a) (launches b).
Proof. apply filter_app. Qed.

Lemma launches_cons (ev : Event) (evs : list Event) :
  launches (ev :: evs) = List.app (if isLaunch ev then [ev] else []) (launches evs).
Proof. unfold launches. cbn. destruct (isLaunch ev); reflexivity. Qed.

Lemma launches_nil : launches [] = [].
Proof. reflexivity. Qed.

Lemma launches_tail (old news plan : list Event) :
  launches (List.app old news) = List.app (launches old) plan -> launches news = plan.
Proof. rewrite launches_app. apply app_inv_head. Qed.

Arguments launches : simpl never.

(** Computes the launches of a list that ends in known events. *)
Ltac launch_calc :=
  rewrite ?launches_app;
  repeat (rewrite launches_cons; cbn [isLaunch]);
  rewrite ?launches_nil;
  cbn [List.app];
  rewrite ?app_nil_r.

Ltac sound_more :=
  repeat match goal with
         | |- Forall _ _ => assumption
         | H : Forall _ _ |- Forall _ _ => exact H
         | |- Forall _ (List.app _ _) => apply Forall_app; split
         | |- Forall _ (_ :: _) => apply Forall_cons
         | |- Forall _ [] => apply Forall_nil
         end.

Section Sound.
Context {externals : Externals}.
Variable w : World.
Variable settings : Settings.t.
Variable server : string.
Variables tcpE udpE : bool.

Lemma allowed_update (d : DisplayStates.t) :
  DisplayStates.tcpEnabled d = tcpE -> DisplayStates.udpEnabled d = udpE ->
  allowed server tcpE udpE (SSE (getUpdatedMessage d)).
Proof.
  intros <- <-. right. split; [reflexivity | split; [reflexivity|]].
  unfold getUpdatedMessage. cbn. discriminate.
Qed.

Lemma fireTicks_sound (ms ppt : Q) (elapsedTimes : list Z) (st : St) :
  sound server tcpE udpE st ->
  fst (fireTicks (intervalTick ms (progressCallback ppt)) elapsedTimes st) = Returned tt
  /\ sound server tcpE udpE
       (snd (fireTicks (intervalTick ms (progressCallback ppt)) elapsedTimes st))
  /\ locals (snd (fireTicks (intervalTick ms (progressCallback ppt)) elapsedTimes st))
     = locals st
  /\ launches
       (effects (snd (fireTicks (intervalTick ms (progressCallback ppt)) elapsedTimes st)))
     = launches (effects st).
Proof.
  revert st. induction elapsedTimes as [|e later IH]; intros st (Ht & Hu & Hall).
  - cbn. repeat split; assumption.
  - cbn [fireTicks]. unfold intervalTick at 1. cbn.
    match goal with
    | |- context [fireTicks _ _ ?s] => destruct (IH s) as (F & S & L & La)
    end.
    { repeat split; cbn; try assumption.
      sound_more. apply allowed_update; assumption. }
    repeat split; try apply S; try assumption.
    rewrite La. cbn. launch_calc. reflexivity.
Qed.

Lemma extractIperfData_sound (result : RawResult.t) (isUdp : bool) (st : St) :
  sound server tcpE udpE st ->
  sound server tcpE udpE (snd (extractIperfData result isUdp st))
  /\ locals (snd (extractIperfData result isUdp st)) = locals st
  /\ launches (effects (snd (extractIperfData result isUdp st)))
     = launches (effects st).
Proof.
  intros (Ht & Hu & Hall). unfold extractIperfData, sound.
  destruct (RawResult.end_ result) as [e|]; cbn.
  - repeat match goal with
           | |- context [match ?x with Some _ => _ | None => _ end] => destruct x; cbn
           | |- context [if ?b then _ else _] => destruct b; cbn
           end;
      launch_calc; repeat split; auto; sound_more; exact I.
  - launch_calc; repeat split; auto; sound_more; exact I.
Qed.

(** One bandwidth test with the progress closure: it launches its subprocess
    once, and does nothing that is not [allowed]. *)
Lemma runSingleTest_sound (duration : Q) (testDir : TestDirection)
    (testType : TestType) (ppt : Q) (st : St) :
  sound server tcpE udpE st ->
  enabledType tcpE udpE testType = true ->
  let st' :=
    snd (runSingleTest w server duration testDir testType
           (Some (progressCallback ppt)) st) in
  sound server tcpE udpE st'
  /\ launches (effects st')
     = List.app (launches (effects st)) [Exec server testDir testType].
Proof.
  intros (Ht & Hu & Hall) Hen. unfold runSingleTest, awaitExec. cbn.
  match goal with
  | |- context [fireTicks ?t ?l ?s] =>
      destruct (fireTicks_sound (duration * 1000)%Q ppt l s) as (F & S & L & La);
      [ repeat split; cbn; try assumption; sound_more; split; [reflexivity|assumption]
      | destruct (fireTicks t l s) as [c st1] ]
  end.
  cbn [fst snd] in F, S, L, La. subst c. cbn in L, La.
  revert La. launch_calc. intros La. cbn.
  assert (Hfin : forall st2,
    sound server tcpE udpE st2 -> locals st2 = locals st ->
    launches (effects st2) = List.app (launches (effects st)) [Exec server testDir testType] ->
    sound server tcpE udpE
      (mkSt (DisplayStates.set_progress
               (Math_round
                  (inject_Z (Locals.completedTests (locals st2)) * ppt
                   + inject_Z 100 / 100 * ppt)%Q)
               (displayStates st2))
            (locals st2)
            (List.app (effects st2)
               [SSE (getUpdatedMessage
                       (DisplayStates.set_progress
                          (Math_round
                             (inject_Z (Locals.completedTests (locals st2)) * ppt
                              + inject_Z 100 / 100 * ppt)%Q)
                          (displayStates st2)))]))
    /\ launches
         (List.app (effects st2)
            [SSE (getUpdatedMessage
                    (DisplayStates.set_progress
                       (Math_round
                          (inject_Z (Locals.completedTests (locals st2)) * ppt
                           + inject_Z 100 / 100 * ppt)%Q)
                       (displayStates st2)))])
       = List.app (launches (effects st)) [Exec server testDir testType]).
  { intros st2 (Ht2 & Hu2 & Hall2) _ Hl2. split.
    - repeat split; cbn; try assumption. sound_more.
      apply allowed_update; assumption.
    - launch_calc. exact Hl2. }
  destruct (execAsync w server duration testDir testType) as [stdout|e]; cbn.
  - destruct (JSON_parse stdout) as [result|e]; cbn.
    + match goal with
      | |- context [extractIperfData ?a ?b ?s] =>
          destruct (extractIperfData_sound a b s) as (S' & L' & La');
          [ destruct S as (? & ? & ?); repeat split; cbn; try assumption;
            sound_more; exact I
          | pose proof (extractIperfData_returns a b s) as (r & Hr & _);
            destruct (extractIperfData a b s) as [c st2] ]
      end.
      cbn [fst snd] in *. subst c. cbn.
      apply (Hfin (mkSt (displayStates st2) (locals st2)
                     (List.app (effects st2) [Log LevelTrace "Iperf extracted results:"]))).
      * destruct S' as (? & ? & ?). repeat split; cbn; try assumption.
        sound_more. exact I.
      * cbn. cbn in L'. congruence.
      * cbn. launch_calc. rewrite La'. cbn. launch_calc. exact La.
    + apply (Hfin (mkSt (displayStates st1) (locals st1)
                     (List.app (effects st1) [Log LevelError "iperf3 test failed"]))).
      * destruct S as (? & ? & ?). repeat split; cbn; try assumption.
        sound_more. exact I.
      * exact L.
      * cbn. launch_calc. exact La.
  - apply (Hfin (mkSt (displayStates st1) (locals st1)
                   (List.app (effects st1) [Log LevelError "iperf3 test failed"]))).
    + destruct S as (? & ? & ?). repeat split; cbn; try assumption.
      sound_more. exact I.
    + exact L.
    + cbn. launch_calc. exact La.
Qed.

End Sound.

Ltac run_test S te ue :=
  match goal with
  | |- context [runSingleTest ?w ?s ?d ?dir ?ty (Some (progressCallback ?ppt)) ?st0] =>
      let r := fresh "r" in
      let evs := fresh "evs" in
      let E := fresh "E" in
      pose proof (runSingleTest_sound w s te ue d dir ty ppt st0) as S;
      destruct (runSingleTest_frame w s d dir ty ppt st0) as (r & evs & E & _);
      rewrite E in S |- *; clear E; cbn in S |- *
  end.

Section Stages.
Context {externals : Externals}.
Variable w : World.
Variable settings : Settings.t.
Variable server : string.
Variables tcpE udpE : bool.

Lemma tcpPhase_sound (duration ppt : Q) (reason : string) (st : St) :
  sound server tcpE udpE st ->
  let st' := snd (tcpPhase w server duration tcpE ppt reason st) in
  sound server tcpE udpE st'
  /\ launches (effects st')
     = List.app (launches (effects st)) (bandwidthPair server TCP tcpE).
Proof.
  intros (Ht & Hu & Hall). unfold tcpPhase.
  destruct st as [d l effs]. cbn in Ht, Hu, Hall.
  destruct tcpE eqn:Hen; cbn.
  - run_test S1 true udpE.
    destruct S1 as ((Ht1 & Hu1 & Hall1) & L1);
      [repeat split; assumption | reflexivity |].
    cbn in Ht1, Hu1, Hall1, L1.
    apply launches_tail in L1.
    run_test S2 true udpE.
    destruct S2 as ((Ht2 & Hu2 & Hall2) & L2);
      [ repeat split; cbn; try assumption; sound_more;
        apply allowed_update; assumption
      | reflexivity |].
    cbn in Ht2, Hu2, Hall2, L2.
    apply launches_tail in L2.
    destruct (getCancelFlag w (Locals.attempts l) AfterTcpPhase); cbn.
    + split; [repeat split; cbn; try assumption; sound_more|].
      launch_calc. rewrite L1, L2, <- ?app_assoc. reflexivity.
    + split; [repeat split; cbn; try assumption; sound_more;
              apply allowed_update; assumption|].
      launch_calc. rewrite L1, L2, <- ?app_assoc. reflexivity.
  - rewrite Ht. cbn.
    destruct (getCancelFlag w (Locals.attempts l) AfterTcpPhase); cbn.
    + split; [repeat split; cbn; try assumption; sound_more|]. rewrite app_nil_r. reflexivity.
    + split; [repeat split; cbn; try assumption; sound_more;
              apply allowed_update; assumption|].
      launch_calc. reflexivity.
Qed.

Lemma udpPhase_sound (duration ppt : Q) (reason : string) (st : St) :
  sound server tcpE udpE st ->
  let st' := snd (udpPhase w server duration udpE ppt reason st) in
  sound server tcpE udpE st'
  /\ launches (effects st')
     = List.app (launches (effects st)) (bandwidthPair server UDP udpE).
Proof.
  intros (Ht & Hu & Hall). unfold udpPhase.
  destruct st as [d l effs]. cbn in Ht, Hu, Hall.
  destruct udpE eqn:Hen; cbn.
  - run_test S1 tcpE true.
    destruct S1 as ((Ht1 & Hu1 & Hall1) & L1);
      [repeat split; assumption | reflexivity |].
    cbn in Ht1, Hu1, Hall1, L1.
    apply launches_tail in L1.
    run_test S2 tcpE true.
    destruct S2 as ((Ht2 & Hu2 & Hall2) & L2);
      [ repeat split; cbn; try assumption; sound_more;
        apply allowed_update; assumption
      | reflexivity |].
    cbn in Ht2, Hu2, Hall2, L2.
    apply launches_tail in L2.
    destruct (getCancelFlag w (Locals.attempts l) AfterUdpPhase); cbn.
    + split; [repeat split; cbn; try assumption; sound_more|].
      launch_calc. rewrite L1, L2, <- ?app_assoc. reflexivity.
    + split; [repeat split; cbn; try assumption; sound_more;
              apply allowed_update; assumption|].
      launch_calc. rewrite L1, L2, <- ?app_assoc. reflexivity.
  - rewrite Hu. cbn.
    destruct (getCancelFlag w (Locals.attempts l) AfterUdpPhase); cbn.
    + split; [repeat split; cbn; try assumption; sound_more|]. rewrite app_nil_r. reflexivity.
    + split; [repeat split; cbn; try assumption; sound_more;
              apply allowed_update; assumption|].
      launch_calc. reflexivity.
Qed.

Lemma samplingBefore_sound (ssidName : string) (st : St) :
  sound server tcpE udpE st ->
  let st' := snd (samplingBefore w settings ssidName st) in
  sound server tcpE udpE st'
  /\ launches (effects st') = List.app (launches (effects st)) [Call CallGetWifi].
Proof.
  intros (Ht & Hu & Hall). unfold samplingBefore. cbn.
  destruct (getWifi w settings (Locals.attempts (locals st)) SampleBefore)
    as [[|b rest]|e]; cbn;
    [ | destruct (getCancelFlag w (Locals.attempts (locals st)) AfterSampleBefore);
        cbn | ];
    (split;
     [ repeat split; cbn; try assumption; sound_more;
       try exact I; try (apply allowed_update; assumption)
     | cbn; launch_calc; reflexivity ]).
Qed.

Lemma samplingMiddle_sound (strengths : list number) (st : St) :
  sound server tcpE udpE st ->
  let st' := snd (samplingMiddle w settings strengths st) in
  sound server tcpE udpE st'
  /\ launches (effects st') = List.app (launches (effects st)) [Call CallGetWifi].
Proof.
  intros (Ht & Hu & Hall). unfold samplingMiddle. cbn.
  destruct (getWifi w settings (Locals.attempts (locals st)) SampleMiddle)
    as [[|b rest]|e]; cbn;
    [ | destruct (getCancelFlag w (Locals.attempts (locals st)) AfterSampleMiddle);
        cbn | ];
    (split;
     [ repeat split; cbn; try assumption; sound_more;
       try exact I; try (apply allowed_update; assumption)
     | cbn; launch_calc; reflexivity ]).
Qed.

Lemma samplingAfter_sound (strengths : list number) (st : St) :
  sound server tcpE udpE st ->
  let st' := snd (samplingAfter w settings strengths st) in
  sound server tcpE udpE st'
  /\ launches (effects st') = List.app (launches (effects st)) [Call CallGetWifi].
Proof.
  intros (Ht & Hu & Hall). unfold samplingAfter. cbn.
  destruct (getWifi w settings (Locals.attempts (locals st)) SampleAfter)
    as [[|b rest]|e]; cbn;
    [ | destruct (getCancelFlag w (Locals.attempts (locals st)) AfterSampleAfter);
        cbn | ];
    (split;
     [ repeat split; cbn; try assumption; sound_more;
       try exact I; try (apply allowed_update; assumption)
     | cbn; launch_calc; reflexivity ]).
Qed.

Lemma validateAndBuild_sound (before after : list WifiResults.t) (st : St) :
  sound server tcpE udpE st ->
  let st' := snd (validateAndBuild before after st) in
  sound server tcpE udpE st'
  /\ launches (effects st') = launches (effects st).
Proof.
  intros (Ht & Hu & Hall). unfold validateAndBuild.
  destruct before as [|b restB]; cbn; [repeat split; assumption|].
  destruct after as [|a restA]; cbn; [repeat split; assumption|].
  match goal with |- context [if ?c then _ else _] => destruct c end; cbn;
    (split;
     [ repeat split; cbn; try assumption; sound_more; exact I
     | cbn; launch_calc; reflexivity ]).
Qed.

End Stages.

(** ** What the bandwidth record holds *)

Lemma extractIperfData_fst (result : RawResult.t) (isUdp : bool) (st st0 : St) :
  fst (extractIperfData result isUdp st) = fst (extractIperfData result isUdp st0).
Proof.
  destruct result as [[e|] err ver].
  - rewrite !extractIperfData_value. reflexivity.
  - reflexivity.
Qed.

Section Record.
Context {externals : Externals}.
Variable w : World.
Variable settings : Settings.t.

Lemma runSingleTest_outcome (server : string) (duration : Q) (testDir : TestDirection)
    (testType : TestType) (ppt : Q) (st : St) :
  fst (runSingleTest w server duration testDir testType
         (Some (progressCallback ppt)) st)
  = Returned (testOutcome w server duration testDir testType).
Proof.
  unfold testOutcome, runSingleTest, awaitExec. cbn.
  match goal with
  | |- context [fireTicks ?t ?l ?s] =>
      destruct (fireTicks_frame (duration * 1000)%Q ppt l s) as (p & evs & E & _)
  end.
  rewrite E. cbn. clear E.
  destruct (execAsync w server duration testDir testType) as [stdout|e]; cbn;
    [|reflexivity].
  destruct (JSON_parse stdout) as [result|e]; cbn; [|reflexivity].
  match goal with
  | |- context [extractIperfData ?a ?b ?s] =>
      pose proof (extractIperfData_fst a b s
                    (mkSt moduleDisplayStates
                       (Locals.mk 0 getDefaultIperfResults None 0) [])) as F;
      destruct (extractIperfData_frame a b s) as (r & evs' & E' & _)
  end.
  rewrite E' in F |- *. cbn in F |- *. rewrite <- F. reflexivity.
Qed.

Ltac outcome_test :=
  match goal with
  | |- context [runSingleTest ?w0 ?s ?d ?dir ?ty (Some (progressCallback ?ppt)) ?st0] =>
      let r := fresh "r" in
      let evs := fresh "evs" in
      let E := fresh "E" in
      let V := fresh "V" in
      pose proof (runSingleTest_outcome s d dir ty ppt st0) as V;
      destruct (runSingleTest_frame w0 s d dir ty ppt st0) as (r & evs & E & _);
      rewrite E in V |- *; clear E; cbn in V |- *;
      injection V as V; subst r
  end.

Lemma tcpPhase_record (server : string) (duration : Q) (tcpEnabled : bool)
    (ppt : Q) (reason : string) (st : St) :
  Locals.newIperfData (locals (snd (tcpPhase w server duration tcpEnabled ppt reason st)))
  = if tcpEnabled
    then IperfResults.set_tcpUpload (testOutcome w server duration Up TCP)
           (IperfResults.set_tcpDownload (testOutcome w server duration Down TCP)
              (Locals.newIperfData (locals st)))
    else Locals.newIperfData (locals st).
Proof.
  unfold tcpPhase. destruct tcpEnabled; cbn.
  - outcome_test. outcome_test.
    destruct (getCancelFlag w (Locals.attempts (locals st)) AfterTcpPhase);
      reflexivity.
  - destruct (DisplayStates.tcpEnabled (displayStates st)); cbn;
      destruct (getCancelFlag w (Locals.attempts (locals st)) AfterTcpPhase);
      reflexivity.
Qed.

Lemma udpPhase_record (server : string) (duration : Q) (udpEnabled : bool)
    (ppt : Q) (reason : string) (st : St) :
  Locals.newIperfData (locals (snd (udpPhase w server duration udpEnabled ppt reason st)))
  = if udpEnabled
    then IperfResults.set_udpUpload (testOutcome w server duration Up UDP)
           (IperfResults.set_udpDownload (testOutcome w server duration Down UDP)
              (Locals.newIperfData (locals st)))
    else Locals.newIperfData (locals st).
Proof.
  unfold udpPhase. destruct udpEnabled; cbn.
  - outcome_test. outcome_test.
    destruct (getCancelFlag w (Locals.attempts (locals st)) AfterUdpPhase);
      reflexivity.
  - destruct (DisplayStates.udpEnabled (displayStates st)); cbn;
      destruct (getCancelFlag w (Locals.attempts (locals st)) AfterUdpPhase);
      reflexivity.
Qed.

Lemma samplingBefore_record (ssidName : string) (st : St) :
  Locals.newIperfData (locals (snd (samplingBefore w settings ssidName st)))
  = Locals.newIperfData (locals st).
Proof.
  unfold samplingBefore. cbn.
  destruct (getWifi w settings (Locals.attempts (locals st)) SampleBefore)
    as [[|b rest]|e]; cbn; try reflexivity.
  destruct (getCancelFlag w (Locals.attempts (locals st)) AfterSampleBefore);
    reflexivity.
Qed.

Lemma samplingMiddle_record (strengths : list number) (st : St) :
  Locals.newIperfData (locals (snd (samplingMiddle w settings strengths st)))
  = Locals.newIperfData (locals st).
Proof.
  unfold samplingMiddle. cbn.
  destruct (getWifi w settings (Locals.attempts (locals st)) SampleMiddle)
    as [[|b rest]|e]; cbn; try reflexivity.
  destruct (getCancelFlag w (Locals.attempts (locals st)) AfterSampleMiddle);
    reflexivity.
Qed.

Lemma samplingAfter_record (strengths : list number) (st : St) :
  Locals.newIperfData (locals (snd (samplingAfter w settings strengths st)))
  = Locals.newIperfData (locals st).
Proof.
  unfold samplingAfter. cbn.
  destruct (getWifi w settings (Locals.attempts (locals st)) SampleAfter)
    as [[|b rest]|e]; cbn; try reflexivity.
  destruct (getCancelFlag w (Locals.attempts (locals st)) AfterSampleAfter);
    reflexivity.
Qed.

Lemma validateAndBuild_record (before after : list WifiResults.t) (st : St) :
  Locals.newIperfData (locals (snd (validateAndBuild before after st)))
  = Locals.newIperfData (locals st).
Proof.
  unfold validateAndBuild.
  destruct before as [|b restB]; cbn; [reflexivity|].
  destruct after as [|a restA]; cbn; [reflexivity|].
  match goal with |- context [if ?c then _ else _] => destruct c end; reflexivity.
Qed.

End Record.

Section Attempt.
Context {externals : Externals}.
Variable w : World.
Variable settings : Settings.t.

(** An attempt keeps to what is [allowed], and its calls and launches are
    the beginning of its plan. *)
Lemma attempt_sound (ssidName : string) (perform : bool) (reason : string) (st : St) :
  sound (Settings.iperfServerAdrs settings)
    (perform && Settings.iperfTcpEnabled settings)
    (perform && Settings.iperfUdpEnabled settings) st ->
  let st' := snd (attempt w settings ssidName perform reason st) in
  sound (Settings.iperfServerAdrs settings)
    (perform && Settings.iperfTcpEnabled settings)
    (perform && Settings.iperfUdpEnabled settings) st'
  /\ exists done rest,
       launches (effects st') = List.app (launches (effects st)) done
       /\ List.app done rest
          = attemptPlan (Settings.iperfServerAdrs settings)
              (perform && Settings.iperfTcpEnabled settings)
              (perform && Settings.iperfUdpEnabled settings).
Proof.
  intros Hs. unfold attempt. cbn.
  destruct (samplingBefore_sound w settings _ _ _ ssidName st Hs) as (S1 & L1).
  destruct (samplingBefore w settings ssidName st) as [[[before strengths]|e] st1];
    cbn [fst snd] in S1, L1 |- *.
  2:{ split; [exact S1|].
      exists [Call CallGetWifi],
        (List.app (bandwidthPair (Settings.iperfServerAdrs settings) TCP (perform && Settings.iperfTcpEnabled settings))
           (List.app [Call CallGetWifi] (List.app (bandwidthPair (Settings.iperfServerAdrs settings) UDP (perform && Settings.iperfUdpEnabled settings)) [Call CallGetWifi]))).
      split; [exact L1 | unfold attemptPlan; rewrite <- ?app_assoc; reflexivity]. }
  cbn.
  match goal with
  | |- context [tcpPhase ?w0 ?s ?d ?en ?p ?r ?st0] =>
      destruct (tcpPhase_sound w0 s _ _ d p r st0 S1) as (S2 & L2);
      destruct (tcpPhase w0 s d en p r st0) as [[[]|e] st2]
  end; cbn [fst snd] in S2, L2 |- *; cbn in L2; rewrite L1 in L2.
  2:{ split; [exact S2|].
      exists (List.app [Call CallGetWifi] (bandwidthPair (Settings.iperfServerAdrs settings) TCP (perform && Settings.iperfTcpEnabled settings))),
        (List.app [Call CallGetWifi] (List.app (bandwidthPair (Settings.iperfServerAdrs settings) UDP (perform && Settings.iperfUdpEnabled settings)) [Call CallGetWifi])).
      split; [rewrite L2, <- ?app_assoc; reflexivity | unfold attemptPlan; rewrite <- ?app_assoc; reflexivity]. }
  cbn.
  destruct (samplingMiddle_sound w settings _ _ _ strengths st2 S2) as (S3 & L3).
  destruct (samplingMiddle w settings strengths st2) as [[strengths'|e] st3];
    cbn [fst snd] in S3, L3 |- *; rewrite L2 in L3.
  2:{ split; [exact S3|].
      exists (List.app [Call CallGetWifi] (List.app (bandwidthPair (Settings.iperfServerAdrs settings) TCP (perform && Settings.iperfTcpEnabled settings)) [Call CallGetWifi])),
        (List.app (bandwidthPair (Settings.iperfServerAdrs settings) UDP (perform && Settings.iperfUdpEnabled settings)) [Call CallGetWifi]).
      split; [rewrite L3, <- ?app_assoc; reflexivity | unfold attemptPlan; rewrite <- ?app_assoc; reflexivity]. }
  cbn.
  match goal with
  | |- context [udpPhase ?w0 ?s ?d ?en ?p ?r ?st0] =>
      destruct (udpPhase_sound w0 s _ _ d p r st0 S3) as (S4 & L4);
      destruct (udpPhase w0 s d en p r st0) as [[[]|e] st4]
  end; cbn [fst snd] in S4, L4 |- *; rewrite L3 in L4.
  2:{ split; [exact S4|].
      exists (List.app [Call CallGetWifi] (List.app (bandwidthPair (Settings.iperfServerAdrs settings) TCP (perform && Settings.iperfTcpEnabled settings)) (List.app [Call CallGetWifi] (bandwidthPair (Settings.iperfServerAdrs settings) UDP (perform && Settings.iperfUdpEnabled settings))))),
        [Call CallGetWifi].
      split; [rewrite L4, <- ?app_assoc; reflexivity | unfold attemptPlan; rewrite <- ?app_assoc; reflexivity]. }
  cbn.
  destruct (samplingAfter_sound w settings _ _ _ strengths' st4 S4) as (S5 & L5).
  destruct (samplingAfter w settings strengths' st4) as [[after|e] st5];
    cbn [fst snd] in S5, L5 |- *; rewrite L4 in L5.
  2:{ split; [exact S5|].
      exists (attemptPlan (Settings.iperfServerAdrs settings) (perform && Settings.iperfTcpEnabled settings) (perform && Settings.iperfUdpEnabled settings)), [].
      split; [rewrite L5; unfold attemptPlan; rewrite <- ?app_assoc; reflexivity | apply app_nil_r]. }
  cbn.
  destruct (validateAndBuild_sound _ _ _ before after st5 S5) as (S6 & L6).
  split; [exact S6|].
  exists (attemptPlan (Settings.iperfServerAdrs settings) (perform && Settings.iperfTcpEnabled settings) (perform && Settings.iperfUdpEnabled settings)), [].
  split; [cbn in L6; rewrite L6, L5; unfold attemptPlan; rewrite <- ?app_assoc; reflexivity | apply app_nil_r].
Qed.

(** An attempt whose three samples arrive and which no checkpoint cancels
    goes through its whole plan, and stores the outcome of every test it
    runs. *)
Lemma attempt_full (ssidName : string) (perform : bool) (reason : string) (st : St)
    (b m a : WifiResults.t) (restB restM restA : list WifiResults.t) :
  sound (Settings.iperfServerAdrs settings)
    (perform && Settings.iperfTcpEnabled settings)
    (perform && Settings.iperfUdpEnabled settings) st ->
  getWifi w settings (Locals.attempts (locals st)) SampleBefore = Returned (b :: restB) ->
  getWifi w settings (Locals.attempts (locals st)) SampleMiddle = Returned (m :: restM) ->
  getWifi w settings (Locals.attempts (locals st)) SampleAfter = Returned (a :: restA) ->
  (forall cp, getCancelFlag w (Locals.attempts (locals st)) cp = false) ->
  let st' := snd (attempt w settings ssidName perform reason st) in
  launches (effects st')
  = List.app (launches (effects st))
      (attemptPlan (Settings.iperfServerAdrs settings)
         (perform && Settings.iperfTcpEnabled settings)
         (perform && Settings.iperfUdpEnabled settings))
  /\ Locals.newIperfData (locals st')
     = storeOutcomes w (Settings.iperfServerAdrs settings)
         (Settings.testDuration settings)
         (perform && Settings.iperfTcpEnabled settings)
         (perform && Settings.iperfUdpEnabled settings)
         (Locals.newIperfData (locals st)).
Proof.
  intros Hs Hb Hm Ha Hflag. unfold attempt. cbn.
  destruct (samplingBefore_sound w settings _ _ _ ssidName st Hs) as (S1 & L1).
  pose proof (samplingBefore_record w settings ssidName st) as R1.
  destruct (samplingBefore_returns w settings ssidName st b restB Hb (Hflag _)) as [hdr E].
  cbn in E. rewrite E in S1, L1, R1 |- *. clear E. cbn in S1, L1, R1. cbn.
  match goal with
  | |- context [tcpPhase ?w0 ?s ?d ?en ?p ?r ?st0] =>
      destruct (tcpPhase_sound w0 s _ _ d p r st0 S1) as (S2 & L2);
      pose proof (tcpPhase_record w0 s d en p r st0) as R2;
      destruct (tcpPhase_returns w0 s d en p r st0 (Hflag _))
        as (tcp & progress & iperf1 & completed1 & evs1 & E & _)
  end.
  rewrite E in S2, L2, R2 |- *. clear E. cbn in S2, L2, R2. rewrite L1 in L2. cbn.
  match goal with
  | |- context [samplingMiddle ?w0 ?s ?l ?st0] =>
      destruct (samplingMiddle_sound w0 s _ _ _ l st0 S2) as (S3 & L3);
      pose proof (samplingMiddle_record w0 s l st0) as R3;
      pose proof (samplingMiddle_returns w0 s l st0 m restM Hm (Hflag _)) as E
  end.
  cbn in E. rewrite E in S3, L3, R3 |- *. clear E. cbn in S3, L3, R3.
  rewrite L2 in L3. cbn.
  match goal with
  | |- context [udpPhase ?w0 ?s ?d ?en ?p ?r ?st0] =>
      destruct (udpPhase_sound w0 s _ _ d p r st0 S3) as (S4 & L4);
      pose proof (udpPhase_record w0 s d en p r st0) as R4;
      destruct (udpPhase_returns w0 s d en p r st0 (Hflag _))
        as (udp & iperf2 & completed2 & evs2 & E & _)
  end.
  rewrite E in S4, L4, R4 |- *. clear E. cbn in S4, L4, R4. rewrite L3 in L4. cbn.
  match goal with
  | |- context [samplingAfter ?w0 ?s ?l ?st0] =>
      destruct (samplingAfter_sound w0 s _ _ _ l st0 S4) as (S5 & L5);
      pose proof (samplingAfter_record w0 s l st0) as R5;
      pose proof (samplingAfter_returns w0 s l st0 a restA Ha (Hflag _)) as E
  end.
  cbn in E. rewrite E in S5, L5, R5 |- *. clear E. cbn in S5, L5, R5.
  rewrite L4 in L5. cbn.
  match goal with
  | |- context [validateAndBuild ?x ?y ?st0] =>
      destruct (validateAndBuild_sound _ _ _ x y st0 S5) as (_ & L6);
      pose proof (validateAndBuild_record x y st0) as R6
  end.
  cbn in L6, R6. split.
  - rewrite L6, L5. unfold attemptPlan. rewrite <- !app_assoc. reflexivity.
  - rewrite R6. unfold storeOutcomes. rewrite R4, R2. reflexivity.
Qed.

End Attempt.

Section WholeRun.
Context {externals : Externals}.
Variable w : World.
Variable settings : Settings.t.

Lemma retryLoop_sound (ssidName : string) (perform : bool) (reason : string) (st : St) :
  sound (Settings.iperfServerAdrs settings)
    (perform && Settings.iperfTcpEnabled settings)
    (perform && Settings.iperfUdpEnabled settings) st ->
  let st' := snd (retryLoop w maxRetries settings ssidName perform reason st) in
  sound (Settings.iperfServerAdrs settings)
    (perform && Settings.iperfTcpEnabled settings)
    (perform && Settings.iperfUdpEnabled settings) st'
  /\ exists done rest,
       launches (effects st') = List.app (launches (effects st)) done
       /\ List.app done rest
          = attemptPlan (Settings.iperfServerAdrs settings)
              (perform && Settings.iperfTcpEnabled settings)
              (perform && Settings.iperfUdpEnabled settings).
Proof.
  intros Hs. unfold maxRetries, retryLoop.
  destruct st as [d0 [[|attempts0] iperf0 wifi0 completed0] effs0]; cbn.
  - match goal with
    | |- context [attempt ?w0 ?s ?n ?p ?r ?st0] =>
        destruct (attempt_sound w0 s n p r st0) as (S & done & rest & L & P);
        [ destruct Hs as (? & ? & ?); repeat split; assumption
        | destruct (attempt w0 s n p r st0) as [[[]|e] st1] ]
    end; cbn [fst snd] in S, L |- *; cbn in L; cbn.
    + split; [exact S|]. exists done, rest. split; assumption.
    + destruct (String.eqb (message e) "cancelled"); cbn;
        (split;
         [ destruct S as (? & ? & ?); repeat split; cbn; try assumption;
           sound_more; exact I
         | exists done, rest; split; [launch_calc; exact L | exact P] ]).
  - split; [exact Hs|]. exists [], (attemptPlan (Settings.iperfServerAdrs settings)
              (perform && Settings.iperfTcpEnabled settings)
              (perform && Settings.iperfUdpEnabled settings)).
    split; [rewrite app_nil_r; reflexivity | reflexivity].
Qed.

Lemma retryLoop_full (ssidName : string) (perform : bool) (reason : string) (st : St)
    (b m a : WifiResults.t) (restB restM restA : list WifiResults.t) :
  sound (Settings.iperfServerAdrs settings)
    (perform && Settings.iperfTcpEnabled settings)
    (perform && Settings.iperfUdpEnabled settings) st ->
  Locals.attempts (locals st) = 0%nat ->
  getWifi w settings 1%nat SampleBefore = Returned (b :: restB) ->
  getWifi w settings 1%nat SampleMiddle = Returned (m :: restM) ->
  getWifi w settings 1%nat SampleAfter = Returned (a :: restA) ->
  (forall cp, getCancelFlag w 1%nat cp = false) ->
  let st' := snd (retryLoop w maxRetries settings ssidName perform reason st) in
  launches (effects st')
  = List.app (launches (effects st))
      (attemptPlan (Settings.iperfServerAdrs settings)
         (perform && Settings.iperfTcpEnabled settings)
         (perform && Settings.iperfUdpEnabled settings))
  /\ Locals.newIperfData (locals st')
     = storeOutcomes w (Settings.iperfServerAdrs settings)
         (Settings.testDuration settings)
         (perform && Settings.iperfTcpEnabled settings)
         (perform && Settings.iperfUdpEnabled settings)
         (Locals.newIperfData (locals st)).
Proof.
  intros Hs Hzero Hb Hm Ha Hflag.
  destruct st as [d0 [attempts0 iperf0 wifi0 completed0] pre].
  cbn in Hzero. subst attempts0.
  unfold maxRetries, retryLoop. cbn.
  match goal with
  | |- context [attempt ?w0 ?s ?n ?p ?r ?st0] =>
      destruct (attempt_full w0 s n p r st0 b m a restB restM restA) as (L & R);
      try assumption;
      destruct (attempt w0 s n p r st0) as [[[]|e] st1]
  end; cbn [fst snd] in L, R |- *; cbn in L, R; cbn.
  - split; assumption.
  - destruct (String.eqb (message e) "cancelled"); cbn; launch_calc;
      split; assumption.
Qed.

End WholeRun.

Section RunSound.
Context {externals : Externals}.
Variable w : World.
Variable settings : Settings.t.

(** The state in which the retry loop starts is [sound]. *)
Lemma loop_start_sound (perform : bool) (d : DisplayStates.t) (l : Locals.t)
    (evs : list Event) :
  DisplayStates.tcpEnabled d = perform && Settings.iperfTcpEnabled settings ->
  DisplayStates.udpEnabled d = perform && Settings.iperfUdpEnabled settings ->
  Forall (allowed (Settings.iperfServerAdrs settings)
            (perform && Settings.iperfTcpEnabled settings)
            (perform && Settings.iperfUdpEnabled settings)) evs ->
  sound (Settings.iperfServerAdrs settings)
    (perform && Settings.iperfTcpEnabled settings)
    (perform && Settings.iperfUdpEnabled settings) (mkSt d l evs).
Proof. intros; repeat split; assumption. Qed.

(** From the scan on (lines 239-401), for a run that decided [perform]. *)
Ltac after_scan perform :=
  match goal with
  | |- context [scanWifi w settings] =>
      destruct (scanWifi w settings) as [ssids|e]; cbn -[filter];
      [ destruct (filter WifiResults.currentSSID ssids) as [|s others]; cbn;
        [ | match goal with
            | |- context [retryLoop ?w0 ?n ?s0 ?name ?p ?r ?st0] =>
                let S := fresh "S" in
                let done := fresh "done" in
                let rest := fresh "rest" in
                let L := fresh "L" in
                let P := fresh "P" in
                let H3 := fresh "H3" in
                destruct (retryLoop_sound w0 s0 name p r st0)
                  as ((_ & _ & H3) & done & rest & L & P);
                [ apply (loop_start_sound perform);
                  [ reflexivity | reflexivity
                  | sound_more; try exact I; apply allowed_update; reflexivity ]
                | destruct (retryLoop w0 n s0 name p r st0) as [[[?|]|?] ?];
                  cbn [fst snd] in *; cbn;
                  revert L; launch_calc; intros L;
                  (split;
                   [ sound_more; try exact I; try (left; reflexivity)
                   | exists rest; unfold runPlan; launch_calc;
                     rewrite L, <- ?app_assoc, P; reflexivity ]) ]
            end ]
      | ]
  end.

(** A run that ends before its retry loop. *)
Ltac run_stops :=
  split;
  [ sound_more; try exact I;
    first [left; reflexivity | apply allowed_update; reflexivity]
  | eexists; unfold runPlan; launch_calc; reflexivity ].

Lemma run_sound (ds : DisplayStates.t) :
  let st' := snd (runSurveyTests w settings (startState ds)) in
  Forall (allowed (Settings.iperfServerAdrs settings)
            (performs w settings && Settings.iperfTcpEnabled settings)
            (performs w settings && Settings.iperfUdpEnabled settings)) (effects st')
  /\ exists rest, List.app (launches (effects st')) rest = runPlan w settings.
Proof.
  unfold runSurveyTests, startState. cbn -[filter].
  destruct (preflightSettings w settings) as [reason|e]; cbn -[filter].
  2:{ run_stops. }
  destruct (String.eqb reason ""); cbn -[filter].
  2:{ run_stops. }
  unfold performs.
  destruct (String.eqb (Settings.iperfServerAdrs settings) "localhost") eqn:Hlocal;
    cbn -[filter].
  - after_scan false; run_stops.
  - destruct (checkIperfServer w settings) as [answer|e]; cbn -[filter].
    2:{ run_stops. }
    destruct (String.eqb answer ""); cbn -[filter].
    + after_scan true; run_stops.
    + after_scan false; run_stops.
Qed.

Lemma storeOutcomes_default :
  storeOutcomes w (Settings.iperfServerAdrs settings) (Settings.testDuration settings)
    (performs w settings && Settings.iperfTcpEnabled settings)
    (performs w settings && Settings.iperfUdpEnabled settings)
    getDefaultIperfResults
  = measuredRecord w settings.
Proof.
  unfold storeOutcomes, measuredRecord.
  destruct (performs w settings && Settings.iperfTcpEnabled settings),
           (performs w settings && Settings.iperfUdpEnabled settings),
           getDefaultIperfResults; reflexivity.
Qed.

(** From the retry loop on, for a run that [measures]. *)
Ltac full_tail perform b m a restB restM restA Hb Hm Ha Hflag :=
  match goal with
  | |- context [retryLoop ?w0 ?n ?s0 ?name ?p ?r ?st0] =>
      let Hs := fresh "Hs" in
      let L := fresh "L" in
      let R := fresh "R" in
      assert (Hs : sound (Settings.iperfServerAdrs s0)
                     (perform && Settings.iperfTcpEnabled s0)
                     (perform && Settings.iperfUdpEnabled s0) st0)
        by (apply (loop_start_sound perform);
            [ reflexivity | reflexivity
            | sound_more; try exact I; apply allowed_update; reflexivity ]);
      destruct (retryLoop_full w0 s0 name p r st0 b m a restB restM restA
                  Hs eq_refl Hb Hm Ha Hflag) as (L & R);
      destruct (retryLoop w0 n s0 name p r st0) as [[[?|]|?] ?];
      cbn [fst snd] in *; cbn;
      revert L; launch_calc; intros L;
      (split; [rewrite L; reflexivity | rewrite R; reflexivity])
  end.

(** A run that [measures] goes through its whole plan and ends with the
    outcome of every test it ran in [newIperfData]. *)
Lemma run_full (ds : DisplayStates.t) (b m a : WifiResults.t) :
  measures w settings b m a ->
  let st' := snd (runSurveyTests w settings (startState ds)) in
  launches (effects st') = runPlan w settings
  /\ Locals.newIperfData (locals st') = measuredRecord w settings.
Proof.
  intros (Hpre & Hprobe & (ssids & s & others & Hscan & Hcur)
          & (restB & Hb) & (restM & Hm) & (restA & Ha) & Hflag).
  rewrite <- storeOutcomes_default.
  unfold runSurveyTests, startState, runPlan, performs.
  cbn -[filter]. rewrite Hpre. cbn -[filter].
  destruct Hprobe as [Hl | [reason Hr]].
  - rewrite Hl. cbn -[filter]. rewrite Hscan. cbn -[filter]. rewrite Hcur. cbn.
    full_tail false b m a restB restM restA Hb Hm Ha Hflag.
  - destruct (String.eqb (Settings.iperfServerAdrs settings) "localhost").
    + cbn -[filter]. rewrite Hscan. cbn -[filter]. rewrite Hcur. cbn.
      full_tail false b m a restB restM restA Hb Hm Ha Hflag.
    + cbn -[filter]. rewrite Hr. cbn -[filter].
      destruct (String.eqb reason ""); cbn -[filter]; rewrite Hscan; cbn -[filter];
        rewrite Hcur; cbn;
        [ full_tail true b m a restB restM restA Hb Hm Ha Hflag
        | full_tail false b m a restB restM restA Hb Hm Ha Hflag ].
Qed.

End RunSound.

(** ** How many [done] messages a run publishes *)

Lemma doneCount_update (d : DisplayStates.t) :
  DisplayStates.type d = "update" -> doneCount [getUpdatedMessage d] = 0%nat.
Proof. intros H. unfold doneCount, getUpdatedMessage. cbn. rewrite H. reflexivity. Qed.

Lemma doneCount_map (f : Z -> SSEMessage.t) (ps : list Z) :
  (forall p, SSEMessage.type (f p) = "update") -> doneCount (map f ps) = 0%nat.
Proof.
  intros H. apply doneCount_updates. apply Forall_forall. intros msg Hin.
  apply in_map_iff in Hin. destruct Hin as (p & <- & _). apply H.
Qed.

Lemma doneCount_nil : doneCount [] = 0%nat.
Proof. reflexivity. Qed.

Arguments doneCount : simpl never.

(** Counts the [done] messages of a state reached from one that is [quiet]
    with [Ht] and [Hd]. *)
Ltac count_done Ht Hd :=
  cbn [effects displayStates snd fst];
  rewrite ?published_app, ?doneCount_app; cbn [published];
  rewrite ?doneCount_map by (intros; exact Ht);
  rewrite ?doneCount_update by exact Ht;
  rewrite ?doneCount_nil, ?Hd; cbn [Nat.add].

Ltac still_quiet Ht Hd :=
  split; [exact Ht | count_done Ht Hd; reflexivity].

Section Quiet.
Context {externals : Externals}.
Variable w : World.
Variable settings : Settings.t.

Lemma tcpPhase_quiet (server : string) (duration : Q) (tcpEnabled : bool)
    (ppt : Q) (reason : string) (st : St) :
  quiet st -> quiet (snd (tcpPhase w server duration tcpEnabled ppt reason st)).
Proof.
  intros [Ht Hd]. unfold tcpPhase. destruct st as [d l effs].
  cbn [effects displayStates] in Ht, Hd.
  destruct tcpEnabled; cbn.
  - match goal with
    | |- context [runSingleTest ?w ?s ?d ?dir ?ty ?cb ?st0] =>
        destruct (runSingleTest_frame w s d dir ty ppt st0) as (r1 & evs1 & E1 & P1)
    end.
    rewrite E1. cbn.
    match goal with
    | |- context [runSingleTest ?w ?s ?d ?dir ?ty ?cb ?st0] =>
        destruct (runSingleTest_frame w s d dir ty ppt st0) as (r2 & evs2 & E2 & P2)
    end.
    rewrite E2. cbn. clear E1 E2. cbn in P1, P2.
    destruct (getCancelFlag w (Locals.attempts l) AfterTcpPhase); cbn;
      (split; [exact Ht | count_done Ht Hd; rewrite P1, P2; count_done Ht Hd;
                          reflexivity]).
  - destruct (DisplayStates.tcpEnabled d); cbn;
      destruct (getCancelFlag w (Locals.attempts l) AfterTcpPhase); cbn;
      still_quiet Ht Hd.
Qed.

Lemma udpPhase_quiet (server : string) (duration : Q) (udpEnabled : bool)
    (ppt : Q) (reason : string) (st : St) :
  quiet st -> quiet (snd (udpPhase w server duration udpEnabled ppt reason st)).
Proof.
  intros [Ht Hd]. unfold udpPhase. destruct st as [d l effs].
  cbn [effects displayStates] in Ht, Hd.
  destruct udpEnabled; cbn.
  - match goal with
    | |- context [runSingleTest ?w ?s ?d ?dir ?ty ?cb ?st0] =>
        destruct (runSingleTest_frame w s d dir ty ppt st0) as (r1 & evs1 & E1 & P1)
    end.
    rewrite E1. cbn.
    match goal with
    | |- context [runSingleTest ?w ?s ?d ?dir ?ty ?cb ?st0] =>
        destruct (runSingleTest_frame w s d dir ty ppt st0) as (r2 & evs2 & E2 & P2)
    end.
    rewrite E2. cbn. clear E1 E2. cbn in P1, P2.
    destruct (getCancelFlag w (Locals.attempts l) AfterUdpPhase); cbn;
      (split; [exact Ht | count_done Ht Hd; rewrite P1, P2; count_done Ht Hd;
                          reflexivity]).
  - destruct (DisplayStates.udpEnabled d); cbn;
      destruct (getCancelFlag w (Locals.attempts l) AfterUdpPhase); cbn;
      still_quiet Ht Hd.
Qed.

Lemma samplingBefore_quiet (ssidName : string) (st : St) :
  quiet st -> quiet (snd (samplingBefore w settings ssidName st)).
Proof.
  intros [Ht Hd]. unfold samplingBefore. cbn.
  destruct (getWifi w settings (Locals.attempts (locals st)) SampleBefore)
    as [[|b rest]|e]; cbn;
    [ | destruct (getCancelFlag w (Locals.attempts (locals st)) AfterSampleBefore);
        cbn | ];
    still_quiet Ht Hd.
Qed.

Lemma samplingMiddle_quiet (strengths : list number) (st : St) :
  quiet st -> quiet (snd (samplingMiddle w settings strengths st)).
Proof.
  intros [Ht Hd]. unfold samplingMiddle. cbn.
  destruct (getWifi w settings (Locals.attempts (locals st)) SampleMiddle)
    as [[|b rest]|e]; cbn;
    [ | destruct (getCancelFlag w (Locals.attempts (locals st)) AfterSampleMiddle);
        cbn | ];
    still_quiet Ht Hd.
Qed.

(** The third sample: it either stops the attempt, still [quiet], or
    publishes the one message of type [done]. *)
Lemma samplingAfter_done (strengths : list number) (st : St) :
  quiet st ->
  match samplingAfter w settings strengths st with
  | (Returned _, st') => doneCount (published (effects st')) = 1%nat
  | (Thrown _, st') => quiet st'
  end.
Proof.
  intros [Ht Hd]. unfold samplingAfter. cbn.
  destruct (getWifi w settings (Locals.attempts (locals st)) SampleAfter)
    as [[|b rest]|e]; cbn;
    [ | destruct (getCancelFlag w (Locals.attempts (locals st)) AfterSampleAfter);
        cbn | ];
    try still_quiet Ht Hd.
  count_done Ht Hd. reflexivity.
Qed.

(** The consistency check publishes nothing, and what it throws is not
    taken for a cancellation. *)
Lemma validateAndBuild_silent (before after : list WifiResults.t) (st : St) :
  published (effects (snd (validateAndBuild before after st)))
  = published (effects st)
  /\ forall e, fst (validateAndBuild before after st) = Thrown e ->
               String.eqb (message e) "cancelled" = false.
Proof.
  unfold validateAndBuild.
  destruct before as [|b restB]; cbn; [split; [reflexivity | intros e [= <-]; reflexivity]|].
  destruct after as [|a restA]; cbn; [split; [reflexivity | intros e [= <-]; reflexivity]|].
  match goal with |- context [if ?c then _ else _] => destruct c end; cbn.
  - split; [reflexivity | intros e [=]].
  - split; [rewrite published_app; cbn; apply app_nil_r | intros e [= <-]; reflexivity].
Qed.

(** An attempt publishes the message of type [done] once when it runs to
    its end; when it stops early it has published none, unless it is the
    consistency check that stopped it. *)
Lemma attempt_done (ssidName : string) (perform : bool) (reason : string) (st : St) :
  quiet st ->
  match attempt w settings ssidName perform reason st with
  | (Returned _, st') => doneCount (published (effects st')) = 1%nat
  | (Thrown e, st') =>
      quiet st'
      \/ (doneCount (published (effects st')) = 1%nat
          /\ String.eqb (message e) "cancelled" = false)
  end.
Proof.
  intros Hq. unfold attempt. cbn.
  pose proof (samplingBefore_quiet ssidName st Hq) as Q1.
  destruct (samplingBefore w settings ssidName st) as [[[before strengths]|e] st1];
    cbn [fst snd] in Q1 |- *; [|left; exact Q1].
  cbn.
  match goal with
  | |- context [tcpPhase ?w0 ?s ?d ?en ?p ?r ?st0] =>
      pose proof (tcpPhase_quiet s d en p r st0) as Q2;
      destruct (tcpPhase w0 s d en p r st0) as [[[]|e] st2]
  end; cbn [fst snd] in Q2 |- *;
    (assert (Q2' : quiet st2) by (apply Q2; destruct Q1; split; assumption));
    [|left; exact Q2'].
  cbn.
  pose proof (samplingMiddle_quiet strengths st2 Q2') as Q3.
  destruct (samplingMiddle w settings strengths st2) as [[strengths'|e] st3];
    cbn [fst snd] in Q3 |- *; [|left; exact Q3].
  cbn.
  match goal with
  | |- context [udpPhase ?w0 ?s ?d ?en ?p ?r ?st0] =>
      pose proof (udpPhase_quiet s d en p r st0 Q3) as Q4;
      destruct (udpPhase w0 s d en p r st0) as [[[]|e] st4]
  end; cbn [fst snd] in Q4 |- *; [|left; exact Q4].
  cbn.
  pose proof (samplingAfter_done strengths' st4 Q4) as Q5.
  destruct (samplingAfter w settings strengths' st4) as [[after|e] st5];
    [|left; exact Q5].
  cbn.
  destruct (validateAndBuild_silent before after st5) as (P & C).
  destruct (validateAndBuild before after st5) as [[[]|e] st6];
    cbn [fst snd] in P, C |- *.
  - rewrite P. exact Q5.
  - right. split; [rewrite P; exact Q5 | apply C; reflexivity].
Qed.

(** The retry loop: it never throws; a return from inside it is the
    cancelled result, with no [done] message published; otherwise at most
    one was. *)
Lemma retryLoop_done (ssidName : string) (perform : bool) (reason : string) (st : St) :
  quiet st ->
  match retryLoop w maxRetries settings ssidName perform reason st with
  | (Returned (Some r), st') =>
      r = cancelledResult /\ doneCount (published (effects st')) = 0%nat
  | (Returned None, st') => (doneCount (published (effects st')) <= 1)%nat
  | (Thrown _, _) => False
  end.
Proof.
  intros Hq. unfold maxRetries, retryLoop.
  destruct st as [d0 [[|attempts0] iperf0 wifi0 completed0] effs0]; cbn.
  - match goal with
    | |- context [attempt ?w0 ?s ?n ?p ?r ?st0] =>
        pose proof (attempt_done n p r st0 Hq) as Q;
        destruct (attempt w0 s n p r st0) as [[[]|e] st1]
    end; cbn.
    + rewrite Q. apply le_n.
    + destruct (String.eqb (message e) "cancelled") eqn:Hc; cbn.
      * destruct Q as [[Ht Hd] | [_ Hno]]; [|congruence].
        split; [reflexivity|]. count_done Ht Hd. reflexivity.
      * destruct Q as [[Ht Hd] | [Hone _]].
        -- count_done Ht Hd. apply le_S, le_n.
        -- count_done Hone Hone. apply le_n.
  - destruct Hq as [Ht Hd]. cbn in Hd. rewrite Hd. apply le_S, le_n.
Qed.

End Quiet.

Section Outcome.
Context {externals : Externals}.
Variable w : World.
Variable settings : Settings.t.

(** From the scan on, for the classification of runs. *)
Ltac outcome_after_scan :=
  match goal with
  | |- context [scanWifi w settings] =>
      destruct (scanWifi w settings) as [ssids|e]; cbn -[filter];
      [ destruct (filter WifiResults.currentSSID ssids) as [|s others]; cbn;
        [ | match goal with
            | |- context [retryLoop ?w0 ?n ?s0 ?name ?p ?r ?st0] =>
                let Q := fresh "Q" in
                assert (Q : quiet st0)
                  by (split; [reflexivity | cbn; reflexivity]);
                apply (retryLoop_done w0 s0 name p r st0) in Q;
                destruct (retryLoop w0 n s0 name p r st0) as [[[?|]|?] ?];
                cbn [fst snd] in *; cbn
            end ]
      | ]
  end.

Ltac outcome_finish :=
  first
    [ apply Nat.eq_le_incl; reflexivity
    | match goal with Q : False |- _ => destruct Q end
    | right; left; assumption
    | right; right; split; [reflexivity | assumption] ].

(** How a run can end.  It resolves with the reason of a failed preflight,
    with the cancelled result, or with an empty status and the bandwidth
    record; only in the last case, or when it throws, can a message of type
    [done] have been published, and never more than one.  The bandwidth
    record and the Wi-Fi entry it resolves with are the ones the locals
    hold. *)
Lemma run_outcome (ds : DisplayStates.t) :
  match runSurveyTests w settings (startState ds) with
  | (Returned r, st') =>
      (exists reason,
         reason <> "" /\ r = SurveyResult.mk None None reason
         /\ doneCount (published (effects st')) = 0%nat)
      \/ (r = cancelledResult /\ doneCount (published (effects st')) = 0%nat)
      \/ (r = SurveyResult.mk (Some (Locals.newIperfData (locals st')))
                 (Locals.newWifiData (locals st')) ""
          /\ (doneCount (published (effects st')) <= 1)%nat)
  | (Thrown _, st') => (doneCount (published (effects st')) <= 1)%nat
  end.
Proof.
  unfold runSurveyTests, startState. cbn -[filter].
  destruct (preflightSettings w settings) as [reason|e]; cbn -[filter].
  2:{ apply le_0_n. }
  destruct (String.eqb reason "") eqn:Hreason; cbn -[filter].
  2:{ left. exists reason. apply String.eqb_neq in Hreason.
      split; [exact Hreason | split; reflexivity]. }
  destruct (String.eqb (Settings.iperfServerAdrs settings) "localhost");
    cbn -[filter].
  - outcome_after_scan; outcome_finish.
  - destruct (checkIperfServer w settings) as [answer|e]; cbn -[filter].
    2:{ apply le_0_n. }
    destruct (String.eqb answer ""); cbn -[filter];
      outcome_after_scan; outcome_finish.
Qed.

End Outcome.

(** ** Properties of whole runs *)

Lemma performs_true {externals : Externals} (w : World) (settings : Settings.t) :
  performs w settings = true ->
  Settings.iperfServerAdrs settings <> "localhost"
  /\ checkIperfServer w settings = Returned "".
Proof.
  unfold performs. intros H. apply andb_true_iff in H. destruct H as [Hl Hc].
  split.
  - apply String.eqb_neq. apply negb_true_iff. exact Hl.
  - destruct (checkIperfServer w settings) as [reason|e]; [|discriminate].
    apply String.eqb_eq in Hc. rewrite Hc. reflexivity.
Qed.

Lemma published_allowed (server : string) (tcpE udpE : bool) (evs : list Event) :
  Forall (allowed server tcpE udpE) evs ->
  Forall (fun m => m = errorMessage
                   \/ (SSEMessage.tcpEnabled m = Some tcpE
                       /\ SSEMessage.udpEnabled m = Some udpE
                       /\ SSEMessage.progress m <> None))
    (published evs).
Proof.
  induction 1 as [|ev evs Hev _ IH]; [constructor|].
  destruct ev; cbn; try exact IH. constructor; assumption.
Qed.

(** X1.  A run launches [iperf3] only against the configured server, only
    when that server is not ["localhost"] and [checkIperfServer] answered
    with an empty reason, and only for a protocol that the settings
    enable. *)
Theorem subprocess_only_when_enabled :
  forall {externals : Externals} (w : World) (settings : Settings.t)
         (ds : DisplayStates.t),
    Forall (fun ev =>
              forall server dir ty,
                ev = Exec server dir ty ->
                server = Settings.iperfServerAdrs settings
                /\ Settings.iperfServerAdrs settings <> "localhost"
                /\ checkIperfServer w settings = Returned ""
                /\ match ty with
                   | TCP => Settings.iperfTcpEnabled settings
                   | UDP => Settings.iperfUdpEnabled settings
                   end = true)
      (effects (snd (runSurveyTests w settings (startState ds)))).
Proof.
  intros externals w settings ds.
  destruct (run_sound w settings ds) as [Hall _].
  eapply Forall_impl; [|exact Hall].
  intros ev Hev server dir ty ->. destruct Hev as [-> Hen].
  assert (Hp : performs w settings = true
               /\ match ty with
                  | TCP => Settings.iperfTcpEnabled settings
                  | UDP => Settings.iperfUdpEnabled settings
                  end = true).
  { destruct ty; cbn in Hen; apply andb_true_iff in Hen; exact Hen. }
  destruct Hp as [Hp Hty]. destruct (performs_true w settings Hp) as [Hl Hc].
  repeat split; assumption.
Qed.

(** X2.  No run pauses: the [delay(500)] of lines 307 and 344, and with it
    the notice that a test was not performed, is never reached, because the
    branch that holds it tests the same flag as the branch before it. *)
Theorem run_never_pauses :
  forall {externals : Externals} (w : World) (settings : Settings.t)
         (ds : DisplayStates.t),
    Forall (fun ev => forall ms, ev <> Delay ms)
      (effects (snd (runSurveyTests w settings (startState ds)))).
Proof.
  intros externals w settings ds.
  destruct (run_sound w settings ds) as [Hall _].
  eapply Forall_impl; [|exact Hall].
  intros ev Hev ms ->. exact Hev.
Qed.

(** X3.  Every message a run publishes, the message of the top-level [catch]
    apart, carries a progress and the same two flags: whether the bandwidth
    tests are performed at all, and-ed with the setting of the protocol. *)
Theorem published_flags_constant :
  forall {externals : Externals} (w : World) (settings : Settings.t)
         (ds : DisplayStates.t),
    Forall (fun m =>
              m = errorMessage
              \/ (SSEMessage.tcpEnabled m
                  = Some (performs w settings && Settings.iperfTcpEnabled settings)
                  /\ SSEMessage.udpEnabled m
                     = Some (performs w settings && Settings.iperfUdpEnabled settings)
                  /\ SSEMessage.progress m <> None))
      (published (effects (snd (runSurveyTests w settings (startState ds))))).
Proof.
  intros externals w settings ds.
  destruct (run_sound w settings ds) as [Hall _].
  apply (published_allowed _ _ _ _ Hall).
Qed.

(** X4.  The adapter calls and subprocess launches of any run are, in order,
    a beginning of the plan: preflight, the server check unless the server
    is ["localhost"], the scan, a sample, the TCP download and upload, a
    sample, the UDP download and upload, a sample. *)
Theorem run_follows_plan :
  forall {externals : Externals} (w : World) (settings : Settings.t)
         (ds : DisplayStates.t),
    exists rest,
      List.app (launches (effects (snd (runSurveyTests w settings (startState ds)))))
        rest
      = runPlan w settings.
Proof.
  intros externals w settings ds.
  destruct (run_sound w settings ds) as [_ Hplan]. exact Hplan.
Qed.

(** Discharges [measures] for the worlds of [Demo]. *)
Ltac demo_measures :=
  repeat split; try reflexivity;
  [ right; exists ""; reflexivity
  | exists [Demo.entry "aa:bb" 40], (Demo.entry "aa:bb" 40), []; split; reflexivity
  | exists []; reflexivity
  | exists []; reflexivity
  | exists []; reflexivity ].

(** X5.  A run that nothing interrupts goes through the whole plan, in
    order. *)
Theorem measuring_run_completes_plan :
  forall {externals : Externals} (w : World) (settings : Settings.t)
         (ds : DisplayStates.t) (b m a : WifiResults.t),
    measures w settings b m a ->
    launches (effects (snd (runSurveyTests w settings (startState ds))))
    = runPlan w settings.
Proof.
  intros externals w settings ds b m a Hmeasures.
  apply (run_full w settings ds b m a Hmeasures).
Qed.

Lemma measuring_run_completes_plan_witness :
  launches (effects (snd (runSurveyTests (externals := Demo.externals) Demo.steady
                            Demo.settings Demo.start)))
  = [Call CallPreflightSettings; Call CallCheckIperfServer; Call CallScanWifi;
     Call CallGetWifi;
     Exec "10.0.0.2" Down TCP; Exec "10.0.0.2" Up TCP;
     Call CallGetWifi;
     Exec "10.0.0.2" Down UDP; Exec "10.0.0.2" Up UDP;
     Call CallGetWifi].
Proof.
  apply (measuring_run_completes_plan (externals := Demo.externals)
           Demo.steady Demo.settings moduleDisplayStates
           (Demo.entry "aa:bb" 40) (Demo.entry "aa:bb" 44) (Demo.entry "aa:bb" 46)).
  demo_measures.
Defined.

Section RunRecord.
Context {externals : Externals}.
Variable w : World.
Variable settings : Settings.t.

(** A run that [measures] resolves with the record of the outcomes. *)
Lemma run_record (ds : DisplayStates.t) (b m a : WifiResults.t) :
  measures w settings b m a ->
  fst (runSurveyTests w settings (startState ds))
  = Returned
      (SurveyResult.mk (Some (measuredRecord w settings))
         (if agree b a
          then Some (averaged b
                       (arrayAverage [WifiResults.signalStrength b;
                                      WifiResults.signalStrength m;
                                      WifiResults.signalStrength a]))
          else None) "").
Proof.
  intros Hmeasures.
  destruct (run_main w settings ds b m a Hmeasures)
    as (iperf & final & l & evs & E & _).
  destruct (run_full w settings ds b m a Hmeasures) as [_ R].
  pose proof (run_outcome w settings ds) as O.
  rewrite E in R, O |- *. cbn [fst snd locals] in R, O |- *.
  destruct O as [(reason & _ & [=] & _) | [[[=] _] | [[= -> _] _]]].
  rewrite R. reflexivity.
Qed.

(** Once the scan has found the current network, the run resolves. *)
Lemma run_resolves (ds : DisplayStates.t) :
  preflightSettings w settings = Returned "" ->
  probed w settings ->
  (exists ssids s others,
     scanWifi w settings = Returned ssids
     /\ filter WifiResults.currentSSID ssids = s :: others) ->
  exists r,
    fst (runSurveyTests w settings (startState ds)) = Returned r
    /\ (r = cancelledResult \/ SurveyResult.status r = "").
Proof.
  intros Hpre Hprobe (ssids & s & others & Hscan & Hcur).
  unfold runSurveyTests, startState.
  cbn -[filter]. rewrite Hpre. cbn -[filter].
  destruct Hprobe as [Hl | [reason Hr]];
    [ rewrite Hl
    | destruct (String.eqb (Settings.iperfServerAdrs settings) "localhost");
      [ | cbn -[filter]; rewrite Hr; cbn -[filter]; destruct (String.eqb reason "") ] ];
    cbn -[filter]; rewrite Hscan; cbn -[filter]; rewrite Hcur; cbn;
    match goal with
    | |- context [retryLoop ?w0 ?n ?s0 ?name ?p ?r ?st0] =>
        let Q := fresh "Q" in
        assert (Q : quiet st0) by (split; [reflexivity | cbn; reflexivity]);
        apply (retryLoop_done w0 s0 name p r st0) in Q;
        destruct (retryLoop w0 n s0 name p r st0) as [[[?|]|?] ?];
        cbn [fst snd] in *; cbn;
        [ eexists; split; [reflexivity | left; apply Q]
        | eexists; split; [reflexivity | right; reflexivity]
        | destruct Q ]
    end.
Qed.

(** A run whose first sample fails: what it returns, and the one message it
    has published by then. *)
Lemma first_sample_failure (ds : DisplayStates.t) :
  preflightSettings w settings = Returned "" ->
  probed w settings ->
  (exists ssids s others,
     scanWifi w settings = Returned ssids
     /\ filter WifiResults.currentSSID ssids = s :: others) ->
  firstSampleFails w settings ->
  let run := runSurveyTests w settings (startState ds) in
  fst run = Returned (SurveyResult.mk (Some getDefaultIperfResults) None "")
  /\ exists d,
       published (effects (snd run)) = [getUpdatedMessage d]
       /\ DisplayStates.type d = "update"
       /\ DisplayStates.header d = "Measurement beginning".
Proof.
  intros Hpre Hprobe (ssids & s & others & Hscan & Hcur) Hfail.
  unfold runSurveyTests, startState.
  cbn -[filter]. rewrite Hpre. cbn -[filter].
  destruct Hprobe as [Hl | [reason Hr]];
    [ rewrite Hl
    | destruct (String.eqb (Settings.iperfServerAdrs settings) "localhost");
      [ | cbn -[filter]; rewrite Hr; cbn -[filter]; destruct (String.eqb reason "") ] ];
    cbn -[filter]; rewrite Hscan; cbn -[filter]; rewrite Hcur; cbn;
    unfold maxRetries, retryLoop; cbn; unfold attempt; cbn;
    unfold samplingBefore; cbn;
    (destruct Hfail as [(e & -> & Hmsg) | ->]; cbn;
     [ apply String.eqb_neq in Hmsg; rewrite Hmsg; cbn | ];
     (split; [reflexivity | eexists; split; [reflexivity | split; reflexivity]])).
Qed.

End RunRecord.

(** X6.  A run that nothing interrupts resolves with an empty status and
    with the bandwidth record that holds, for each enabled protocol, what
    its download test and its upload test resolved to, each in its own slot;
    the slots of a protocol that is not run keep the default. *)
Theorem bandwidth_record_holds_outcomes :
  forall {externals : Externals} (w : World) (settings : Settings.t)
         (ds : DisplayStates.t) (b m a : WifiResults.t),
    measures w settings b m a ->
    exists wifi,
      fst (runSurveyTests w settings (startState ds))
      = Returned (SurveyResult.mk (Some (measuredRecord w settings)) wifi "").
Proof.
  intros externals w settings ds b m a Hmeasures.
  eexists. apply (run_record w settings ds b m a Hmeasures).
Qed.

Lemma bandwidth_record_holds_outcomes_witness :
  exists wifi,
    fst (runSurveyTests (externals := Demo.externals) Demo.steady Demo.settings
           Demo.start)
    = Returned
        (SurveyResult.mk
           (Some (measuredRecord (externals := Demo.externals) Demo.steady
                    Demo.settings))
           wifi "")
    /\ IperfTestProperty.bitsPerSecond
         (IperfResults.tcpDownload
            (measuredRecord (externals := Demo.externals) Demo.steady Demo.settings))
       = Some (Num 500000000)
    /\ IperfTestProperty.bitsPerSecond
         (IperfResults.udpUpload
            (measuredRecord (externals := Demo.externals) Demo.steady Demo.settings))
       = Some (Num 51000000).
Proof.
  destruct (bandwidth_record_holds_outcomes (externals := Demo.externals)
              Demo.steady Demo.settings moduleDisplayStates
              (Demo.entry "aa:bb" 40) (Demo.entry "aa:bb" 44) (Demo.entry "aa:bb" 46))
    as [wifi E].
  - demo_measures.
  - exists wifi. split; [exact E|]. split; reflexivity.
Defined.

(** X7.  No run publishes more than one message of type [done]. *)
Theorem at_most_one_done :
  forall {externals : Externals} (w : World) (settings : Settings.t)
         (ds : DisplayStates.t),
    (doneCount (published (effects (snd (runSurveyTests w settings (startState ds)))))
     <= 1)%nat.
Proof.
  intros externals w settings ds.
  pose proof (run_outcome w settings ds) as O.
  destruct (runSurveyTests w settings (startState ds)) as [[r|e] st']; cbn [snd].
  - destruct O as [(reason & _ & _ & ->) | [[_ ->] | [_ H]]];
      [apply le_0_n | apply le_0_n | exact H].
  - exact O.
Qed.

(** X8.  A run that resolves with the status ["test was cancelled"] has
    published no message of type [done]. *)
Theorem cancelled_run_publishes_no_done :
  forall {externals : Externals} (w : World) (settings : Settings.t)
         (ds : DisplayStates.t) (r : SurveyResult.t),
    fst (runSurveyTests w settings (startState ds)) = Returned r ->
    SurveyResult.status r = "test was cancelled" ->
    doneCount (published (effects (snd (runSurveyTests w settings (startState ds)))))
    = 0%nat.
Proof.
  intros externals w settings ds r Hr Hs.
  pose proof (run_outcome w settings ds) as O.
  destruct (runSurveyTests w settings (startState ds)) as [[r'|e] st'];
    cbn [fst snd] in *; [|discriminate].
  injection Hr as ->.
  destruct O as [(reason & _ & _ & H) | [[_ H] | [-> _]]];
    [exact H | exact H | discriminate].
Qed.

Lemma cancelled_run_publishes_no_done_witness :
  doneCount
    (published
       (effects (snd (runSurveyTests (externals := Demo.externals) Demo.stopped
                        Demo.settings Demo.start))))
  = 0%nat.
Proof.
  apply (cancelled_run_publishes_no_done (externals := Demo.externals)
           Demo.stopped Demo.settings moduleDisplayStates cancelledResult).
  - reflexivity.
  - reflexivity.
Defined.

(** X9.  The status tells what a run returns: with an empty status the
    bandwidth record is present; with any other status both the bandwidth
    record and the Wi-Fi entry are null. *)
Theorem status_tells_what_is_returned :
  forall {externals : Externals} (w : World) (settings : Settings.t)
         (ds : DisplayStates.t) (r : SurveyResult.t),
    fst (runSurveyTests w settings (startState ds)) = Returned r ->
    (SurveyResult.status r = "" -> SurveyResult.iperfData r <> None)
    /\ (SurveyResult.status r <> "" ->
        SurveyResult.iperfData r = None /\ SurveyResult.wifiData r = None).
Proof.
  intros externals w settings ds r Hr.
  pose proof (run_outcome w settings ds) as O.
  destruct (runSurveyTests w settings (startState ds)) as [[r'|e] st'];
    cbn [fst snd] in *; [|discriminate].
  injection Hr as ->.
  destruct O as [(reason & Hreason & -> & _) | [[-> _] | [-> _]]]; cbn.
  - split; [intros E; contradiction | intros _; split; reflexivity].
  - split; [discriminate | intros _; split; reflexivity].
  - split; [discriminate | intros H; contradiction H; reflexivity].
Qed.

Lemma status_tells_what_is_returned_witness :
  exists r,
    fst (runSurveyTests (externals := Demo.externals) Demo.refused Demo.settings
           Demo.start) = Returned r
    /\ SurveyResult.status r = "Please set the sudo password"
    /\ SurveyResult.iperfData r = None
    /\ SurveyResult.wifiData r = None.
Proof.
  exists (SurveyResult.mk None None "Please set the sudo password").
  split; [reflexivity|]. split; [reflexivity|].
  apply (status_tells_what_is_returned (externals := Demo.externals)
           Demo.refused Demo.settings moduleDisplayStates
           (SurveyResult.mk None None "Please set the sudo password")).
  - reflexivity.
  - discriminate.
Defined.

(** X10.  Once the settings pass preflight, the server check is skipped or
    answers, and the scan lists a current network, the run resolves whatever
    the samples, the cancellation flag and the subprocesses do: no failure
    inside the attempt reaches the caller.  It resolves with the cancelled
    result or with an empty status. *)
Theorem run_resolves_once_scanned :
  forall {externals : Externals} (w : World) (settings : Settings.t)
         (ds : DisplayStates.t),
    preflightSettings w settings = Returned "" ->
    probed w settings ->
    (exists ssids s others,
       scanWifi w settings = Returned ssids
       /\ filter WifiResults.currentSSID ssids = s :: others) ->
    exists r,
      fst (runSurveyTests w settings (startState ds)) = Returned r
      /\ (r = cancelledResult \/ SurveyResult.status r = "").
Proof.
  intros externals w settings ds. apply run_resolves.
Qed.

Lemma run_resolves_once_scanned_witness :
  exists r,
    fst (runSurveyTests (externals := Demo.externals) Cases.deaf Demo.settings
           Demo.start) = Returned r
    /\ (r = cancelledResult \/ SurveyResult.status r = "").
Proof.
  apply (run_resolves_once_scanned (externals := Demo.externals)
           Cases.deaf Demo.settings moduleDisplayStates).
  - reflexivity.
  - right. exists "". reflexivity.
  - exists [Demo.entry "aa:bb" 40], (Demo.entry "aa:bb" 40), []. split; reflexivity.
Defined.

(** X11.  When the first sample of the attempt fails, the failure is
    swallowed: the run resolves with an empty status, with the default
    bandwidth record and without a Wi-Fi entry, and no message of type
    [done] is published. *)
Theorem failed_first_sample_is_swallowed :
  forall {externals : Externals} (w : World) (settings : Settings.t)
         (ds : DisplayStates.t),
    preflightSettings w settings = Returned "" ->
    probed w settings ->
    (exists ssids s others,
       scanWifi w settings = Returned ssids
       /\ filter WifiResults.currentSSID ssids = s :: others) ->
    firstSampleFails w settings ->
    let run := runSurveyTests w settings (startState ds) in
    fst run = Returned (SurveyResult.mk (Some getDefaultIperfResults) None "")
    /\ doneCount (published (effects (snd run))) = 0%nat.
Proof.
  intros externals w settings ds Hpre Hprobe Hscan Hfail run.
  destruct (first_sample_failure w settings ds Hpre Hprobe Hscan Hfail)
    as (E & d & P & T & _).
  split; [exact E|]. unfold run. rewrite P. apply doneCount_update. exact T.
Qed.

Lemma failed_first_sample_is_swallowed_witness :
  fst (runSurveyTests (externals := Demo.externals) Cases.deaf Demo.settings Demo.start)
  = Returned (SurveyResult.mk (Some (@getDefaultIperfResults Demo.externals)) None "")
  /\ doneCount
       (published
          (effects (snd (runSurveyTests (externals := Demo.externals) Cases.deaf
                           Demo.settings Demo.start))))
     = 0%nat.
Proof.
  apply (failed_first_sample_is_swallowed (externals := Demo.externals)
           Cases.deaf Demo.settings moduleDisplayStates).
  - reflexivity.
  - right. exists "". reflexivity.
  - exists [Demo.entry "aa:bb" 40], (Demo.entry "aa:bb" 40), []. split; reflexivity.
  - left. exists (JsError "Command failed: nmcli"). split; [reflexivity | discriminate].
Defined.

(** X12.  A run that nothing interrupts tolerates the failure of every
    bandwidth test: when every [iperf3] subprocess fails, it still resolves
    with an empty status, and the slots of the enabled protocols hold the
    all-null result. *)
Theorem failing_subprocesses_tolerated :
  forall {externals : Externals} (w : World) (settings : Settings.t)
         (ds : DisplayStates.t) (b m a : WifiResults.t),
    measures w settings b m a ->
    (forall dir ty,
       exists e,
         execAsync w (Settings.iperfServerAdrs settings)
           (Settings.testDuration settings) dir ty = Thrown e) ->
    exists iperf wifi,
      fst (runSurveyTests w settings (startState ds))
      = Returned (SurveyResult.mk (Some iperf) wifi "")
      /\ (performs w settings && Settings.iperfTcpEnabled settings = true ->
          IperfResults.tcpDownload iperf = notRun
          /\ IperfResults.tcpUpload iperf = notRun)
      /\ (performs w settings && Settings.iperfUdpEnabled settings = true ->
          IperfResults.udpDownload iperf = notRun
          /\ IperfResults.udpUpload iperf = notRun).
Proof.
  intros externals w settings ds b m a Hmeasures Hfail.
  eexists. eexists. split; [apply (run_record w settings ds b m a Hmeasures)|].
  assert (Hout : forall dir ty,
    testOutcome w (Settings.iperfServerAdrs settings)
      (Settings.testDuration settings) dir ty = notRun).
  { intros dir ty. unfold testOutcome. destruct (Hfail dir ty) as [e ->]. reflexivity. }
  unfold measuredRecord. cbn.
  split; intros ->; rewrite !Hout; split; reflexivity.
Qed.

Lemma failing_subprocesses_tolerated_witness :
  exists iperf wifi,
    fst (runSurveyTests (externals := Demo.externals) Demo.offline Demo.settings
           Demo.start)
    = Returned (SurveyResult.mk (Some iperf) wifi "")
    /\ IperfResults.tcpDownload iperf = notRun
    /\ IperfResults.udpUpload iperf = notRun.
Proof.
  destruct (failing_subprocesses_tolerated (externals := Demo.externals)
              Demo.offline Demo.settings moduleDisplayStates
              (Demo.entry "aa:bb" 40) (Demo.entry "aa:bb" 44) (Demo.entry "aa:bb" 46))
    as (iperf & wifi & E & T & U).
  - demo_measures.
  - intros dir ty. eexists. reflexivity.
  - exists iperf, wifi. split; [exact E|].
    split; [apply T; reflexivity | apply U; reflexivity].
Defined.

(** ** Cancellation at any checkpoint *)

Section Cancel.
Context {externals : Externals}.
Variable w : World.
Variable settings : Settings.t.

Lemma samplingBefore_fst (ssidName : string) (st : St)
    (b : WifiResults.t) (rest : list WifiResults.t) :
  getWifi w settings (Locals.attempts (locals st)) SampleBefore = Returned (b :: rest) ->
  fst (samplingBefore w settings ssidName st)
  = if getCancelFlag w (Locals.attempts (locals st)) AfterSampleBefore
    then Thrown cancelled
    else Returned (b :: rest, [WifiResults.signalStrength b]).
Proof.
  intros Hget. unfold samplingBefore. cbn. rewrite Hget. cbn.
  destruct (getCancelFlag w (Locals.attempts (locals st)) AfterSampleBefore);
    reflexivity.
Qed.

Lemma samplingMiddle_fst (strengths : list number) (st : St)
    (m : WifiResults.t) (rest : list WifiResults.t) :
  getWifi w settings (Locals.attempts (locals st)) SampleMiddle = Returned (m :: rest) ->
  fst (samplingMiddle w settings strengths st)
  = if getCancelFlag w (Locals.attempts (locals st)) AfterSampleMiddle
    then Thrown cancelled
    else Returned (List.app strengths [WifiResults.signalStrength m]).
Proof.
  intros Hget. unfold samplingMiddle. cbn. rewrite Hget. cbn.
  destruct (getCancelFlag w (Locals.attempts (locals st)) AfterSampleMiddle);
    reflexivity.
Qed.

Lemma samplingAfter_fst (strengths : list number) (st : St)
    (a : WifiResults.t) (rest : list WifiResults.t) :
  getWifi w settings (Locals.attempts (locals st)) SampleAfter = Returned (a :: rest) ->
  fst (samplingAfter w settings strengths st)
  = if getCancelFlag w (Locals.attempts (locals st)) AfterSampleAfter
    then Thrown cancelled
    else Returned (a :: rest).
Proof.
  intros Hget. unfold samplingAfter. cbn. rewrite Hget. cbn.
  destruct (getCancelFlag w (Locals.attempts (locals st)) AfterSampleAfter);
    reflexivity.
Qed.

Lemma tcpPhase_fst (server : string) (duration : Q) (tcpEnabled : bool)
    (ppt : Q) (reason : string) (st : St) :
  fst (tcpPhase w server duration tcpEnabled ppt reason st)
  = if getCancelFlag w (Locals.attempts (locals st)) AfterTcpPhase
    then Thrown cancelled
    else Returned tt.
Proof.
  unfold tcpPhase. destruct tcpEnabled; cbn.
  - match goal with
    | |- context [runSingleTest ?w ?s ?d ?dir ?ty ?cb ?st0] =>
        destruct (runSingleTest_frame w s d dir ty ppt st0) as (r1 & evs1 & E1 & _)
    end.
    rewrite E1. cbn.
    match goal with
    | |- context [runSingleTest ?w ?s ?d ?dir ?ty ?cb ?st0] =>
        destruct (runSingleTest_frame w s d dir ty ppt st0) as (r2 & evs2 & E2 & _)
    end.
    rewrite E2. cbn.
    destruct (getCancelFlag w (Locals.attempts (locals st)) AfterTcpPhase);
      reflexivity.
  - destruct (DisplayStates.tcpEnabled (displayStates st)); cbn;
      destruct (getCancelFlag w (Locals.attempts (locals st)) AfterTcpPhase);
      reflexivity.
Qed.

Lemma udpPhase_fst (server : string) (duration : Q) (udpEnabled : bool)
    (ppt : Q) (reason : string) (st : St) :
  fst (udpPhase w server duration udpEnabled ppt reason st)
  = if getCancelFlag w (Locals.attempts (locals st)) AfterUdpPhase
    then Thrown cancelled
    else Returned tt.
Proof.
  unfold udpPhase. destruct udpEnabled; cbn.
  - match goal with
    | |- context [runSingleTest ?w ?s ?d ?dir ?ty ?cb ?st0] =>
        destruct (runSingleTest_frame w s d dir ty ppt st0) as (r1 & evs1 & E1 & _)
    end.
    rewrite E1. cbn.
    match goal with
    | |- context [runSingleTest ?w ?s ?d ?dir ?ty ?cb ?st0] =>
        destruct (runSingleTest_frame w s d dir ty ppt st0) as (r2 & evs2 & E2 & _)
    end.
    rewrite E2. cbn.
    destruct (getCancelFlag w (Locals.attempts (locals st)) AfterUdpPhase);
      reflexivity.
  - destruct (DisplayStates.udpEnabled (displayStates st)); cbn;
      destruct (getCancelFlag w (Locals.attempts (locals st)) AfterUdpPhase);
      reflexivity.
Qed.

(** An attempt whose samples arrive stops with the cancellation error at
    the first checkpoint that sees the flag. *)
Lemma attempt_cancelled (ssidName : string) (perform : bool) (reason : string)
    (st : St) (b m a : WifiResults.t) (restB restM restA : list WifiResults.t) :
  getWifi w settings (Locals.attempts (locals st)) SampleBefore = Returned (b :: restB) ->
  getWifi w settings (Locals.attempts (locals st)) SampleMiddle = Returned (m :: restM) ->
  getWifi w settings (Locals.attempts (locals st)) SampleAfter = Returned (a :: restA) ->
  (exists cp, getCancelFlag w (Locals.attempts (locals st)) cp = true) ->
  fst (attempt w settings ssidName perform reason st) = Thrown cancelled.
Proof.
  intros Hb Hm Ha [cp Hcp]. unfold attempt. cbn.
  pose proof (samplingBefore_fst ssidName st b restB Hb) as F1.
  pose proof (samplingBefore_attempts w settings ssidName st) as A1.
  destruct (samplingBefore w settings ssidName st) as [c1 st1].
  cbn [fst snd] in F1, A1. subst c1.
  destruct (getCancelFlag w (Locals.attempts (locals st)) AfterSampleBefore) eqn:G1;
    [reflexivity|].
  cbn.
  match goal with
  | |- context [tcpPhase ?w0 ?s ?d ?en ?p ?r ?st0] =>
      pose proof (tcpPhase_fst s d en p r st0) as F2;
      pose proof (tcpPhase_attempts w0 s d en p r st0) as A2;
      destruct (tcpPhase w0 s d en p r st0) as [c2 st2]
  end.
  cbn [fst snd] in F2, A2. cbn in F2, A2. rewrite A1 in F2, A2. subst c2.
  destruct (getCancelFlag w (Locals.attempts (locals st)) AfterTcpPhase) eqn:G2;
    [reflexivity|].
  cbn.
  pose proof (samplingMiddle_fst [WifiResults.signalStrength b] st2 m restM) as F3.
  pose proof (samplingMiddle_attempts w settings [WifiResults.signalStrength b] st2) as A3.
  rewrite A2 in F3, A3. specialize (F3 Hm).
  destruct (samplingMiddle w settings [WifiResults.signalStrength b] st2) as [c3 st3].
  cbn [fst snd] in F3, A3. subst c3.
  destruct (getCancelFlag w (Locals.attempts (locals st)) AfterSampleMiddle) eqn:G3;
    [reflexivity|].
  cbn.
  match goal with
  | |- context [udpPhase ?w0 ?s ?d ?en ?p ?r ?st0] =>
      pose proof (udpPhase_fst s d en p r st0) as F4;
      pose proof (udpPhase_attempts w0 s d en p r st0) as A4;
      destruct (udpPhase w0 s d en p r st0) as [c4 st4]
  end.
  cbn [fst snd] in F4, A4. rewrite A3 in F4, A4. subst c4.
  destruct (getCancelFlag w (Locals.attempts (locals st)) AfterUdpPhase) eqn:G4;
    [reflexivity|].
  cbn.
  match goal with
  | |- context [samplingAfter ?w0 ?s ?l ?st0] =>
      pose proof (samplingAfter_fst l st0 a restA) as F5;
      rewrite A4 in F5; specialize (F5 Ha);
      destruct (samplingAfter w0 s l st0) as [c5 st5]
  end.
  cbn [fst snd] in F5. subst c5.
  destruct (getCancelFlag w (Locals.attempts (locals st)) AfterSampleAfter) eqn:G5;
    [reflexivity|].
  destruct cp; congruence.
Qed.

End Cancel.

(** X30.  When the three samples of the attempt arrive and the cancellation
    flag is seen at any of its five checkpoints, the run resolves with the
    status ["test was cancelled"] and without results, whatever the
    bandwidth tests did before that checkpoint. *)
Theorem cancellation_at_any_checkpoint :
  forall {externals : Externals} (w : World) (settings : Settings.t)
         (ds : DisplayStates.t) (b m a : WifiResults.t)
         (restB restM restA : list WifiResults.t),
    preflightSettings w settings = Returned "" ->
    probed w settings ->
    (exists ssids s others,
       scanWifi w settings = Returned ssids
       /\ filter WifiResults.currentSSID ssids = s :: others) ->
    getWifi w settings 1%nat SampleBefore = Returned (b :: restB) ->
    getWifi w settings 1%nat SampleMiddle = Returned (m :: restM) ->
    getWifi w settings 1%nat SampleAfter = Returned (a :: restA) ->
    (exists cp, getCancelFlag w 1%nat cp = true) ->
    fst (runSurveyTests w settings (startState ds)) = Returned cancelledResult.
Proof.
  intros externals w settings ds b m a restB restM restA
         Hpre Hprobe (ssids & s & others & Hscan & Hcur) Hb Hm Ha Hcp.
  unfold runSurveyTests, startState.
  cbn -[filter]. rewrite Hpre. cbn -[filter].
  destruct Hprobe as [Hl | [reason Hr]];
    [ rewrite Hl
    | destruct (String.eqb (Settings.iperfServerAdrs settings) "localhost");
      [ | cbn -[filter]; rewrite Hr; cbn -[filter]; destruct (String.eqb reason "") ] ];
    cbn -[filter]; rewrite Hscan; cbn -[filter]; rewrite Hcur; cbn;
    unfold maxRetries, retryLoop; cbn;
    match goal with
    | |- context [attempt ?w0 ?s0 ?n ?p ?r ?st0] =>
        pose proof (attempt_cancelled w0 s0 n p r st0 b m a restB restM restA
                      Hb Hm Ha Hcp) as C;
        destruct (attempt w0 s0 n p r st0) as [c st1];
        cbn [fst] in C; subst c; reflexivity
    end.
Qed.

Lemma cancellation_at_any_checkpoint_witness :
  fst (runSurveyTests (externals := Demo.externals)
         (Demo.world Demo.scanned "aa:bb"
            (fun cp => match cp with AfterUdpPhase => true | _ => false end)
            (Returned "json"))
         Demo.settings Demo.start)
  = Returned cancelledResult.
Proof.
  apply (cancellation_at_any_checkpoint (externals := Demo.externals)
           (Demo.world Demo.scanned "aa:bb"
              (fun cp => match cp with AfterUdpPhase => true | _ => false end)
              (Returned "json"))
           Demo.settings moduleDisplayStates
           (Demo.entry "aa:bb" 40) (Demo.entry "aa:bb" 44) (Demo.entry "aa:bb" 46)
           [] [] []).
  - reflexivity.
  - right. exists "". reflexivity.
  - exists [Demo.entry "aa:bb" 40], (Demo.entry "aa:bb" 40), []. split; reflexivity.
  - reflexivity.
  - reflexivity.
  - reflexivity.
  - exists AfterUdpPhase. reflexivity.
Defined.

(** ** Splitting text at a character *)

Lemma includes_char_cons (c a : ascii) (s : string) :
  includes (String a s) (String c "") = Ascii.eqb a c || includes s (String c "").
Proof.
  unfold includes at 1. cbn [String.prefix]. fold includes.
  destruct (Ascii.ascii_dec c a) as [<-|Hne].
  - rewrite Ascii.eqb_refl. destruct s; reflexivity.
  - assert (E : Ascii.eqb a c = false).
    { apply Ascii.eqb_neq. intros ->. apply Hne. reflexivity. }
    rewrite E. reflexivity.
Qed.

Lemma includes_char_app (c : ascii) (a b : string) :
  includes (a ++ b) (String c "")
  = includes a (String c "") || includes b (String c "").
Proof.
  induction a as [|x a IH].
  - cbn [String.append]. destruct b; reflexivity.
  - cbn [String.append]. rewrite !includes_char_cons, IH. apply orb_assoc.
Qed.

Lemma split_free (c : ascii) (s : string) :
  includes s (String c "") = false -> split s c = [s].
Proof.
  induction s as [|a s IH]; [reflexivity|].
  rewrite includes_char_cons. intros H. apply orb_false_iff in H. destruct H as [Ha Hs].
  cbn [split]. rewrite Ha, (IH Hs). reflexivity.
Qed.

Lemma split_at (c : ascii) (a b : string) :
  includes a (String c "") = false ->
  split (a ++ String c b) c = a :: split b c.
Proof.
  induction a as [|x a IH]; intros H.
  - cbn. rewrite Ascii.eqb_refl. reflexivity.
  - rewrite includes_char_cons in H. apply orb_false_iff in H. destruct H as [Hc Ha].
    cbn [String.append split]. rewrite Hc, (IH Ha). reflexivity.
Qed.

Lemma includes_at (c : ascii) (a b : string) :
  includes (a ++ String c b) (String c "") = true.
Proof.
  rewrite includes_char_app, includes_char_cons, Ascii.eqb_refl. apply orb_true_r.
Qed.

Lemma append_empty_r (s : string) : s ++ "" = s.
Proof. induction s as [|c s IH]; [reflexivity|]. cbn. rewrite IH. reflexivity. Qed.

(** Splitting undoes joining, when no line holds the separator. *)
Lemma split_join (c : ascii) (line : string) (lines : list string) :
  Forall (fun l => includes l (String c "") = false) (line :: lines) ->
  split (join (String c "") (line :: lines)) c = line :: lines.
Proof.
  revert line. induction lines as [|next lines IH]; intros line H.
  - apply split_free. apply (Forall_inv H).
  - unfold join in *.
    change (String.concat (String c "") (line :: next :: lines))
      with (line ++ String c (String.concat (String c "") (next :: lines))).
    rewrite (split_at c line _ (Forall_inv H)).
    rewrite (IH next (Forall_inv_tail H)). reflexivity.
Qed.

(** X13.  For a server address [host:port], with or without further text
    after a second colon, the command names the text before the first colon
    as the server and the text between the first and the second colon as the
    port; whatever follows a second colon is dropped. *)
Theorem iperfCommand_host_port :
  forall (numberToText : Q -> string) (host port rest : string) (duration : Q)
         (testDir : TestDirection) (testType : TestType),
    includes host ":" = false ->
    includes port ":" = false ->
    port <> "" ->
    rest = "" \/ (exists more, rest = String colon more) ->
    iperfCommand numberToText (host ++ ":" ++ port ++ rest) duration testDir testType
    = "iperf3 -c " ++ host ++ " -p " ++ port
      ++ " -t " ++ numberToText duration ++ " "
      ++ match testDir with Down => "-R" | Up => "" end ++ " "
      ++ match testType with UDP => "-u -b 0" | TCP => "" end ++ " -J".
Proof.
  intros f host port rest duration testDir testType Hhost Hport Hne Hrest.
  unfold iperfCommand.
  change (host ++ ":" ++ port ++ rest) with (host ++ String colon (port ++ rest)).
  rewrite (includes_at colon), (split_at colon host _ Hhost).
  assert (Hsplit : exists pieces, split (port ++ rest) colon = port :: pieces).
  { destruct Hrest as [-> | [more ->]].
    - exists []. rewrite append_empty_r. apply (split_free colon port Hport).
    - eexists. apply (split_at colon port more Hport). }
  destruct Hsplit as [pieces ->].
  destruct port as [|c p]; [contradiction Hne; reflexivity|].
  destruct testDir, testType; reflexivity.
Qed.

Lemma iperfCommand_host_port_witness :
  iperfCommand (fun _ => "10") "192.168.1.10:5201" 10 Down UDP
  = "iperf3 -c 192.168.1.10 -p 5201 -t 10 -R -u -b 0 -J"
  /\ iperfCommand (fun _ => "10") "fe80:1:2" 10 Up TCP
     = "iperf3 -c fe80 -p 1 -t 10   -J".
Proof.
  split.
  - apply (iperfCommand_host_port (fun _ => "10") "192.168.1.10" "5201" "" 10 Down UDP);
      [reflexivity | reflexivity | discriminate | left; reflexivity].
  - apply (iperfCommand_host_port (fun _ => "10") "fe80" "1" ":2" 10 Up TCP);
      [reflexivity | reflexivity | discriminate | right; exists "2"; reflexivity].
Defined.

(** X14.  A server address that ends in a colon gives the command of the
    address without the colon: the empty port is left out. *)
Theorem iperfCommand_empty_port :
  forall (numberToText : Q -> string) (host : string) (duration : Q)
         (testDir : TestDirection) (testType : TestType),
    includes host ":" = false ->
    iperfCommand numberToText (host ++ ":") duration testDir testType
    = iperfCommand numberToText host duration testDir testType.
Proof.
  intros f host duration testDir testType Hhost.
  unfold iperfCommand.
  change (host ++ ":") with (host ++ String colon "").
  rewrite (includes_at colon), (split_at colon host _ Hhost), Hhost.
  reflexivity.
Qed.

Lemma iperfCommand_empty_port_witness :
  iperfCommand (fun _ => "10") "server:" 10 Down TCP
  = iperfCommand (fun _ => "10") "server" 10 Down TCP.
Proof.
  apply (iperfCommand_empty_port (fun _ => "10") "server" 10 Down TCP).
  reflexivity.
Defined.

(** ** The toast, fed by a run *)

Lemma deliver_app (a b : list SSEMessage.t) (t : Toast.t) :
  deliver (List.app a b) t = deliver b (deliver a t).
Proof.
  revert t. induction a as [|m a IH]; intros t; [reflexivity|].
  cbn [List.app deliver]. destruct (Toast.connected t) eqn:Hc.
  - apply IH.
  - destruct b; cbn [deliver]; [reflexivity|]. rewrite Hc. reflexivity.
Qed.

(** Messages of type [update] leave the connection, the timers and the
    running flag alone. *)
Lemma deliver_updates (ms : list SSEMessage.t) (t : Toast.t) :
  Forall (fun m => SSEMessage.type m = "update") ms ->
  Toast.connected (deliver ms t) = Toast.connected t
  /\ Toast.closeTimers (deliver ms t) = Toast.closeTimers t
  /\ Toast.taskRunning (deliver ms t) = Toast.taskRunning t.
Proof.
  intros H. revert t. induction H as [|m ms Hm _ IH]; intros t.
  - repeat split.
  - cbn [deliver]. destruct (Toast.connected t) eqn:Hc; [|repeat split; assumption].
    destruct (IH (onmessage (Some m) t)) as (C & T & R).
    rewrite C, T, R. unfold onmessage. rewrite Hm. cbn.
    destruct (SSEMessage.progress m); [destruct (anyEnabled m)|]; cbn;
      repeat split; assumption.
Qed.

Lemma shownProgress_app (a b : list SSEMessage.t) (t : Toast.t) :
  shownProgress (List.app a b) t
  = List.app (shownProgress a t) (shownProgress b (deliver a t)).
Proof.
  revert t. induction a as [|m a IH]; intros t; [reflexivity|].
  cbn [List.app shownProgress deliver]. destruct (Toast.connected t) eqn:Hc.
  - cbn [List.app]. rewrite IH. reflexivity.
  - destruct b; cbn [shownProgress List.app]; [reflexivity|]. rewrite Hc. reflexivity.
Qed.

(** While the flags are set, the toast shows the progress of each update. *)
Lemma shown_follows (ms : list SSEMessage.t) (t : Toast.t) :
  Forall (fun m => SSEMessage.type m = "update" /\ anyEnabled m = true
                   /\ SSEMessage.progress m <> None) ms ->
  Toast.connected t = true ->
  shownProgress ms t = progressValues ms.
Proof.
  intros H. revert t. induction H as [|m ms (Hty & Hen & Hp) _ IH]; intros t Hc.
  - reflexivity.
  - cbn [shownProgress progressValues]. rewrite Hc.
    destruct (SSEMessage.progress m) as [p|] eqn:Ep; [|contradiction Hp; reflexivity].
    unfold onmessage. rewrite Hty, Ep, Hen. cbn. f_equal.
    apply IH. exact Hc.
Qed.

(** While the flags are not set, the toast keeps the progress it has. *)
Lemma shown_stays (ms : list SSEMessage.t) (t : Toast.t) :
  Forall (fun m => SSEMessage.type m = "update" /\ anyEnabled m = false) ms ->
  Toast.connected t = true ->
  Forall (fun p => p = Toast.progress t) (shownProgress ms t).
Proof.
  intros H. revert t. induction H as [|m ms (Hty & Hen) _ IH]; intros t Hc.
  - constructor.
  - cbn [shownProgress]. rewrite Hc.
    assert (E : Toast.progress (onmessage (Some m) t) = Toast.progress t
                /\ Toast.connected (onmessage (Some m) t) = true).
    { unfold onmessage. rewrite Hty, Hen. cbn.
      destruct (SSEMessage.progress m); cbn; split; auto. }
    destruct E as [Ep Ec]. constructor; [exact Ep|].
    rewrite <- Ep. apply IH. exact Ec.
Qed.

Lemma sorted_constant (xs : list Z) (c top : Z) :
  Forall (fun p => p = c) xs -> c <= top ->
  StronglySorted Z.le (List.app xs [top]).
Proof.
  intros H Hle. induction H as [|x xs -> Hxs IH]; cbn.
  - repeat constructor.
  - constructor; [exact IH|].
    apply Forall_app. split.
    + eapply Forall_impl; [|exact Hxs]. cbn. intros a ->. apply Z.le_refl.
    + repeat constructor. exact Hle.
Qed.

Lemma deliver_hidden (ms : list SSEMessage.t) (t : Toast.t) :
  Forall (fun m => anyEnabled m = false) ms ->
  Toast.showProgress (deliver ms t) = Toast.showProgress t.
Proof.
  intros H. revert t. induction H as [|m ms Hm _ IH]; intros t; [reflexivity|].
  cbn [deliver]. destruct (Toast.connected t); [|reflexivity].
  rewrite IH. unfold onmessage. rewrite Hm.
  destruct (String.eqb (SSEMessage.type m) "ready"); [reflexivity|].
  destruct (String.eqb (SSEMessage.type m) "update"),
           (String.eqb (SSEMessage.type m) "done"),
           (SSEMessage.progress m); reflexivity.
Qed.

(** X15.  Fed with the messages of a run that nothing interrupts, the toast
    ends with the header ["Measurement complete"] and the progress 100, its
    connection closed and exactly one timer set to close it. *)
Theorem toast_after_measuring_run :
  forall {externals : Externals} (w : World) (settings : Settings.t)
         (ds : DisplayStates.t) (b m a : WifiResults.t),
    measures w settings b m a ->
    let t :=
      deliver (published (effects (snd (runSurveyTests w settings (startState ds)))))
        mounted in
    Toast.toastHeader t = "Measurement complete"
    /\ Toast.progress t = 100
    /\ Toast.connected t = false
    /\ Toast.closeTimers t = 1%nat.
Proof.
  intros externals w settings ds b m a Hmeasures.
  destruct (run_main w settings ds b m a Hmeasures)
    as (iperf & final & l & evs & E & T & H & P & S & F).
  rewrite E. cbn [snd effects].
  assert (Hpub : published
                   (List.app evs
                      (SSE (getUpdatedMessage final)
                       :: (if agree b a then []
                           else [Log LevelDebug
                                   (stringify (WifiResults.bssid b) ++ " "
                                    ++ stringify (WifiResults.bssid a));
                                 Log LevelError "Attempt failed:"])))
                 = List.app (published evs) [getUpdatedMessage final]).
  { rewrite published_app. destruct (agree b a); reflexivity. }
  rewrite Hpub. cbv zeta. rewrite deliver_app.
  destruct (deliver_updates (published evs) mounted F) as (C & Tm & _).
  cbn [deliver]. rewrite C. cbn [Toast.connected mounted].
  unfold onmessage.
  change (SSEMessage.type (getUpdatedMessage final)) with (DisplayStates.type final).
  change (SSEMessage.header (getUpdatedMessage final)) with (DisplayStates.header final).
  rewrite T, H. cbn. rewrite Tm. repeat split.
Qed.

Lemma toast_after_measuring_run_witness :
  Toast.toastHeader
    (deliver
       (published
          (effects (snd (runSurveyTests (externals := Demo.externals) Demo.steady
                           Demo.settings Demo.start))))
       mounted)
  = "Measurement complete"
  /\ Toast.connected
       (deliver
          (published
             (effects (snd (runSurveyTests (externals := Demo.externals) Demo.steady
                              Demo.settings Demo.start))))
          mounted)
     = false.
Proof.
  destruct (toast_after_measuring_run (externals := Demo.externals)
              Demo.steady Demo.settings moduleDisplayStates
              (Demo.entry "aa:bb" 40) (Demo.entry "aa:bb" 44) (Demo.entry "aa:bb" 46))
    as (H & _ & C & _).
  - demo_measures.
  - split; [exact H | exact C].
Defined.

(** X16.  Fed with the messages of a run whose first sample fails, the toast
    is left as the first message set it: still connected, still running, no
    timer set to close it. *)
Theorem toast_left_open_when_sample_fails :
  forall {externals : Externals} (w : World) (settings : Settings.t)
         (ds : DisplayStates.t),
    preflightSettings w settings = Returned "" ->
    probed w settings ->
    (exists ssids s others,
       scanWifi w settings = Returned ssids
       /\ filter WifiResults.currentSSID ssids = s :: others) ->
    firstSampleFails w settings ->
    let t :=
      deliver (published (effects (snd (runSurveyTests w settings (startState ds)))))
        mounted in
    Toast.toastHeader t = "Measurement beginning"
    /\ Toast.connected t = true
    /\ Toast.taskRunning t = true
    /\ Toast.closeTimers t = 0%nat.
Proof.
  intros externals w settings ds Hpre Hprobe Hscan Hfail.
  destruct (first_sample_failure w settings ds Hpre Hprobe Hscan Hfail)
    as (_ & d & P & T & H).
  cbv zeta. rewrite P. cbn [deliver mounted Toast.connected].
  unfold onmessage.
  change (SSEMessage.type (getUpdatedMessage d)) with (DisplayStates.type d).
  change (SSEMessage.header (getUpdatedMessage d)) with (DisplayStates.header d).
  rewrite T, H. cbn.
  destruct (SSEMessage.progress (getUpdatedMessage d));
    [destruct (anyEnabled (getUpdatedMessage d))|]; repeat split.
Qed.

Lemma toast_left_open_when_sample_fails_witness :
  Toast.connected
    (deliver
       (published
          (effects (snd (runSurveyTests (externals := Demo.externals) Cases.deaf
                           Demo.settings Demo.start))))
       mounted)
  = true.
Proof.
  destruct (toast_left_open_when_sample_fails (externals := Demo.externals)
              Cases.deaf Demo.settings moduleDisplayStates)
    as (_ & C & _).
  - reflexivity.
  - right. exists "". reflexivity.
  - exists [Demo.entry "aa:bb" 40], (Demo.entry "aa:bb" 40), []. split; reflexivity.
  - left. exists (JsError "Command failed: nmcli"). split; [reflexivity | discriminate].
  - exact C.
Defined.

(** X17.  When no bandwidth test is performed (the server is ["localhost"],
    the server check gave a reason, or both protocols are switched off), the
    toast never shows its progress bar, whatever else the run does. *)
Theorem progress_bar_hidden_without_tests :
  forall {externals : Externals} (w : World) (settings : Settings.t)
         (ds : DisplayStates.t),
    performs w settings && Settings.iperfTcpEnabled settings = false ->
    performs w settings && Settings.iperfUdpEnabled settings = false ->
    Toast.showProgress
      (deliver (published (effects (snd (runSurveyTests w settings (startState ds)))))
         mounted)
    = false.
Proof.
  intros externals w settings ds Htcp Hudp.
  destruct (run_sound w settings ds) as [Hall _].
  apply published_allowed in Hall. rewrite Htcp, Hudp in Hall.
  rewrite deliver_hidden; [reflexivity|].
  eapply Forall_impl; [|exact Hall].
  intros m [-> | (Ht & Hu & _)]; [reflexivity|].
  unfold anyEnabled. rewrite Ht, Hu. reflexivity.
Qed.

Lemma progress_bar_hidden_without_tests_witness :
  Toast.showProgress
    (deliver
       (published
          (effects (snd (runSurveyTests (externals := Demo.externals)
                           Cases.unreachable Demo.settings Demo.start))))
       mounted)
  = false
  /\ Toast.showProgress
       (deliver
          (published
             (effects (snd (runSurveyTests (externals := Demo.externals)
                              Demo.steady Cases.wifiOnly Demo.start))))
          mounted)
     = false.
Proof.
  split.
  - apply (progress_bar_hidden_without_tests (externals := Demo.externals)
             Cases.unreachable Demo.settings moduleDisplayStates); reflexivity.
  - apply (progress_bar_hidden_without_tests (externals := Demo.externals)
             Demo.steady Cases.wifiOnly moduleDisplayStates); reflexivity.
Defined.

(** X18.  Fed with the messages of a run that nothing interrupts and whose
    clock behaves, the progress the toast holds never decreases from one
    message to the next. *)
Theorem toast_progress_never_decreases :
  forall {externals : Externals} (w : World) (settings : Settings.t)
         (ds : DisplayStates.t) (b m a : WifiResults.t),
    measures w settings b m a ->
    clockSane w settings ->
    StronglySorted Z.le
      (shownProgress
         (published (effects (snd (runSurveyTests w settings (startState ds)))))
         mounted).
Proof.
  intros externals w settings ds b m a Hmeasures Hclock.
  pose proof (run_mono w settings ds Hclock) as Hmono.
  destruct (run_sound w settings ds) as [Hall _].
  apply published_allowed in Hall.
  destruct (run_main w settings ds b m a Hmeasures)
    as (iperf & final & l & evs & E & T & H & P & S & F).
  rewrite E in Hmono, Hall |- *. unfold mono in Hmono.
  cbn [snd effects displayStates] in Hmono, Hall |- *.
  assert (Hpub : published
                   (List.app evs
                      (SSE (getUpdatedMessage final)
                       :: (if agree b a then []
                           else [Log LevelDebug
                                   (stringify (WifiResults.bssid b) ++ " "
                                    ++ stringify (WifiResults.bssid a));
                                 Log LevelError "Attempt failed:"])))
                 = List.app (published evs) [getUpdatedMessage final]).
  { rewrite published_app. destruct (agree b a); reflexivity. }
  rewrite Hpub in Hmono, Hall |- *. clear Hpub E.
  apply Forall_app in Hall. destruct Hall as [Hall _].
  rewrite progressValues_app in Hmono. cbn [progressValues] in Hmono.
  rewrite progress_getUpdatedMessage, P in Hmono.
  apply StronglySorted_app_inv in Hmono. destruct Hmono as [Hsorted _].
  rewrite shownProgress_app.
  destruct (deliver_updates (published evs) mounted F) as (C & _ & _).
  assert (Hlast : shownProgress [getUpdatedMessage final] (deliver (published evs) mounted)
                  = [100]).
  { cbn [shownProgress]. rewrite C. cbn [mounted Toast.connected].
    unfold onmessage.
    change (SSEMessage.type (getUpdatedMessage final)) with (DisplayStates.type final).
    rewrite T. reflexivity. }
  rewrite Hlast. clear Hlast.
  destruct ((performs w settings && Settings.iperfTcpEnabled settings)
            || (performs w settings && Settings.iperfUdpEnabled settings)) eqn:Hany.
  - rewrite (shown_follows (published evs) mounted); [exact Hsorted | | reflexivity].
    apply Forall_forall. intros msg Hin.
    pose proof (proj1 (Forall_forall _ _) F msg Hin) as Hty.
    pose proof (proj1 (Forall_forall _ _) Hall msg Hin) as [-> | (Ht & Hu & Hp)];
      [discriminate|].
    split; [exact Hty|]. split; [|exact Hp].
    unfold anyEnabled. rewrite Ht, Hu.
    destruct (performs w settings && Settings.iperfTcpEnabled settings),
             (performs w settings && Settings.iperfUdpEnabled settings);
      try reflexivity; discriminate.
  - apply (sorted_constant _ 0 100); [|discriminate].
    apply (shown_stays (published evs) mounted); [|reflexivity].
    apply Forall_forall. intros msg Hin.
    pose proof (proj1 (Forall_forall _ _) F msg Hin) as Hty.
    pose proof (proj1 (Forall_forall _ _) Hall msg Hin) as [-> | (Ht & Hu & Hp)];
      [discriminate|].
    split; [exact Hty|].
    apply orb_false_iff in Hany. destruct Hany as [Ha Hb].
    unfold anyEnabled. rewrite Ht, Hu, Ha, Hb. reflexivity.
Qed.

Lemma toast_progress_never_decreases_witness :
  StronglySorted Z.le
    (shownProgress
       (published
          (effects (snd (runSurveyTests (externals := Demo.externals) Demo.steady
                           Demo.settings Demo.start))))
       mounted).
Proof.
  apply (toast_progress_never_decreases (externals := Demo.externals)
           Demo.steady Demo.settings moduleDisplayStates
           (Demo.entry "aa:bb" 40) (Demo.entry "aa:bb" 44) (Demo.entry "aa:bb" 46)).
  - demo_measures.
  - split; [reflexivity|]. intros dir ty. split.
    + repeat constructor; lia.
    + repeat constructor; lia.
Defined.

(** ** The helpers of the orchestrator *)

Lemma fold_add_Num (xs : list Q) (acc : Q) :
  fold_left add (map Num xs) (Num acc) = Num (fold_left Qplus xs acc).
Proof.
  revert acc. induction xs as [|x xs IH]; intros acc; [reflexivity|].
  cbn. apply IH.
Qed.

Lemma sum_between (xs : list Q) (lo hi acc : Q) :
  Forall (fun x => (lo <= x)%Q /\ (x <= hi)%Q) xs ->
  (acc + inject_Z (Z.of_nat (List.length xs)) * lo <= fold_left Qplus xs acc)%Q
  /\ (fold_left Qplus xs acc <= acc + inject_Z (Z.of_nat (List.length xs)) * hi)%Q.
Proof.
  intros H. revert acc. induction H as [|x xs [Hlo Hhi] _ IH]; intros acc.
  - cbn [List.length fold_left Z.of_nat]. change (inject_Z 0) with 0%Q. split; lra.
  - cbn [List.length fold_left].
    rewrite Nat2Z.inj_succ, <- Z.add_1_r, inject_Z_plus.
    destruct (IH (acc + x)%Q) as [L U].
    set (n := inject_Z (Z.of_nat (List.length xs))) in *.
    split.
    + apply Qle_trans with (acc + x + n * lo)%Q; [|exact L].
      setoid_replace ((n + inject_Z 1) * lo)%Q with (n * lo + lo)%Q by ring. lra.
    + apply Qle_trans with (acc + x + n * hi)%Q; [exact U|].
      setoid_replace ((n + inject_Z 1) * hi)%Q with (n * hi + hi)%Q by ring. lra.
Qed.

(** X19.  The average of a non-empty list of finite numbers that all lie
    between two integers is an integer between the same two: averaging
    percentages gives a percentage. *)
Theorem arrayAverage_between :
  forall (xs : list Q) (lo hi : Z),
    xs <> [] ->
    Forall (fun x => (inject_Z lo <= x)%Q /\ (x <= inject_Z hi)%Q) xs ->
    exists n, arrayAverage (map Num xs) = Some n /\ lo <= n <= hi.
Proof.
  intros xs lo hi Hne Hall.
  unfold arrayAverage. rewrite length_map.
  destruct xs as [|x xs]; [contradiction Hne; reflexivity|].
  cbn [List.length Nat.eqb].
  change (Num 0) with (Num 0%Q). rewrite fold_add_Num. cbn [divLength Math_roundN].
  eexists. split; [reflexivity|].
  destruct (sum_between (x :: xs) (inject_Z lo) (inject_Z hi) 0 Hall) as [L U].
  cbn [List.length] in L, U.
  set (n := inject_Z (Z.of_nat (S (List.length xs)))) in *.
  assert (Hn : (0 < n)%Q).
  { unfold n. change 0%Q with (inject_Z 0). rewrite <- Zlt_Qlt. lia. }
  split.
  - apply Z.le_trans with (Math_round (inject_Z lo));
      [rewrite Math_round_Z; apply Z.le_refl|].
    apply Math_round_le. apply Qle_shift_div_l; [exact Hn|]. lra.
  - apply Z.le_trans with (Math_round (inject_Z hi));
      [|rewrite Math_round_Z; apply Z.le_refl].
    apply Math_round_le. apply Qle_shift_div_r; [exact Hn|]. lra.
Qed.

Lemma arrayAverage_between_witness :
  exists n, arrayAverage [Num 40; Num 44; Num 46] = Some n /\ 0 <= n <= 100.
Proof.
  apply (arrayAverage_between [40%Q; 44%Q; 46%Q] 0 100).
  - discriminate.
  - repeat (apply Forall_cons; [split; unfold Qle; cbn; lia|]). apply Forall_nil.
Defined.

Lemma fold_add_NaN (xs : list number) : fold_left add xs NaN = NaN.
Proof. induction xs as [|x xs IH]; [reflexivity|]. cbn. exact IH. Qed.

(** X20.  One sample that is not a number makes the whole average not a
    number. *)
Theorem arrayAverage_NaN :
  forall (arr : list number), In NaN arr -> arrayAverage arr = None.
Proof.
  intros arr Hin. unfold arrayAverage.
  destruct arr as [|x arr]; [destruct Hin|].
  cbn [List.length Nat.eqb].
  assert (Hsum : forall acc, fold_left add (x :: arr) acc = NaN).
  { clear -Hin. revert Hin. generalize (x :: arr). intros xs.
    induction xs as [|y xs IH]; intros Hin acc; [destruct Hin|].
    cbn. destruct Hin as [-> | Hin].
    - destruct acc; cbn; apply fold_add_NaN.
    - apply IH. exact Hin. }
  rewrite Hsum. reflexivity.
Qed.

Lemma arrayAverage_NaN_witness : arrayAverage [Num 40; NaN; Num 46] = None.
Proof.
  apply (arrayAverage_NaN [Num 40; NaN; Num 46]).
  right. left. reflexivity.
Defined.

(** X21.  The toast renders the status of an update as the server built it:
    one line for the signal strength, then one line for each protocol whose
    flag is set, provided the three texts hold no line break. *)
Theorem toast_renders_status_lines :
  forall (d : DisplayStates.t) (t : Toast.t),
    DisplayStates.type d = "update" ->
    includes (DisplayStates.strength d) newline = false ->
    includes (DisplayStates.tcp d) newline = false ->
    includes (DisplayStates.udp d) newline = false ->
    statusLines (onmessage (Some (getUpdatedMessage d)) t)
    = List.app ["Signal strength: " ++ shownStrength (DisplayStates.strength d)]
        (List.app
           (if DisplayStates.tcpEnabled d then ["TCP: " ++ DisplayStates.tcp d] else [])
           (if DisplayStates.udpEnabled d then ["UDP: " ++ DisplayStates.udp d] else [])).
Proof.
  intros d t Hty Hs Htcp Hudp.
  assert (Hstatus : Toast.toastStatus (onmessage (Some (getUpdatedMessage d)) t)
                    = SSEMessage.status (getUpdatedMessage d)).
  { unfold onmessage.
    change (SSEMessage.type (getUpdatedMessage d)) with (DisplayStates.type d).
    rewrite Hty. cbn.
    destruct (SSEMessage.progress (getUpdatedMessage d));
      [destruct (anyEnabled (getUpdatedMessage d))|]; reflexivity. }
  unfold statusLines. rewrite Hstatus. unfold getUpdatedMessage. cbn [SSEMessage.status].
  assert (Hshown : includes (shownStrength (DisplayStates.strength d)) newline = false).
  { unfold shownStrength. destruct (String.eqb (DisplayStates.strength d) "-");
      [exact Hs|]. unfold newline in *. rewrite includes_char_app, Hs. reflexivity. }
  assert (Hline : forall label text,
            includes label newline = false -> includes text newline = false ->
            includes (label ++ text) newline = false).
  { intros label text Hl Ht. unfold newline in *.
    rewrite includes_char_app, Hl, Ht. reflexivity. }
  fold (shownStrength (DisplayStates.strength d)).
  replace (if negb (String.eqb (DisplayStates.strength d) "-")
           then DisplayStates.strength d ++ "%"
           else DisplayStates.strength d)
    with (shownStrength (DisplayStates.strength d))
    by (unfold shownStrength; destruct (String.eqb (DisplayStates.strength d) "-");
        reflexivity).
  destruct (DisplayStates.tcpEnabled d), (DisplayStates.udpEnabled d);
    cbn [List.app]; apply (split_join (ascii_of_nat 10));
    repeat (apply Forall_cons; [apply Hline; [reflexivity | assumption]|]);
    apply Forall_nil.
Qed.

Lemma toast_renders_status_lines_witness :
  statusLines
    (onmessage
       (Some (getUpdatedMessage
                (DisplayStates.mk "update" "Measuring Wi-Fi (home)" "43"
                   "480 / ... Mbps" "-/- Mbps" true false 25)))
       mounted)
  = ["Signal strength: 43%"; "TCP: 480 / ... Mbps"].
Proof.
  apply (toast_renders_status_lines
           (DisplayStates.mk "update" "Measuring Wi-Fi (home)" "43"
              "480 / ... Mbps" "-/- Mbps" true false 25) mounted);
    reflexivity.
Defined.

(** X22.  A sample whose band or channel is not a number never passes the
    consistency check, not even against an identical sample: a run that
    nothing interrupts then resolves with an empty status and the bandwidth
    record, but without a Wi-Fi entry. *)
Theorem unreadable_band_discards_entry :
  forall {externals : Externals} (w : World) (settings : Settings.t)
         (ds : DisplayStates.t) (b m a : WifiResults.t),
    measures w settings b m a ->
    WifiResults.band b = NaN \/ WifiResults.channel b = NaN ->
    fst (runSurveyTests w settings (startState ds))
    = Returned (SurveyResult.mk (Some (measuredRecord w settings)) None "").
Proof.
  intros externals w settings ds b m a Hmeasures Hnan.
  rewrite (run_record w settings ds b m a Hmeasures).
  assert (Hagree : agree b a = false).
  { unfold agree. destruct Hnan as [-> | ->]; cbn;
      [rewrite andb_false_r; reflexivity | apply andb_false_r]. }
  rewrite Hagree. reflexivity.
Qed.

Lemma unreadable_band_discards_entry_witness :
  fst (runSurveyTests (externals := Demo.externals) Cases.garbled Demo.settings
         Demo.start)
  = Returned
      (SurveyResult.mk
         (Some (measuredRecord (externals := Demo.externals) Cases.garbled
                  Demo.settings))
         None "").
Proof.
  apply (unreadable_band_discards_entry (externals := Demo.externals)
           Cases.garbled Demo.settings moduleDisplayStates
           (Cases.bandless 40) (Cases.bandless 44) (Cases.bandless 46)).
  - repeat split; try reflexivity;
      [ right; exists ""; reflexivity
      | exists [Demo.entry "aa:bb" 40], (Demo.entry "aa:bb" 40), []; split; reflexivity
      | exists []; reflexivity
      | exists []; reflexivity
      | exists []; reflexivity ].
  - left. reflexivity.
Defined.

(** ** The settings editor *)

Lemma checkbox_adrs (settings : HeatmapSettings.t) (type : BandwidthKind)
    (checked : bool) :
  let after := store (handleBandwidthCheckboxChange settings type checked) settings in
  HeatmapSettings.iperfTcpEnabled after || HeatmapSettings.iperfUdpEnabled after = false
  <-> HeatmapSettings.iperfServerAdrs after = "localhost".
Proof.
  intros after. unfold after, handleBandwidthCheckboxChange, store.
  destruct settings as [adrs dur tcp udp hist]. cbn.
  destruct (String.eqb adrs "localhost") eqn:Hl.
  - destruct type, checked, tcp, udp; cbn;
      split; intros H; try discriminate; reflexivity.
  - apply String.eqb_neq in Hl.
    destruct type, checked, tcp, udp; cbn; split; intros H;
      try discriminate; try reflexivity; contradiction.
Qed.

(** X23.  After any change of a bandwidth checkbox the stored settings hold
    the flags as ticked, and the server address is ["localhost"] exactly
    when no protocol is enabled. *)
Theorem checkbox_keeps_server_in_step :
  forall (settings : HeatmapSettings.t) (type : BandwidthKind) (checked : bool),
    let after := store (handleBandwidthCheckboxChange settings type checked) settings in
    match type with
    | KindTcp =>
        HeatmapSettings.iperfTcpEnabled after = checked
        /\ HeatmapSettings.iperfUdpEnabled after
           = HeatmapSettings.iperfUdpEnabled settings
    | KindUdp =>
        HeatmapSettings.iperfUdpEnabled after = checked
        /\ HeatmapSettings.iperfTcpEnabled after
           = HeatmapSettings.iperfTcpEnabled settings
    end
    /\ (HeatmapSettings.iperfTcpEnabled after || HeatmapSettings.iperfUdpEnabled after
        = false
        <-> HeatmapSettings.iperfServerAdrs after = "localhost").
Proof.
  intros settings type checked after. split.
  - unfold after, handleBandwidthCheckboxChange, store.
    destruct settings as [adrs dur tcp udp hist]. cbn.
    destruct type, (String.eqb adrs "localhost"), checked, tcp, udp; cbn;
      split; reflexivity.
  - apply checkbox_adrs.
Qed.

Lemma no_check_in_plan {externals : Externals} (w : World) (settings : Settings.t)
    (done rest : list Event) :
  Settings.iperfServerAdrs settings = "localhost" ->
  List.app done rest = runPlan w settings ->
  ~ In (Call CallCheckIperfServer) done.
Proof.
  intros Hl Hplan Hin.
  assert (Hin' : In (Call CallCheckIperfServer) (runPlan w settings)).
  { rewrite <- Hplan. apply in_or_app. left. exact Hin. }
  unfold runPlan, performs in Hin'. rewrite Hl in Hin'. cbn in Hin'.
  repeat (destruct Hin' as [Hin' | Hin']; [discriminate|]). exact Hin'.
Qed.

(** X24.  Once the user has unticked the last protocol, a survey run with
    the stored settings is a Wi-Fi-only run: it neither checks the server
    nor launches [iperf3]. *)
Theorem unticked_tests_are_not_run :
  forall {externals : Externals} (w : World) (settings : HeatmapSettings.t)
         (type : BandwidthKind) (ds : DisplayStates.t),
    let after := store (handleBandwidthCheckboxChange settings type false) settings in
    HeatmapSettings.iperfTcpEnabled after || HeatmapSettings.iperfUdpEnabled after
    = false ->
    Forall (fun ev =>
              ev <> Call CallCheckIperfServer
              /\ forall server dir ty, ev <> Exec server dir ty)
      (effects (snd (runSurveyTests w (surveySettings after) (startState ds)))).
Proof.
  intros externals w settings type ds after Hnone.
  destruct (checkbox_adrs settings type false) as [Hiff _].
  fold after in Hiff. specialize (Hiff Hnone).
  assert (Hl : Settings.iperfServerAdrs (surveySettings after) = "localhost")
    by exact Hiff.
  destruct (run_sound w (surveySettings after) ds) as [Hall [rest Hplan]].
  pose proof (no_check_in_plan w (surveySettings after) _ rest Hl Hplan) as Hno.
  apply Forall_forall. intros ev Hin. split.
  - intros ->. apply Hno. unfold launches. apply filter_In. split; [exact Hin | reflexivity].
  - intros server dir ty ->.
    pose proof (proj1 (Forall_forall _ _) Hall _ Hin) as [_ Hen].
    unfold performs in Hen. rewrite Hl in Hen. destruct ty; discriminate.
Qed.

Lemma unticked_tests_are_not_run_witness :
  Forall (fun ev =>
            ev <> Call CallCheckIperfServer
            /\ forall server dir ty, ev <> Exec server dir ty)
    (effects
       (snd (runSurveyTests (externals := Demo.externals) Demo.steady
               (surveySettings
                  (store (handleBandwidthCheckboxChange
                            (HeatmapSettings.mk "10.0.0.2" 10 true false [])
                            KindTcp false)
                     (HeatmapSettings.mk "10.0.0.2" 10 true false [])))
               Demo.start))).
Proof.
  apply (unticked_tests_are_not_run (externals := Demo.externals) Demo.steady
           (HeatmapSettings.mk "10.0.0.2" 10 true false []) KindTcp
           moduleDisplayStates).
  reflexivity.
Defined.

Lemma existsb_eqb (x : string) (xs : list string) :
  existsb (String.eqb x) xs = false -> ~ In x xs.
Proof.
  intros H Hin. assert (E : existsb (String.eqb x) xs = true).
  { apply existsb_exists. exists x. split; [exact Hin | apply String.eqb_refl]. }
  congruence.
Qed.

Lemma In_firstn {A} (n : nat) (xs : list A) (x : A) :
  In x (firstn n xs) -> In x xs.
Proof.
  revert n. induction xs as [|y xs IH]; intros n H.
  - destruct n; exact H.
  - destruct n; [destruct H|]. cbn in H. destruct H as [-> | H].
    + left. reflexivity.
    + right. apply (IH n H).
Qed.

Lemma NoDup_firstn {A} (n : nat) (xs : list A) : NoDup xs -> NoDup (firstn n xs).
Proof.
  intros H. revert n. induction H as [|x xs Hx _ IH]; intros n.
  - destruct n; constructor.
  - destruct n; cbn; constructor.
    + intros Hin. apply Hx. apply (In_firstn n xs x Hin).
    + apply IH.
Qed.

(** X25.  The history of server addresses stays tidy when the server field
    loses the focus: no address twice, at most ten, never the empty address,
    never ["localhost"]; and an address that is added comes first. *)
Theorem server_history_stays_tidy :
  forall (trim : string -> string) (settings : HeatmapSettings.t),
    tidy (HeatmapSettings.iperfServerHistory settings) ->
    tidy (HeatmapSettings.iperfServerHistory (afterBlur trim settings))
    /\ (forall update,
          handleServerBlur trim settings = Some update ->
          hd_error (HeatmapSettings.iperfServerHistory (afterBlur trim settings))
          = Some (trim (HeatmapSettings.iperfServerAdrs settings))).
Proof.
  intros trim settings (Hnd & Hlen & Hempty & Hlocal).
  unfold afterBlur, handleServerBlur.
  destruct settings as [adrs dur tcp udp hist]. cbn in *.
  destruct (String.eqb (trim adrs) "") eqn:He; cbn;
    [split; [repeat split; assumption | discriminate]|].
  destruct (String.eqb (trim adrs) "localhost") eqn:Hl; cbn;
    [split; [repeat split; assumption | discriminate]|].
  destruct (existsb (String.eqb (trim adrs)) hist) eqn:Hin; cbn;
    [split; [repeat split; assumption | discriminate]|].
  apply String.eqb_neq in He, Hl. apply existsb_eqb in Hin.
  split; [|intros; reflexivity].
  assert (Hsub : forall x, In x (trim adrs :: firstn 9 hist) -> x = trim adrs \/ In x hist).
  { intros x [<- | Hx]; [left; reflexivity | right].
    apply (In_firstn 9 hist x Hx). }
  repeat split.
  - apply (NoDup_firstn 10 (trim adrs :: hist)). constructor; assumption.
  - apply (firstn_le_length 10 (trim adrs :: hist)).
  - intros Hx. destruct (Hsub _ Hx) as [E | E]; [apply He; symmetry; exact E | auto].
  - intros Hx. destruct (Hsub _ Hx) as [E | E]; [apply Hl; symmetry; exact E | auto].
Qed.

Lemma server_history_stays_tidy_witness :
  tidy (HeatmapSettings.iperfServerHistory
          (afterBlur (fun s => s)
             (HeatmapSettings.mk "10.0.0.2" 10 true false ["10.0.0.1"]))).
Proof.
  apply (server_history_stays_tidy (fun s => s)
           (HeatmapSettings.mk "10.0.0.2" 10 true false ["10.0.0.1"])).
  repeat split.
  - repeat constructor. intros [].
  - cbn. lia.
  - intros [H | []]. discriminate.
  - intros [H | []]. discriminate.
Defined.

(** X26.  Leaving the server field a second time changes nothing: the
    address the first blur stored or found is in the history. *)
Theorem second_blur_changes_nothing :
  forall (trim : string -> string) (settings : HeatmapSettings.t),
    handleServerBlur trim (afterBlur trim settings) = None.
Proof.
  intros trim settings. unfold afterBlur.
  destruct (handleServerBlur trim settings) as [update|] eqn:Hblur; [|exact Hblur].
  unfold handleServerBlur in *.
  destruct settings as [adrs dur tcp udp hist]. cbn in *.
  destruct (negb (String.eqb (trim adrs) "")
            && negb (String.eqb (trim adrs) "localhost")
            && negb (existsb (String.eqb (trim adrs)) hist)); [|discriminate].
  injection Hblur as <-. cbn. rewrite String.eqb_refl. cbn.
  rewrite !andb_false_r. reflexivity.
Qed.

(** ** The survey table *)



Lemma doubleQuotes_tail (a b : string) :
  doubleQuotes a ++ String quote "" = doubleQuotes b ++ String quote "" -> a = b.
Proof.
  assert (Hq : forall c, Ascii.eqb c quote = false -> quote <> c).
  { intros c E <-. rewrite Ascii.eqb_refl in E. discriminate. }
  revert b. induction a as [|c a IH]; intros b H.
  - destruct b as [|c' b]; [reflexivity|].
    cbn [doubleQuotes String.append] in H. destruct (Ascii.eqb c' quote) eqn:E; cbn [doubleQuotes String.append] in H.
    + discriminate H.
    + injection H. intros _ H1. destruct (Hq c' E H1).
  - destruct b as [|c' b].
    + cbn [doubleQuotes String.append] in H. destruct (Ascii.eqb c quote) eqn:E; cbn [doubleQuotes String.append] in H.
      * discriminate H.
      * injection H. intros _ H1. destruct (Hq c E (eq_sym H1)).
    + cbn [doubleQuotes String.append] in H.
      destruct (Ascii.eqb c quote) eqn:E, (Ascii.eqb c' quote) eqn:E'; cbn [doubleQuotes String.append] in H.
      * apply Ascii.eqb_eq in E, E'. subst c c'.
        injection H. intros H2. rewrite (IH b H2). reflexivity.
      * injection H. intros _ H1. destruct (Hq c' E' H1).
      * injection H. intros _ H1. destruct (Hq c E (eq_sym H1)).
      * injection H. intros H2 H1. subst c'. rewrite (IH b H2). reflexivity.
Qed.

(** X28.  Escaping loses nothing: two texts with the same escaped form are
    the same text. *)
Theorem escapeCSV_injective :
  forall (a b : string), escapeCSV (Some a) = escapeCSV (Some b) -> a = b.
Proof.
  intros a b. unfold escapeCSV.
  destruct (includes a "," || includes a (String quote "") || includes a newline)
    eqn:Ha,
    (includes b "," || includes b (String quote "") || includes b newline) eqn:Hb.
  - intros H. injection H as H. apply doubleQuotes_tail. exact H.
  - intros <-. rewrite (includes_char_cons quote) in Hb.
    rewrite Ascii.eqb_refl in Hb. cbn in Hb.
    rewrite orb_true_r in Hb. discriminate.
  - intros ->. rewrite (includes_char_cons quote) in Ha.
    rewrite Ascii.eqb_refl in Ha. cbn in Ha.
    rewrite orb_true_r in Ha. discriminate.
  - intros H. exact H.
Qed.

Lemma escapeCSV_injective_witness :
  escapeCSV (Some "a,b") = String quote ("a,b" ++ String quote "")
  /\ "a,b" = "a,b".
Proof.
  split; [reflexivity|].
  apply (escapeCSV_injective "a,b" "a,b"). reflexivity.
Defined.

(** ** The tab panel *)

